(** * Alert-to-order pipeline: position sizing, risk gate, trade lifecycle
      and PnL reconciliation.

    Shallow embedding of
      - [utils/positionSizing.edge.mjs]   ([calculatePositionSize]),
      - [processAlert.edge.js]            (the alert [handler]),
      - [updateTradePnl.edge.js]          (the reconciliation [handler]).

    JavaScript numbers are idealised as exact rationals ([Q], compared with
    [==]); [null]/missing values are [None]; strings are [string].  Where a
    statement turns on rounding, the code is also given over the doubles it
    runs in ([PositionSizingDoubles], [RiskCheck]).  *)

From Stdlib Require Import QArith Qround Qabs ZArith String DecimalString List Bool Lia Lqa.
From Stdlib Require PrimFloat FloatOps SpecFloat.
Import ListNotations.
Open Scope Q_scope.

(** ** JavaScript helpers *)

Module JS.

(** [x < y] and [x <= y] on numbers, as booleans. *)
Definition leb (x y : Q) : bool := Qle_bool x y.
Definition ltb (x y : Q) : bool := negb (Qle_bool y x).
Definition gtb (x y : Q) : bool := ltb y x.
Definition geb (x y : Q) : bool := leb y x.

(** Truthiness of a nullable number: [null], [undefined] and [0] are falsy. *)
Definition truthy (o : option Q) : bool :=
  match o with
  | Some q => negb (Qeq_bool q 0)
  | None => false
  end.

(** [o || d] where [d] is a number. *)
Definition orNum (o : option Q) (d : Q) : Q :=
  match o with
  | Some q => if Qeq_bool q 0 then d else q
  | None => d
  end.

(** [o || null] on a nullable number: a falsy number becomes [null]. *)
Definition orNull (o : option Q) : option Q :=
  if truthy o then o else None.

(** [a || b] on nullable numbers. *)
Definition orOpt (a b : option Q) : option Q :=
  if truthy a then a else b.

(** Truthiness of a nullable string: [null]/[undefined] and the empty
    string are falsy. *)
Definition truthyStr (o : option string) : bool :=
  match o with
  | Some s => negb (String.eqb s EmptyString)
  | None => false
  end.

(** [o || d] where [d] is a string. *)
Definition orStr (o : option string) (d : string) : string :=
  match o with
  | Some s => if String.eqb s EmptyString then d else s
  | None => d
  end.

(** [a ?? b ?? 0] on nullable numbers (nullish coalescing: only
    [null]/[undefined] fall through). *)
Definition nullish2 (a b : option Q) : Q :=
  match a, b with
  | Some x, _ => x
  | None, Some y => y
  | None, None => 0
  end.

(** [String.prototype.toUpperCase] on ASCII text. *)
Definition upperAscii (c : Ascii.ascii) : Ascii.ascii :=
  let n := Ascii.nat_of_ascii c in
  if Nat.leb 97 n && Nat.leb n 122 then Ascii.ascii_of_nat (n - 32) else c.

Fixpoint toUpperCase (s : string) : string :=
  match s with
  | EmptyString => EmptyString
  | String c r => String (upperAscii c) (toUpperCase r)
  end.

(** [Math.floor]. *)
Definition floor (x : Q) : Q := inject_Z (Qfloor x).

(** [Math.abs]. *)
Definition abs (x : Q) : Q := Qabs x.

Definition pow10 (d : nat) : Q := inject_Z (10 ^ Z.of_nat d).

(** [parseFloat(x.toFixed(d))]: the multiple of [10^-d] nearest to [x];
    of two equally near ones [toFixed] takes the larger in magnitude (the
    sign is split off first). *)
Definition toFixed (x : Q) (d : nat) : Q :=
  if ltb x 0
  then - (floor ((- x) * pow10 d + (1 # 2)) / pow10 d)
  else floor (x * pow10 d + (1 # 2)) / pow10 d.

(** [x] has at most [d] fractional digits. *)
Definition onGrid (d : nat) (x : Q) : Prop :=
  exists k : Z, x * pow10 d == inject_Z k.

End JS.

(** ** Position Sizer ([calculatePositionSize]) *)

Module PositionSizing.

Record Params := mkParams {
  entryPrice : Q;
  stopLoss : Q;
  riskAmount : Q;
  side : string;
  feePercentage : Q;
  minQty : Q;
  qtyStep : Q;
  maxPositionSize : Q;   (* default 0 *)
  decimals : nat         (* default 8 *)
}.

(** Call with the destructuring defaults [maxPositionSize = 0],
    [decimals = 8] left in place. *)
Definition withDefaults (entry stop risk : Q) (s : string)
    (fee minq step : Q) : Params :=
  mkParams entry stop risk s fee minq step 0 8.

(** The six [throw new Error(...)] of the function, in source order. *)
Inductive SizingError :=
| EntryPriceNotPositive    (* 'Entry price must be a positive number' *)
| StopLossNotPositive      (* 'Stop loss must be a positive number' *)
| RiskAmountNotPositive    (* 'Risk amount must be a positive number' *)
| InvalidSide              (* 'Side must be Buy or Sell' *)
| StopLossNotBelowEntry    (* 'Stop loss must be below entry price for Buy orders' *)
| StopLossNotAboveEntry.   (* 'Stop loss must be above entry price for Sell orders' *)

Inductive Result :=
| Throw (error : SizingError)
| Return (quantity : Q).

(** [Math.floor(quantity / qtyStep) * qtyStep].  (Division in [Q] is total
    and exact: [x / 0] is 0 where the code's is [Infinity] or [NaN], and
    the quotient is never rounded; [PositionSizingDoubles] has the code's
    division.) *)
Definition roundDownToStep (quantity step : Q) : Q :=
  JS.floor (quantity / step) * step.

Definition entryFee (p : Params) : Q := feePercentage p / 100.
Definition exitFee (p : Params) : Q := feePercentage p / 100.

(** [riskPerUnit], once the side and direction checks have passed. *)
Definition riskPerUnit (p : Params) : Q :=
  if String.eqb (side p) "Buy"
  then entryPrice p - stopLoss p
  else stopLoss p - entryPrice p.

Definition totalFeeRateFactor (p : Params) : Q :=
  (entryPrice p * entryFee p + stopLoss p * exitFee p) / entryPrice p.

(** [positionSize = riskAmount / (riskPerUnit + entryPrice * totalFeeRateFactor)]. *)
Definition positionSize (p : Params) : Q :=
  riskAmount p / (riskPerUnit p + entryPrice p * totalFeeRateFactor p).

(** [quantity = positionSize / entryPrice] ("Convert to quantity"). *)
Definition rawQuantity (p : Params) : Q :=
  positionSize p / entryPrice p.

(** After the minimum-quantity check. *)
Definition clampedQuantity (p : Params) : Q :=
  if JS.ltb (rawQuantity p) (minQty p) then minQty p else rawQuantity p.

(** After the first round-down to the step size. *)
Definition steppedQuantity (p : Params) : Q :=
  if JS.gtb (qtyStep p) 0
  then roundDownToStep (clampedQuantity p) (qtyStep p)
  else clampedQuantity p.

(** The test [maxPositionSize > 0 && quantity * entryPrice > maxPositionSize]. *)
Definition capBinds (p : Params) : bool :=
  JS.gtb (maxPositionSize p) 0
  && JS.gtb (steppedQuantity p * entryPrice p) (maxPositionSize p).

(** After the max-position-size block. *)
Definition cappedQuantity (p : Params) : Q :=
  if capBinds p
  then
    let quantity := maxPositionSize p / entryPrice p in
    if JS.gtb (qtyStep p) 0
    then roundDownToStep quantity (qtyStep p)
    else quantity
  else steppedQuantity p.

(** The value of [actualRisk] that the function logs against its target
    [riskAmount]. *)
Definition actualRisk (p : Params) (quantity : Q) : Q :=
  quantity * riskPerUnit p
  + quantity * entryPrice p * entryFee p
  + quantity * stopLoss p * exitFee p.

Definition calculatePositionSize (p : Params) : Result :=
  if JS.leb (entryPrice p) 0 then Throw EntryPriceNotPositive
  else if JS.leb (stopLoss p) 0 then Throw StopLossNotPositive
  else if JS.leb (riskAmount p) 0 then Throw RiskAmountNotPositive
  else if negb (String.eqb (side p) "Buy") && negb (String.eqb (side p) "Sell")
  then Throw InvalidSide
  else if String.eqb (side p) "Buy" then
    if JS.leb (entryPrice p) (stopLoss p) then Throw StopLossNotBelowEntry
    else Return (JS.toFixed (cappedQuantity p) (decimals p))
  else
    if JS.leb (stopLoss p) (entryPrice p) then Throw StopLossNotAboveEntry
    else Return (JS.toFixed (cappedQuantity p) (decimals p)).

(** Inputs that pass the validation, with the stated ranges of the
    exchange limits. *)
Definition accepted (p : Params) : Prop :=
  0 < entryPrice p /\ 0 < stopLoss p /\ 0 < riskAmount p /\
  ((side p = "Buy"%string /\ stopLoss p < entryPrice p) \/
   (side p = "Sell"%string /\ entryPrice p < stopLoss p)) /\
  0 <= minQty p /\ 0 <= qtyStep p /\ 0 <= maxPositionSize p.

(** [q] is an exact multiple of [step]. *)
Definition multipleOf (step q : Q) : Prop :=
  exists k : Z, q == inject_Z k * step.

End PositionSizing.


(** ** Data model shared by the two edge functions *)

Module Model.

(** A row of [bots] (the columns the pipeline reads or writes). *)
Record Bot := mkBot {
  bot_id : nat;
  bot_symbol : option string;
  default_side : option string;
  default_order_type : option string;
  default_quantity : option Q;
  default_stop_loss : option Q;
  default_take_profit : option Q;
  risk_per_trade : option Q;
  market_fee_percentage : option Q;
  limit_fee_percentage : option Q;
  daily_loss_limit : option Q;
  max_position_size : option Q;
  position_sizing_enabled : bool;
  test_mode : bool;
  profit_loss : option Q;
  trade_count : option Z
}.

(** A row of [trades].  [trade_metrics], [details] and [updated_at] are
    written but never read by the pipeline and are left out. *)
Record Trade := mkTrade {
  id : nat;
  user_id : nat;
  trade_bot_id : nat;
  symbol : string;
  side : string;
  order_type : string;
  quantity : Q;
  price : Q;
  order_id : string;
  status : string;
  realized_pnl : option Q;
  fees : option Q;
  state : string;
  stop_loss : option Q;
  take_profit : option Q;
  close_reason : option string;
  exit_price : option Q;
  avg_entry_price : option Q;
  avg_exit_price : option Q;
  created_at : Z
}.

(** The data store: the [trades] table and the bot the webhook belongs to. *)
Record World := mkWorld {
  trades : list Trade;
  bot : Bot
}.

(** [supabase.from('trades').update(f).eq('id', i)]. *)
Definition updateTrade (i : nat) (f : Trade -> Trade) (ts : list Trade) : list Trade :=
  map (fun t => if Nat.eqb (id t) i then f t else t) ts.

(** [supabase.from('trades').select(...).eq('id', i).single()]. *)
Definition findTrade (i : nat) (ts : list Trade) : option Trade :=
  find (fun t => Nat.eqb (id t) i) ts.

Definition set_profit_loss (v : option Q) (b : Bot) : Bot :=
  mkBot (bot_id b) (bot_symbol b) (default_side b) (default_order_type b)
        (default_quantity b) (default_stop_loss b) (default_take_profit b)
        (risk_per_trade b) (market_fee_percentage b) (limit_fee_percentage b)
        (daily_loss_limit b) (max_position_size b) (position_sizing_enabled b)
        (test_mode b) v (trade_count b).

Definition set_trade_count (n : option Z) (b : Bot) : Bot :=
  mkBot (bot_id b) (bot_symbol b) (default_side b) (default_order_type b)
        (default_quantity b) (default_stop_loss b) (default_take_profit b)
        (risk_per_trade b) (market_fee_percentage b) (limit_fee_percentage b)
        (daily_loss_limit b) (max_position_size b) (position_sizing_enabled b)
        (test_mode b) (profit_loss b) n.

(** Parameters handed to [executeBybitOrder] (the credentials are left out). *)
Record OrderParams := mkOrderParams {
  op_symbol : string;
  op_side : string;
  op_orderType : string;
  op_quantity : Q;
  op_price : option Q;
  op_stopLoss : option Q;
  op_takeProfit : option Q;
  op_testnet : bool
}.

(** What [executeBybitOrder] resolves to (and what test mode simulates). *)
Record OrderResult := mkOrderResult {
  orderId : string;
  or_symbol : string;
  or_side : string;
  or_orderType : string;
  qty : Q;
  or_price : Q;
  or_status : string
}.

End Model.

(** ** The alert handler ([processAlert.edge.js]) *)

Module ProcessAlert.
Import Model.

(** A JSON value as far as JavaScript truthiness and [===] against a string
    can tell values apart. *)
Inductive Json :=
| JMissing
| JNull
| JBool (b : bool)
| JNumber (q : Q)
| JString (s : string)
| JCompound.   (* an object or an array *)

Definition truthyJson (v : Json) : bool :=
  match v with
  | JMissing | JNull => false
  | JBool b => b
  | JNumber q => negb (Qeq_bool q 0)
  | JString s => negb (String.eqb s EmptyString)
  | JCompound => true
  end.

(** The parsed alert payload; numeric fields are already numbers. *)
Record Alert := mkAlert {
  a_symbol : option string;
  a_side : option string;
  a_orderType : option string;
  a_quantity : option Q;
  a_price : option Q;
  a_stopLoss : option Q;
  a_takeProfit : option Q;
  a_state : Json;
  a_realized_pnl : option Q;
  a_close_reason : option string
}.

(** The request as the handler sees it before routing. *)
Record Request := mkRequest {
  method : string;
  envConfigured : bool;          (* SUPABASE_URL and SUPABASE_SERVICE_KEY set *)
  webhookValid : bool;           (* token found and not expired *)
  webhook_user_id : nat;
  payload : option Alert;        (* [None]: the body is not JSON *)
  apiKeyFound : bool;            (* the bot's or the default key *)
  fallbackKeyFound : bool
}.

(** Exchange instrument rule: [minQty], [step], and [decimals] counted from
    the step string. *)
Record Instrument := mkInstrument {
  ins_minQty : Q;
  ins_step : Q;
  ins_decimals : nat
}.

(** What the outside world answers during one invocation. *)
Record Outside := mkOutside {
  now : Z;                           (* [Date.now()], milliseconds *)
  random : Q;                        (* [Math.random()] *)
  tradesReadable : bool;             (* reads of [trades] succeed *)
  tradeWriteOk : bool;               (* the write to [trades] succeeds *)
  botWriteOk : bool;                 (* the write to [bots] succeeds *)
  instrument : option Instrument;    (* [None]: instruments-info failed *)
  lastPrice : option Q               (* ticker price, when the fetch works *)
}.

Inductive Response :=
| Preflight204
| MethodNotAllowed405
| ServerConfigurationError500
| InvalidWebhook404
| InvalidJson400
| ApiCredentialsNotFound400
| NoOpenTrade404
| CloseOrderFailed500 (message : string)
| TradeClosed200 (tradeId : nat) (realizedPnl : option Q) (closeReason : string)
| DailyLossLimitExceeded403 (dailyLoss limit : Q)
| OrderFailed500 (message : string)
| ProcessingError500
| OrderPlaced200 (order_id status : string) (testMode : bool)
                 (pnl : option Q) (order_fees : option Q).

(** Everything one invocation does: the store afterwards, the orders handed
    to [executeBybitOrder] (in order), the response, and the trade id the
    PnL update is triggered for. *)
Record Outcome := mkOutcome {
  world : World;
  submitted : list OrderParams;
  response : Response;
  pnlUpdate : option nat
}.

(** *** Routing *)

(** [const tradeState = alertData.state || "open"]. *)
Definition tradeState (a : Alert) : Json :=
  if truthyJson (a_state a) then a_state a else JString "open".

(** [tradeState === "close"]. *)
Definition isCloseSignal (a : Alert) : bool :=
  match tradeState a with
  | JString s => String.eqb s "close"
  | _ => false
  end.

Definition showZ (z : Z) : string := NilZero.string_of_int (Z.to_int z).

(** [(alertData.symbol || bot.symbol || '').toUpperCase()]. *)
Definition symbolOf (a : Alert) (b : Bot) : string :=
  JS.toUpperCase (JS.orStr (a_symbol a) (JS.orStr (bot_symbol b) EmptyString)).

(** *** Close signal *)

(** The open trade of the bot and symbol with the greatest [created_at]
    ([.eq('state','open').order('created_at', desc).limit(1).single()]). *)
Definition isOpenTradeOf (botId : nat) (sym : string) (t : Trade) : bool :=
  Nat.eqb (trade_bot_id t) botId && String.eqb (symbol t) sym
  && String.eqb (state t) "open".

Definition later (best : option Trade) (t : Trade) : option Trade :=
  match best with
  | None => Some t
  | Some b => if Z.ltb (created_at b) (created_at t) then Some t else Some b
  end.

Definition findOpenTrade (botId : nat) (sym : string) (ts : list Trade)
  : option Trade :=
  fold_left (fun best t => if isOpenTradeOf botId sym t then later best t else best)
            ts None.

Definition closeSide (t : Trade) : string :=
  if String.eqb (side t) "Buy" then "Sell" else "Buy".

Definition closeOrderParams (sym : string) (t : Trade) (b : Bot) : OrderParams :=
  mkOrderParams sym (closeSide t) "Market" (quantity t) None None None (test_mode b).

(** The estimate: price difference times quantity (by side), minus
    [closeResult.price * closeResult.qty * 0.001]. *)
Definition estimatePnl (t : Trade) (closeResult : OrderResult) : Q :=
  (if String.eqb (side t) "Buy"
   then (or_price closeResult - price t) * quantity t
   else (price t - or_price closeResult) * quantity t)
  - or_price closeResult * qty closeResult * 0.001.

Definition simulatedClose (a : Alert) (t : Trade) (o : OrderParams) (out : Outside)
  : OrderResult :=
  mkOrderResult (String.append "close-test-" (showZ (now out)))
                (op_symbol o) (op_side o) (op_orderType o) (op_quantity o)
                (JS.orNum (a_price a) (price t * 1.01))
                "TEST_CLOSE".

(** The [update] of the trade record on close. *)
Definition closeFields (closeReason : string) (realizedPnl : option Q)
    (closeResult : option OrderResult) (t : Trade) : Trade :=
  mkTrade (id t) (user_id t) (trade_bot_id t) (symbol t) (side t) (order_type t)
          (quantity t) (price t) (order_id t) (status t)
          realizedPnl (fees t) "closed" (stop_loss t) (take_profit t)
          (Some closeReason) (option_map or_price closeResult)
          (avg_entry_price t) (avg_exit_price t) (created_at t).

(** From "Update the trade record" to the success response. *)
Definition finishClose (w : World) (out : Outside) (openTrade : Trade)
    (closeResult : option OrderResult) (realizedPnl : option Q)
    (closeReason : string) (orders : list OrderParams) : Outcome :=
  let b := bot w in
  let trades' :=
    if tradeWriteOk out
    then updateTrade (id openTrade)
                     (closeFields closeReason realizedPnl closeResult) (trades w)
    else trades w in
  let bot' :=
    match realizedPnl with
    | Some pnl =>
        if JS.truthy realizedPnl && botWriteOk out
        then set_profit_loss (Some (JS.orNum (profit_loss b) 0 + pnl)) b
        else b
    | None => b
    end in
  mkOutcome (mkWorld trades' bot') orders
            (TradeClosed200 (id openTrade) realizedPnl closeReason)
            (if test_mode b then None else Some (id openTrade)).

Section WithExchange.

(** [executeBybitOrder] of [utils/bybit.edge.mjs]: it throws ([inl message])
    or resolves to an order result. *)
Variable executeBybitOrder : OrderParams -> string + OrderResult.

Definition closeSignal (w : World) (a : Alert) (out : Outside) : Outcome :=
  let b := bot w in
  let sym := symbolOf a b in
  match (if tradesReadable out then findOpenTrade (bot_id b) sym (trades w) else None) with
  | None => mkOutcome w [] NoOpenTrade404 None
  | Some openTrade =>
      let realizedPnl := JS.orNull (a_realized_pnl a) in
      if negb (JS.truthy (stop_loss openTrade)) && negb (JS.truthy (take_profit openTrade))
      then
        let orderParams := closeOrderParams sym openTrade b in
        if test_mode b then
          let closeResult := simulatedClose a openTrade orderParams out in
          finishClose w out openTrade (Some closeResult)
                      (Some (estimatePnl openTrade closeResult)) "signal" []
        else
          match executeBybitOrder orderParams with
          | inl message =>
              mkOutcome w [orderParams] (CloseOrderFailed500 message) None
          | inr closeResult =>
              finishClose w out openTrade (Some closeResult)
                (if JS.truthy realizedPnl then realizedPnl
                 else Some (estimatePnl openTrade closeResult))
                "signal" [orderParams]
          end
      else
        finishClose w out openTrade None realizedPnl
                    (JS.orStr (a_close_reason a) "take_profit") []
  end.

(** *** Open signal: risk management check *)

Definition msPerDay : Z := 86400000.

(** [`${today}T00:00:00.000Z`]: midnight UTC of the current day. *)
Definition startOfDay (t : Z) : Z := (t - t mod msPerDay)%Z.

(** The rows of today's-trades query: the [realized_pnl] of the bot's (and
    user's) trades created since midnight UTC; [None] is [tradesError]. *)
Definition todayTrades (w : World) (userId : nat) (out : Outside)
  : option (list (option Q)) :=
  if tradesReadable out then
    Some (map realized_pnl
              (filter (fun t => Nat.eqb (trade_bot_id t) (bot_id (bot w))
                                && Nat.eqb (user_id t) userId
                                && Z.leb (startOfDay (now out)) (created_at t))
                      (trades w)))
  else None.

(** [todayTrades.reduce((total, trade) => total + (trade.realized_pnl || 0), 0)]. *)
Definition dailyPnL (rows : list (option Q)) : Q :=
  fold_left (fun total pnl => total + JS.orNum pnl 0) rows 0.

(** The sum as the specification words it: every [realized_pnl] added up,
    [null] counted as 0. *)
Fixpoint sumRealized (rows : list (option Q)) : Q :=
  match rows with
  | [] => 0
  | Some pnl :: rest => pnl + sumRealized rest
  | None :: rest => sumRealized rest
  end.

Inductive Gate :=
| Allow
| Deny (dailyLoss limit : Q).

Definition riskGate (b : Bot) (rows : option (list (option Q))) : Gate :=
  if JS.truthy (daily_loss_limit b) || JS.truthy (max_position_size b) then
    match daily_loss_limit b with
    | Some limit =>
        if JS.gtb limit 0 then
          match rows with
          | None => Allow          (* the error is logged, the check skipped *)
          | Some rows =>
              let d := dailyPnL rows in
              if JS.ltb d 0 && JS.geb (JS.abs d) limit
              then Deny (JS.abs d) limit
              else Allow
          end
        else Allow
    | None => Allow
    end
  else Allow.

(** *** Open signal: quantity *)

(** "Default quantity adjustment". *)
Definition defaultQty (a : Alert) (b : Bot) (minQty step : Q) : Q :=
  let rawQty := JS.nullish2 (a_quantity a) (default_quantity b) in
  if JS.ltb rawQty minQty then minQty else JS.floor (rawQty / step) * step.

Definition opt0 (o : option Q) : Q :=
  match o with Some q => q | None => 0 end.

(** The "CALCULATE POSITION SIZE" block. *)
Definition sizedQty (a : Alert) (b : Bot) (i : Instrument) (out : Outside) : Q :=
  let minQty := ins_minQty i in
  let step := ins_step i in
  if position_sizing_enabled b
     && (JS.truthy (a_stopLoss a) || JS.truthy (default_stop_loss b))
  then
    let entryPrice := JS.orNull (a_price a) in
    let stopLoss := JS.orNull (a_stopLoss a) in
    let side := JS.orStr (a_side a) (JS.orStr (default_side b) "Buy") in
    let marketPrice := if JS.truthy entryPrice then entryPrice else lastPrice out in
    let stopLossPrice :=
      if negb (JS.truthy stopLoss) && JS.truthy marketPrice
         && JS.truthy (default_stop_loss b)
      then
        if String.eqb side "Buy"
        then Some (opt0 marketPrice * (1 - opt0 (default_stop_loss b) / 100))
        else Some (opt0 marketPrice * (1 + opt0 (default_stop_loss b) / 100))
      else stopLoss in
    if JS.truthy marketPrice && JS.truthy stopLossPrice then
      let feePercentage :=
        if String.eqb (JS.orStr (a_orderType a) EmptyString) "Limit"
        then limit_fee_percentage b else market_fee_percentage b in
      match PositionSizing.calculatePositionSize
              (PositionSizing.mkParams (opt0 marketPrice) (opt0 stopLossPrice)
                 (opt0 (risk_per_trade b)) side (opt0 feePercentage)
                 minQty step (JS.orNum (max_position_size b) 0) (ins_decimals i))
      with
      | PositionSizing.Return calculatedQty => calculatedQty
      | PositionSizing.Throw _ => defaultQty a b minQty step
      end
    else defaultQty a b minQty step
  else defaultQty a b minQty step.

(** From "Ensure minimum quantity" to the end of the max-position check. *)
Definition adjustedQty (a : Alert) (b : Bot) (i : Instrument) (out : Outside) : Q :=
  let minQty := ins_minQty i in
  let step := ins_step i in
  let q0 := sizedQty a b i out in
  let q1 := if JS.ltb q0 minQty then minQty else q0 in
  let q2 := JS.toFixed q1 (ins_decimals i) in
  match max_position_size b with
  | Some maxSize =>
      let estPrice := JS.orNum (a_price a) 0 in
      if JS.gtb maxSize 0 && JS.gtb estPrice 0 && JS.gtb (q2 * estPrice) maxSize
      then JS.toFixed (JS.floor (maxSize / estPrice / step) * step) (ins_decimals i)
      else q2
  | None => q2
  end.

(** *** Open signal: order, trade record, bot statistics *)

Definition openOrderParams (a : Alert) (b : Bot) (sym : string) (q : Q)
  : OrderParams :=
  mkOrderParams sym
    (JS.orStr (a_side a) (JS.orStr (default_side b) "Buy"))
    (JS.orStr (a_orderType a) (JS.orStr (default_order_type b) "Market"))
    q (a_price a)
    (JS.orNull (JS.orOpt (a_stopLoss a) (default_stop_loss b)))
    (JS.orNull (JS.orOpt (a_takeProfit a) (default_take_profit b)))
    (test_mode b).

Definition simulatedOrder (o : OrderParams) (out : Outside) : OrderResult :=
  mkOrderResult (String.append "test-" (showZ (now out)))
                (op_symbol o) (op_side o) (op_orderType o) (op_quantity o)
                (JS.orNum (op_price o) 0) "TEST_ORDER".

(** Simulated PnL and fees of a test order; [None] stands for the [NaN]
    that a missing price gives (stored as [null]). *)
Definition simulatedPnl (o : OrderParams) (out : Outside) : option Q * option Q :=
  let simulatedPriceChange := random out * 4 - 2 in
  match op_price o with
  | Some p =>
      let baseAmount := p * op_quantity o in
      let fees := baseAmount * 0.001 in
      let gross :=
        if String.eqb (op_side o) "Buy"
        then baseAmount * (simulatedPriceChange / 100)
        else baseAmount * (- simulatedPriceChange / 100) in
      (Some (gross - fees), Some fees)
  | None => (None, None)
  end.

(** DB-assigned identity of a new row: fresh for the table. *)
Definition freshId (ts : list Trade) : nat :=
  S (fold_right Nat.max O (map id ts)).

(** The [insert] into [trades]. *)
Definition newTrade (w : World) (userId : nat) (r : OrderResult)
    (o : OrderParams) (realizedPnl fees : option Q) (out : Outside) : Trade :=
  mkTrade (freshId (trades w)) userId (bot_id (bot w))
          (or_symbol r) (or_side r) (or_orderType r) (qty r) (or_price r)
          (orderId r) (or_status r) realizedPnl fees "open"
          (op_stopLoss o) (op_takeProfit o) None None None None (now out).

(** [trade_count: bot.trade_count ? bot.trade_count + 1 : 1]. *)
Definition nextTradeCount (b : Bot) : Z :=
  match trade_count b with
  | Some n => if Z.eqb n 0 then 1%Z else (n + 1)%Z
  | None => 1%Z
  end.

(** From "Log the trade" to the success response. *)
Definition recordOpen (w : World) (userId : nat) (out : Outside)
    (o : OrderParams) (r : OrderResult) (orders : list OrderParams) : Outcome :=
  let b := bot w in
  let '(realizedPnl, fees) :=
    if test_mode b then simulatedPnl o out else (None, Some 0) in
  let trades' :=
    if tradeWriteOk out
    then trades w ++ [newTrade w userId r o realizedPnl fees out]
    else trades w in
  let bot' :=
    if botWriteOk out
    then set_trade_count (Some (nextTradeCount b))
           (set_profit_loss
              (Some (JS.orNum (profit_loss b) 0 + JS.orNum realizedPnl 0)) b)
    else b in
  mkOutcome (mkWorld trades' bot') orders
            (OrderPlaced200 (orderId r) (or_status r) (test_mode b) realizedPnl fees)
            None.

Definition openSignal (w : World) (userId : nat) (a : Alert) (out : Outside)
  : Outcome :=
  let b := bot w in
  match riskGate b (todayTrades w userId out) with
  | Deny dailyLoss limit =>
      mkOutcome w [] (DailyLossLimitExceeded403 dailyLoss limit) None
  | Allow =>
      match instrument out with
      | None => mkOutcome w [] ProcessingError500 None
      | Some i =>
          let orderParams :=
            openOrderParams a b (symbolOf a b) (adjustedQty a b i out) in
          if test_mode b then
            recordOpen w userId out orderParams (simulatedOrder orderParams out) []
          else
            match executeBybitOrder orderParams with
            | inl message =>
                mkOutcome w [orderParams] (OrderFailed500 message) None
            | inr orderResult =>
                recordOpen w userId out orderParams orderResult [orderParams]
            end
      end
  end.

(** *** The handler *)

Definition handler (w : World) (req : Request) (out : Outside) : Outcome :=
  if String.eqb (method req) "OPTIONS" then mkOutcome w [] Preflight204 None
  else if negb (String.eqb (method req) "POST")
  then mkOutcome w [] MethodNotAllowed405 None
  else if negb (envConfigured req)
  then mkOutcome w [] ServerConfigurationError500 None
  else if negb (webhookValid req) then mkOutcome w [] InvalidWebhook404 None
  else
    match payload req with
    | None => mkOutcome w [] InvalidJson400 None
    | Some alertData =>
        if negb (apiKeyFound req) then
          if fallbackKeyFound req
          then (* [apiKey = fallbackKey] assigns to a [const]: a TypeError,
                  caught by the outer handler *)
               mkOutcome w [] ProcessingError500 None
          else mkOutcome w [] ApiCredentialsNotFound400 None
        else if isCloseSignal alertData
        then closeSignal w alertData out
        else openSignal w (webhook_user_id req) alertData out
    end.

End WithExchange.

End ProcessAlert.

(** ** The reconciliation handler ([updateTradePnl.edge.js]) *)

Module UpdateTradePnl.
Import Model.

(** One record of the exchange's closed-PnL list, numbers already parsed. *)
Record ClosedPnl := mkClosedPnl {
  cp_orderId : string;
  closedPnl : Q;
  avgEntryPrice : Q;
  avgExitPrice : Q
}.

Inductive ExchangeReply :=
| HttpError                      (* [!response.ok] *)
| ApiError                       (* [data.retCode !== 0] *)
| PnlList (records : list ClosedPnl).

Record Request := mkRequest {
  method : string;
  envConfigured : bool;
  tradeId : option nat           (* [None]: no [tradeId] in the body *)
}.

Record Outside := mkOutside {
  apiKeyFound : bool;
  reply : ExchangeReply;
  tradeWriteOk : bool;
  botWriteOk : bool
}.

Inductive Response :=
| Preflight204
| MethodNotAllowed405
| ServerConfigurationError500
| MissingTradeId400
| TradeNotFound404
| AlreadyHasPnl200 (trade_id : nat) (pnl : Q)          (* success: true *)
| ApiCredentialsNotFound400
| SimulatedPnl200 (trade_id : nat) (pnl : option Q)    (* success: true *)
| NoMatchingClosedPnl200 (trade_id : nat)              (* success: false *)
| Updated200 (trade_id : nat) (pnl entry exit : Q)     (* success: true *)
| Error500.

Record Outcome := mkOutcome {
  world : World;
  queried : bool;                (* the closed-PnL endpoint was called *)
  response : Response
}.

(** [closedPnlList.find(pnl => pnl.orderId === trade.order_id)]. *)
Definition matchingPnl (t : Trade) (records : list ClosedPnl) : option ClosedPnl :=
  find (fun r => String.eqb (cp_orderId r) (order_id t)) records.

(** The [update] of the trade with the exchange's figures. *)
Definition pnlFields (m : ClosedPnl) (t : Trade) : Trade :=
  mkTrade (id t) (user_id t) (trade_bot_id t) (symbol t) (side t) (order_type t)
          (quantity t) (price t) (order_id t) (status t)
          (Some (closedPnl m)) (fees t) (state t) (stop_loss t) (take_profit t)
          (close_reason t) (exit_price t)
          (Some (avgEntryPrice m)) (Some (avgExitPrice m)) (created_at t).

(** The skip guard: [trade.realized_pnl !== null && !trade.bots.test_mode]. *)
Definition alreadyHasPnl (t : Trade) (b : Bot) : option Q :=
  match realized_pnl t with
  | Some pnl => if negb (test_mode b) then Some pnl else None
  | None => None
  end.

(** The store after the update path: the trade row overwritten, and the
    PnL added to the [profit_loss] read with the trade (when that write
    succeeds; its failure is only logged). *)
Definition updatedWorld (w : World) (i : nat) (m : ClosedPnl) (out : Outside)
  : World :=
  mkWorld (updateTrade i (pnlFields m) (trades w))
          (if botWriteOk out
           then set_profit_loss
                  (Some (JS.orNum (profit_loss (bot w)) 0 + closedPnl m)) (bot w)
           else bot w).

Definition handler (w : World) (req : Request) (out : Outside) : Outcome :=
  if String.eqb (method req) "OPTIONS" then mkOutcome w false Preflight204
  else if negb (String.eqb (method req) "POST")
  then mkOutcome w false MethodNotAllowed405
  else if negb (envConfigured req)
  then mkOutcome w false ServerConfigurationError500
  else
    match tradeId req with
    | None => mkOutcome w false MissingTradeId400
    | Some tradeId =>
        match findTrade tradeId (trades w) with
        | None => mkOutcome w false TradeNotFound404
        | Some trade =>
            (* the joined row [trade.bots] *)
            if negb (Nat.eqb (trade_bot_id trade) (bot_id (bot w)))
            then mkOutcome w false Error500
            else
            let bots := bot w in
            match alreadyHasPnl trade bots with
            | Some pnl => mkOutcome w false (AlreadyHasPnl200 tradeId pnl)
            | None =>
                if negb (apiKeyFound out)
                then mkOutcome w false ApiCredentialsNotFound400
                else if test_mode bots
                then mkOutcome w false (SimulatedPnl200 tradeId (realized_pnl trade))
                else
                  match reply out with
                  | HttpError => mkOutcome w true Error500
                  | ApiError => mkOutcome w true Error500
                  | PnlList records =>
                      match matchingPnl trade records with
                      | None => mkOutcome w true (NoMatchingClosedPnl200 tradeId)
                      | Some m =>
                          if negb (tradeWriteOk out)
                          then mkOutcome w true Error500   (* [throw updateError] *)
                          else
                            mkOutcome (updatedWorld w tradeId m out) true
                              (Updated200 tradeId (closedPnl m)
                                          (avgEntryPrice m) (avgExitPrice m))
                      end
                  end
            end
        end
    end.

End UpdateTradePnl.

(** ** The pipeline: alerts and reconciliation runs over one store *)

Module Pipeline.
Import Model.

Section WithExchange.

Variable executeBybitOrder : OrderParams -> string + OrderResult.

(** One alert.  When the close path triggers the PnL update,
    [updateTradePnl(openTrade.id, request)] posts the trade id to the
    reconciliation function and awaits it; [rec = None] is a failed post
    (caught and logged). *)
Definition processAlert (w : World) (req : ProcessAlert.Request)
    (out : ProcessAlert.Outside) (rec : option UpdateTradePnl.Outside) : World :=
  let o := ProcessAlert.handler executeBybitOrder w req out in
  match ProcessAlert.pnlUpdate o, rec with
  | Some tradeId, Some rout =>
      UpdateTradePnl.world
        (UpdateTradePnl.handler (ProcessAlert.world o)
           (UpdateTradePnl.mkRequest "POST" true (Some tradeId)) rout)
  | _, _ => ProcessAlert.world o
  end.

(** One run of reconciliation on its own (a retry or a sweep). *)
Definition reconcile (w : World) (req : UpdateTradePnl.Request)
    (out : UpdateTradePnl.Outside) : World :=
  UpdateTradePnl.world (UpdateTradePnl.handler w req out).

(** Row by row, from one table to a later one: the row is still there with
    the same id, and its state is what it was or is "closed". *)
Definition stateMonotone (ts ts' : list Trade) : Prop :=
  forall i t, nth_error ts i = Some t ->
    exists t', nth_error ts' i = Some t' /\ id t' = id t /\
               (state t' = state t \/ state t' = "closed"%string).

(** Rows of the later table that the earlier one does not have are open or
    (closed since) closed. *)
Definition createdOpen (ts ts' : list Trade) : Prop :=
  forall i t', nth_error ts' i = Some t' -> nth_error ts i = None ->
    state t' = "open"%string \/ state t' = "closed"%string.

(** One step on the table: states only move to "closed", and a row the
    step creates is open. *)
Definition tableStep (ts ts' : list Trade) : Prop :=
  stateMonotone ts ts' /\
  (forall i t', nth_error ts' i = Some t' -> nth_error ts i = None ->
                state t' = "open"%string).

Inductive step : World -> World -> Prop :=
| step_alert w req out rec :
    step w (processAlert w req out rec)
| step_reconcile w req out :
    step w (reconcile w req out).

Inductive steps : World -> World -> Prop :=
| steps_refl w : steps w w
| steps_next w1 w2 w3 : steps w1 w2 -> step w2 w3 -> steps w1 w3.

End WithExchange.

End Pipeline.

(** ** Concrete inputs used in the examples *)

Module Scenarios.
Import Model.

(** The end-to-end sizing example. *)
Definition sizing_example : PositionSizing.Params :=
  PositionSizing.mkParams 50000 49000 100 "Buy" 0.075 0.001 0.001 0 3.

(** The same, with a position cap of 10. *)
Definition sizing_capped : PositionSizing.Params :=
  PositionSizing.mkParams 50000 49000 100 "Buy" 0.075 0.001 0.001 10 3.

(** A minimum that is not a multiple of the step. *)
Definition sizing_min_off_step : PositionSizing.Params :=
  PositionSizing.mkParams 50000 49000 100 "Buy" 0.075 0.0015 0.001 0 3.

(** A step with more fractional digits than [decimals]. *)
Definition sizing_coarse_decimals : PositionSizing.Params :=
  PositionSizing.mkParams 50000 49000 100 "Buy" 0.075 0.0025 0.0025 0 3.

(** No step size, default [decimals = 8], a position cap of 20. *)
Definition sizing_no_step : PositionSizing.Params :=
  PositionSizing.mkParams 30000 29000 100 "Buy" 0.075 0.001 0 20 8.

(** A live bot with a daily loss limit of 100, and its test-mode twin. *)
Definition liveBot : Bot :=
  mkBot 1 (Some "btcusdt"%string) (Some "Buy"%string) (Some "Market"%string)
        (Some 0.01) None None (Some 100) (Some 0.055) (Some 0.02)
        (Some 100) None false false (Some 0) (Some 2%Z).

Definition testBot : Bot :=
  mkBot 1 (Some "btcusdt"%string) (Some "Buy"%string) (Some "Market"%string)
        (Some 0.01) None None (Some 100) (Some 0.055) (Some 0.02)
        (Some 100) None false true (Some 0) (Some 2%Z).

Definition noon : Z := 1700000000000.

(** A closed trade of user 7 on bot 1, created today. *)
Definition closedTrade (i : nat) (order : string) (pnl : Q) : Trade :=
  mkTrade i 7 1 "BTCUSDT" "Buy" "Market" 0.01 50000 order "Filled"
          (Some pnl) (Some 0) "closed" None None (Some "signal"%string)
          (Some 49000) None None (noon - 1000).

(** An open Buy at 50000 for 0.1 with neither stop-loss nor take-profit. *)
Definition openBuy : Trade :=
  mkTrade 3 7 1 "BTCUSDT" "Buy" "Market" 0.1 50000 "ord-3" "Filled"
          None (Some 0) "open" None None None None None None (noon - 500).

(** The same trade opened with a stop-loss. *)
Definition openBuyWithStop : Trade :=
  mkTrade 3 7 1 "BTCUSDT" "Buy" "Market" 0.1 50000 "ord-3" "Filled"
          None (Some 0) "open" (Some 49000) None None None None None (noon - 500).

(** Two losses today, -70 and -50. *)
Definition losingDay : World :=
  mkWorld [closedTrade 1 "ord-1" (-70); closedTrade 2 "ord-2" (-50)] liveBot.

Definition liveOpen : World := mkWorld [openBuy] liveBot.
Definition testOpen : World := mkWorld [openBuy] testBot.
Definition liveOpenWithStop : World := mkWorld [openBuyWithStop] liveBot.
Definition liveEmpty : World := mkWorld [] liveBot.

(** An exchange that fills every order in full at [fill]. *)
Definition fillsAt (fill : Q) (o : OrderParams) : string + OrderResult :=
  inr (mkOrderResult "ex-9" (op_symbol o) (op_side o) (op_orderType o)
                     (op_quantity o) fill "Filled").

Definition alertWithState (st : ProcessAlert.Json) : ProcessAlert.Alert :=
  ProcessAlert.mkAlert None (Some "Buy"%string) (Some "Market"%string)
    (Some 0.01) (Some 50000) None None st None None.

Definition post (a : ProcessAlert.Alert) : ProcessAlert.Request :=
  ProcessAlert.mkRequest "POST" true true 7 (Some a) true false.

Definition btcRule : ProcessAlert.Instrument :=
  ProcessAlert.mkInstrument 0.001 0.001 3.

(** All reads and writes succeed. *)
Definition calm : ProcessAlert.Outside :=
  ProcessAlert.mkOutside noon (1 # 2) true true true (Some btcRule) (Some 50000).

(** The write to [trades] fails; everything else succeeds. *)
Definition tradeWriteFails : ProcessAlert.Outside :=
  ProcessAlert.mkOutside noon (1 # 2) true false true (Some btcRule) (Some 50000).

(** The exchange lists a closed PnL of 40 for order [ord-3]. *)
Definition exchangeSays40 : UpdateTradePnl.Outside :=
  UpdateTradePnl.mkOutside true
    (UpdateTradePnl.PnlList
       [UpdateTradePnl.mkClosedPnl "ord-0" 12 48000 48100;
        UpdateTradePnl.mkClosedPnl "ord-3" 40 50010 50420])
    true true.

(** The reconciliation request for trade [i]. *)
Definition reconcileOf (i : nat) : UpdateTradePnl.Request :=
  UpdateTradePnl.mkRequest "POST" true (Some i).

(** One trade that already carries a PnL. *)
Definition settled : World := mkWorld [closedTrade 1 "ord-1" (-70)] liveBot.

End Scenarios.

(** ** The alert handler before position sizing ([src/unnamed/part_002])

    The same handler without the sizing import, the fallback key, the trade
    metrics and the PnL-update trigger; its risk check also rejects an
    alert whose notional is above [max_position_size]. *)

Module ProcessAlertBasic.
Import Model.

Inductive Response :=
| Preflight204
| MethodNotAllowed405
| ServerConfigurationError500
| InvalidWebhook404
| InvalidJson400
| ApiCredentialsNotFound400
| NoOpenTrade404
| CloseOrderFailed500 (message : string)
| TradeClosed200 (tradeId : nat) (realizedPnl : option Q) (closeReason : string)
| DailyLossLimitExceeded403 (dailyLoss limit : Q)
| PositionSizeExceeded403 (positionSize limit : Q)
| OrderFailed500 (message : string)
| ProcessingError500
| OrderPlaced200 (order_id status : string) (testMode : bool)
                 (pnl : option Q) (order_fees : option Q).

Record Outcome := mkOutcome {
  world : World;
  submitted : list OrderParams;
  response : Response
}.

(** *** Close signal *)

(** The [update] on close: [state], [close_reason], [realized_pnl]. *)
Definition closeFields (closeReason : string) (realizedPnl : option Q)
    (t : Trade) : Trade :=
  mkTrade (id t) (user_id t) (trade_bot_id t) (symbol t) (side t) (order_type t)
          (quantity t) (price t) (order_id t) (status t)
          realizedPnl (fees t) "closed" (stop_loss t) (take_profit t)
          (Some closeReason) (exit_price t)
          (avg_entry_price t) (avg_exit_price t) (created_at t).

Definition finishClose (w : World) (out : ProcessAlert.Outside) (openTrade : Trade)
    (realizedPnl : option Q) (closeReason : string) (orders : list OrderParams)
  : Outcome :=
  let b := bot w in
  let trades' :=
    if ProcessAlert.tradeWriteOk out
    then updateTrade (id openTrade) (closeFields closeReason realizedPnl) (trades w)
    else trades w in
  let bot' :=
    match realizedPnl with
    | Some pnl =>
        if JS.truthy realizedPnl && ProcessAlert.botWriteOk out
        then set_profit_loss (Some (JS.orNum (profit_loss b) 0 + pnl)) b
        else b
    | None => b
    end in
  mkOutcome (mkWorld trades' bot') orders
            (TradeClosed200 (id openTrade) realizedPnl closeReason).

(** *** Open signal: risk management check *)

Inductive Check :=
| Pass
| DailyLossDenied (dailyLoss limit : Q)
| PositionDenied (positionSize limit : Q).

(** "Check max position size":
    [rawQty = parseFloat(alertData.quantity ?? bot.default_quantity ?? 0)],
    [estPrice = parseFloat(alertData.price ?? 0)]. *)
Definition positionCheck (b : Bot) (a : ProcessAlert.Alert) : Check :=
  let rawQty := JS.nullish2 (ProcessAlert.a_quantity a) (default_quantity b) in
  let estPrice := ProcessAlert.opt0 (ProcessAlert.a_price a) in
  match max_position_size b with
  | Some maxSize =>
      if JS.gtb maxSize 0 && JS.gtb estPrice 0 then
        let estimatedPositionSize := rawQty * estPrice in
        if JS.gtb estimatedPositionSize maxSize
        then PositionDenied estimatedPositionSize maxSize
        else Pass
      else Pass
  | None => Pass
  end.

Definition riskChecks (b : Bot) (a : ProcessAlert.Alert)
    (rows : option (list (option Q))) : Check :=
  if JS.truthy (daily_loss_limit b) || JS.truthy (max_position_size b) then
    match daily_loss_limit b with
    | Some limit =>
        if JS.gtb limit 0 then
          match rows with
          | None => positionCheck b a     (* the error is logged *)
          | Some rows =>
              let d := ProcessAlert.dailyPnL rows in
              if JS.ltb d 0 && JS.geb (JS.abs d) limit
              then DailyLossDenied (JS.abs d) limit
              else positionCheck b a
          end
        else positionCheck b a
    | None => positionCheck b a
    end
  else Pass.

(** *** Open signal: quantity *)

(** "MIN QTY FETCH & ROUND": the raw quantity lifted to the minimum or
    rounded down to the step, lifted to the minimum again, then [toFixed]. *)
Definition adjustedQty (a : ProcessAlert.Alert) (b : Bot)
    (i : ProcessAlert.Instrument) : Q :=
  let minQty := ProcessAlert.ins_minQty i in
  let step := ProcessAlert.ins_step i in
  let rawQty := JS.nullish2 (ProcessAlert.a_quantity a) (default_quantity b) in
  let qty := if JS.ltb rawQty minQty then minQty
             else JS.floor (rawQty / step) * step in
  let qty' := if JS.ltb qty minQty then minQty else qty in
  JS.toFixed qty' (ProcessAlert.ins_decimals i).

(** From "Log the trade" to the success response. *)
Definition recordOpen (w : World) (userId : nat) (out : ProcessAlert.Outside)
    (o : OrderParams) (r : OrderResult) (orders : list OrderParams) : Outcome :=
  let b := bot w in
  let '(realizedPnl, fees) :=
    if test_mode b then ProcessAlert.simulatedPnl o out else (None, Some 0) in
  let trades' :=
    if ProcessAlert.tradeWriteOk out
    then trades w ++ [ProcessAlert.newTrade w userId r o realizedPnl fees out]
    else trades w in
  let bot' :=
    if ProcessAlert.botWriteOk out
    then set_trade_count (Some (ProcessAlert.nextTradeCount b))
           (set_profit_loss
              (Some (JS.orNum (profit_loss b) 0 + JS.orNum realizedPnl 0)) b)
    else b in
  mkOutcome (mkWorld trades' bot') orders
            (OrderPlaced200 (orderId r) (or_status r) (test_mode b) realizedPnl fees).

Section WithExchange.

Variable executeBybitOrder : OrderParams -> string + OrderResult.

Definition closeSignal (w : World) (a : ProcessAlert.Alert)
    (out : ProcessAlert.Outside) : Outcome :=
  let b := bot w in
  let sym := ProcessAlert.symbolOf a b in
  match (if ProcessAlert.tradesReadable out
         then ProcessAlert.findOpenTrade (bot_id b) sym (trades w) else None) with
  | None => mkOutcome w [] NoOpenTrade404
  | Some openTrade =>
      let realizedPnl := JS.orNull (ProcessAlert.a_realized_pnl a) in
      if negb (JS.truthy (stop_loss openTrade))
         && negb (JS.truthy (take_profit openTrade))
      then
        let orderParams := ProcessAlert.closeOrderParams sym openTrade b in
        if test_mode b then
          let closeResult :=
            ProcessAlert.simulatedClose a openTrade orderParams out in
          finishClose w out openTrade
            (Some (ProcessAlert.estimatePnl openTrade closeResult)) "signal" []
        else
          match executeBybitOrder orderParams with
          | inl message => mkOutcome w [orderParams] (CloseOrderFailed500 message)
          | inr closeResult =>
              finishClose w out openTrade
                (if JS.truthy realizedPnl then realizedPnl
                 else Some (ProcessAlert.estimatePnl openTrade closeResult))
                "signal" [orderParams]
          end
      else
        finishClose w out openTrade realizedPnl
          (JS.orStr (ProcessAlert.a_close_reason a) "take_profit") []
  end.

Definition openSignal (w : World) (userId : nat) (a : ProcessAlert.Alert)
    (out : ProcessAlert.Outside) : Outcome :=
  let b := bot w in
  match riskChecks b a (ProcessAlert.todayTrades w userId out) with
  | DailyLossDenied dailyLoss limit =>
      mkOutcome w [] (DailyLossLimitExceeded403 dailyLoss limit)
  | PositionDenied positionSize limit =>
      mkOutcome w [] (PositionSizeExceeded403 positionSize limit)
  | Pass =>
      match ProcessAlert.instrument out with
      | None => mkOutcome w [] ProcessingError500
      | Some i =>
          let orderParams :=
            ProcessAlert.openOrderParams a b (ProcessAlert.symbolOf a b)
                                         (adjustedQty a b i) in
          if test_mode b then
            recordOpen w userId out orderParams
                       (ProcessAlert.simulatedOrder orderParams out) []
          else
            match executeBybitOrder orderParams with
            | inl message => mkOutcome w [orderParams] (OrderFailed500 message)
            | inr orderResult =>
                recordOpen w userId out orderParams orderResult [orderParams]
            end
      end
  end.

Definition handler (w : World) (req : ProcessAlert.Request)
    (out : ProcessAlert.Outside) : Outcome :=
  if String.eqb (ProcessAlert.method req) "OPTIONS" then mkOutcome w [] Preflight204
  else if negb (String.eqb (ProcessAlert.method req) "POST")
  then mkOutcome w [] MethodNotAllowed405
  else if negb (ProcessAlert.envConfigured req)
  then mkOutcome w [] ServerConfigurationError500
  else if negb (ProcessAlert.webhookValid req) then mkOutcome w [] InvalidWebhook404
  else
    match ProcessAlert.payload req with
    | None => mkOutcome w [] InvalidJson400
    | Some alertData =>
        if negb (ProcessAlert.apiKeyFound req)
        then mkOutcome w [] ApiCredentialsNotFound400
        else if ProcessAlert.isCloseSignal alertData
        then closeSignal w alertData out
        else openSignal w (ProcessAlert.webhook_user_id req) alertData out
    end.

End WithExchange.

End ProcessAlertBasic.

(** ** Position sizing over doubles

    [calculatePositionSize] ([src/unnamed/part_000]) once more, over IEEE
    binary64, the numbers the code runs in. *)

Module PositionSizingDoubles.
Import PrimFloat.

Record Params := mkParams {
  entryPrice : float;
  stopLoss : float;
  riskAmount : float;
  side : string;
  feePercentage : float;
  minQty : float;
  qtyStep : float;
  maxPositionSize : float;
  decimals : nat
}.

Inductive Result :=
| Throw (error : PositionSizing.SizingError)
| ThrowRangeError              (* [toFixed] with more than 100 digits *)
| Return (quantity : float).

(** [!x]: [0], [-0] and [NaN] are falsy. *)
Definition falsy (x : float) : bool := eqb x zero || negb (eqb x x).

(** The double nearest to [m * 2^e], ties to even. *)
Definition ofBinary (m e : Z) : float :=
  FloatOps.SF2Prim
    (SpecFloat.binary_normalize FloatOps.prec FloatOps.emax m e false).

(** [Math.floor]. *)
Definition floor (x : float) : float :=
  match FloatOps.Prim2SF x with
  | SpecFloat.S754_finite s m e =>
      if (0 <=? e)%Z then x
      else
        let z := Z.shiftl (if s then Zneg m else Zpos m) e in
        if (z =? 0)%Z then zero else ofBinary z 0
  | _ => x
  end.

(** The double nearest to [n / d], ties to even, for [0 <= n] and [0 < d]:
    what [parseFloat] makes of the decimal [n / 10^f].  The quotient is
    taken with 64 bits and more, the remainder kept as a last, sticky
    bit. *)
Definition nearest (n d : Z) : float :=
  let k := (Z.log2_up d + 64)%Z in
  let (q, r) := Z.div_eucl (Z.shiftl n k) d in
  ofBinary (2 * q + (if (r =? 0)%Z then 0 else 1)) (- (k + 1)).

(** [parseFloat(x.toFixed(f))] for [f <= 100]: [toFixed] takes the integer
    [n] nearest to [|x| * 10^f], the larger of two equally near ones, and
    prints [n / 10^f] with the sign of [x]; from 1e21 on, and for
    [Infinity] and [NaN], it prints the number itself. *)
Definition toFixed (x : float) (f : nat) : float :=
  match FloatOps.Prim2SF x with
  | SpecFloat.S754_finite s m e =>
      if leb (ofBinary (10 ^ 21) 0) (abs x) then x
      else
        let p := (10 ^ Z.of_nat f)%Z in
        let n := if (0 <=? e)%Z then (Z.shiftl (Zpos m) e * p)%Z
                 else Z.shiftr (2 * (Zpos m * p) + Z.shiftl 1 (- e)) (1 - e) in
        let r := nearest n p in
        if s then opp r else r
  | SpecFloat.S754_zero _ => zero
  | _ => x
  end.

(** [Math.floor(quantity / qtyStep) * qtyStep]. *)
Definition roundDownToStep (quantity step : float) : float :=
  mul (floor (div quantity step)) step.

Definition hundred : float := ofBinary 100 0.

(** From the fees to the final rounding, with [riskPerUnit] as the side
    gives it. *)
Definition quantityFor (p : Params) (riskPerUnit : float) : Result :=
  let entryFee := div (feePercentage p) hundred in
  let exitFee := div (feePercentage p) hundred in
  let totalFeeRateFactor :=
    div (add (mul (entryPrice p) entryFee) (mul (stopLoss p) exitFee))
        (entryPrice p) in
  let positionSize :=
    div (riskAmount p)
        (add riskPerUnit (mul (entryPrice p) totalFeeRateFactor)) in
  let quantity := div positionSize (entryPrice p) in
  let quantity := if ltb quantity (minQty p) then minQty p else quantity in
  let quantity :=
    if ltb zero (qtyStep p) then roundDownToStep quantity (qtyStep p)
    else quantity in
  let quantity :=
    if ltb zero (maxPositionSize p)
       && ltb (maxPositionSize p) (mul quantity (entryPrice p))
    then
      let quantity := div (maxPositionSize p) (entryPrice p) in
      if ltb zero (qtyStep p) then roundDownToStep quantity (qtyStep p)
      else quantity
    else quantity in
  if Nat.ltb 100 (decimals p) then ThrowRangeError
  else Return (toFixed quantity (decimals p)).

Definition calculatePositionSize (p : Params) : Result :=
  if falsy (entryPrice p) || leb (entryPrice p) zero
  then Throw PositionSizing.EntryPriceNotPositive
  else if falsy (stopLoss p) || leb (stopLoss p) zero
  then Throw PositionSizing.StopLossNotPositive
  else if falsy (riskAmount p) || leb (riskAmount p) zero
  then Throw PositionSizing.RiskAmountNotPositive
  else if negb (String.eqb (side p) "Buy") && negb (String.eqb (side p) "Sell")
  then Throw PositionSizing.InvalidSide
  else if String.eqb (side p) "Buy" then
    if leb (entryPrice p) (stopLoss p)
    then Throw PositionSizing.StopLossNotBelowEntry
    else quantityFor p (sub (entryPrice p) (stopLoss p))
  else
    if leb (stopLoss p) (entryPrice p)
    then Throw PositionSizing.StopLossNotAboveEntry
    else quantityFor p (sub (stopLoss p) (entryPrice p)).

End PositionSizingDoubles.

(** ** The daily-loss check over the arithmetic of the code

    The "RISK MANAGEMENT CHECK" block of the open path
    ([src/unnamed/part_001], from [if (bot.daily_loss_limit ||
    bot.max_position_size)] to the end of the daily-loss check), written
    over an arbitrary arithmetic: the block only adds, takes absolute
    values and compares.  [doubles] is the arithmetic the code runs in
    (IEEE binary64), [exact] the rationals of the rest of this file. *)

Module RiskCheck.

Record Arithmetic := mkArithmetic {
  num : Type;
  zero : num;
  add : num -> num -> num;       (* [+] *)
  mul : num -> num -> num;       (* [*] *)
  abs : num -> num;              (* [Math.abs] *)
  ltb : num -> num -> bool;      (* [<] *)
  geb : num -> num -> bool;      (* [>=] *)
  gtb : num -> num -> bool;      (* [>] *)
  truthy : num -> bool           (* neither 0 nor NaN *)
}.

Definition exact : Arithmetic :=
  mkArithmetic Q 0 Qplus Qmult JS.abs JS.ltb JS.geb JS.gtb
               (fun q => negb (Qeq_bool q 0)).

Definition doubles : Arithmetic :=
  mkArithmetic PrimFloat.float PrimFloat.zero PrimFloat.add PrimFloat.mul
               PrimFloat.abs PrimFloat.ltb
               (fun x y => PrimFloat.leb y x)
               (fun x y => PrimFloat.ltb y x)
               (fun x => PrimFloat.eqb x x && negb (PrimFloat.eqb x PrimFloat.zero)).

Section Over.

Variable A : Arithmetic.

(** Truthiness of a nullable number. *)
Definition truthyOpt (o : option (num A)) : bool :=
  match o with
  | Some x => truthy A x
  | None => false
  end.

(** [o || 0]. *)
Definition orZero (o : option (num A)) : num A :=
  match o with
  | Some x => if truthy A x then x else zero A
  | None => zero A
  end.

(** The columns of a [trades] row that the query of today's trades reads. *)
Record TradeRow := mkTradeRow {
  row_bot_id : nat;
  row_user_id : nat;
  row_created_at : Z;
  row_realized_pnl : option (num A)
}.

(** [.select('realized_pnl').eq('bot_id', ...).eq('user_id', ...)
     .gte('created_at', `${today}T00:00:00.000Z`)]. *)
Definition todayTrades (table : list TradeRow) (botId userId : nat) (now : Z)
  : list (option (num A)) :=
  map row_realized_pnl
      (filter (fun r => Nat.eqb (row_bot_id r) botId
                        && Nat.eqb (row_user_id r) userId
                        && Z.leb (ProcessAlert.startOfDay now) (row_created_at r))
              table).

(** [todayTrades.reduce((total, trade) => total + (trade.realized_pnl || 0), 0)]. *)
Definition dailyPnL (rows : list (option (num A))) : num A :=
  fold_left (fun total pnl => add A total (orZero pnl)) rows (zero A).

Inductive Verdict :=
| Passed
| DailyLossLimitExceeded (dailyLoss limit : num A).   (* the 403 is returned *)

Definition check (daily_loss_limit max_position_size : option (num A))
    (rows : option (list (option (num A)))) : Verdict :=
  if truthyOpt daily_loss_limit || truthyOpt max_position_size then
    match daily_loss_limit with
    | Some limit =>
        if gtb A limit (zero A) then
          match rows with
          | None => Passed          (* the error is logged, the check skipped *)
          | Some rows =>
              let d := dailyPnL rows in
              if ltb A d (zero A) && geb A (abs A d) limit
              then DailyLossLimitExceeded (abs A d) limit
              else Passed
          end
        else Passed
    | None => Passed
    end
  else Passed.

(** "Check max position size" of the handler without position sizing
    ([src/unnamed/part_002]), on the parsed quantity and price. *)
Inductive SizeVerdict :=
| SizePassed
| PositionSizeExceeded (positionSize limit : num A).   (* the 403 is returned *)

Definition positionCheck (max_position_size : option (num A))
    (rawQty estPrice : num A) : SizeVerdict :=
  match max_position_size with
  | Some maxSize =>
      if gtb A maxSize (zero A) && gtb A estPrice (zero A) then
        let estimatedPositionSize := mul A rawQty estPrice in
        if gtb A estimatedPositionSize maxSize
        then PositionSizeExceeded estimatedPositionSize maxSize
        else SizePassed
      else SizePassed
  | None => SizePassed
  end.

End Over.

Arguments Passed {A}.
Arguments DailyLossLimitExceeded {A} dailyLoss limit.
Arguments SizePassed {A}.
Arguments PositionSizeExceeded {A} positionSize limit.
Arguments mkTradeRow {A} row_bot_id row_user_id row_created_at row_realized_pnl.
Arguments row_bot_id {A} t.
Arguments row_user_id {A} t.
Arguments row_created_at {A} t.
Arguments row_realized_pnl {A} t.


Definition checkOf (v : SizeVerdict exact) : ProcessAlertBasic.Check :=
  match v with
  | SizePassed => ProcessAlertBasic.Pass
  | PositionSizeExceeded positionSize limit =>
      ProcessAlertBasic.PositionDenied positionSize limit
  end.


(** The left-to-right sum of the realized PnL of the rows, null (or 0) as 0. *)
Definition total (A : Arithmetic) (rows : list (TradeRow A)) : num A :=
  fold_left (fun s r => add A s (match row_realized_pnl r with
                                 | Some x => if truthy A x then x else zero A
                                 | None => zero A
                                 end))
            rows (zero A).


End RiskCheck.

(** ** Further definitions used in statements *)

Module Variants.
Import Model.



(** The trade is an open trade of the bot for the symbol. *)
Definition openFor (botId : nat) (sym : string) (t : Trade) : Prop :=
  trade_bot_id t = botId /\ symbol t = sym /\ state t = "open"%string.

(** A bot with a position cap, and an alert for 0.01 at 50000 (notional
    500) and for 0.05 at 50000 (notional 2500). *)
Definition cappedBot : Bot :=
  mkBot 1 (Some "btcusdt"%string) (Some "Buy"%string) (Some "Market"%string)
        (Some 0.01) None None (Some 100) (Some 0.055) (Some 0.02)
        None (Some 1000) false false (Some 0) (Some 2%Z).

Definition cappedEmpty : World := mkWorld [] cappedBot.

Definition bigAlert : ProcessAlert.Alert :=
  ProcessAlert.mkAlert None (Some "Buy"%string) (Some "Market"%string)
    (Some 0.05) (Some 50000) None None ProcessAlert.JMissing None None.

(** An exchange that rejects every order. *)
Definition rejects (o : OrderParams) : string + OrderResult :=
  inl "rejected"%string.

(** A close alert that carries the exchange's realized PnL 12.5. *)
Definition closeWithPnl : ProcessAlert.Alert :=
  ProcessAlert.mkAlert None None None None None None None
    (ProcessAlert.JString "close") (Some 12.5) (Some "stop_loss"%string).

Import PrimFloat.
#[local] Set Warnings "-inexact-float".



(** Two losses today, -0.7 and -0.1, in doubles and as rationals. *)
Definition smallLosses : list (RiskCheck.TradeRow RiskCheck.doubles) :=
  [RiskCheck.mkTradeRow (A := RiskCheck.doubles) 1 7 (Scenarios.noon - 1000) (Some (-0.7)%float);
   RiskCheck.mkTradeRow (A := RiskCheck.doubles) 1 7 (Scenarios.noon - 500) (Some (-0.1)%float)].

Definition smallLossesExact : list (RiskCheck.TradeRow RiskCheck.exact) :=
  [RiskCheck.mkTradeRow (A := RiskCheck.exact) 1 7 (Scenarios.noon - 1000) (Some (-0.7));
   RiskCheck.mkTradeRow (A := RiskCheck.exact) 1 7 (Scenarios.noon - 500) (Some (-0.1))].

(** The sizing example with a minimum of 0.3 on a step grid of 0.1, in
    doubles and as rationals. *)
Definition doubleMinOnStep : PositionSizingDoubles.Params :=
  PositionSizingDoubles.mkParams 50000 49000 100 "Buy" 0.075 0.3 0.1 0 1.

Definition exactMinOnStep : PositionSizing.Params :=
  PositionSizing.mkParams 50000 49000 100 "Buy" 0.075 0.3 0.1 0 1.

Definition double02 : PrimFloat.float := 0.2%float.
Definition double03 : PrimFloat.float := 0.3%float.

(** A negative fee that cancels the risk per unit: entry 100, stop 60,
    fee -25 (percent). *)
Definition doubleZeroDivisor : PositionSizingDoubles.Params :=
  PositionSizingDoubles.mkParams 100 60 100 "Buy" (-25) 0.001 0.001 0 3.

Definition exactZeroDivisor : PositionSizing.Params :=
  PositionSizing.mkParams 100 60 100 "Buy" (-25) 0.001 0.001 0 3.

(** The examples of [Scenarios] in doubles. *)
Definition doubleExample : PositionSizingDoubles.Params :=
  PositionSizingDoubles.mkParams 50000 49000 100 "Buy" 0.075 0.001 0.001 0 3.

Definition doubleCapped : PositionSizingDoubles.Params :=
  PositionSizingDoubles.mkParams 50000 49000 100 "Buy" 0.075 0.001 0.001 10 3.

Definition doubleNoStep : PositionSizingDoubles.Params :=
  PositionSizingDoubles.mkParams 30000 29000 100 "Buy" 0.075 0.001 0 20 8.

Definition double0001 : PrimFloat.float := 0.001%float.
Definition double000066667 : PrimFloat.float := 0.00066667%float.

(** A quantity of 0.07 at a price of 100 against a cap of 7. *)
Definition double007 : PrimFloat.float := 0.07%float.
Definition double100 : PrimFloat.float := 100%float.
Definition double7 : PrimFloat.float := 7%float.
Definition doubleAbove7 : PrimFloat.float := 7.000000000000001%float.

Definition limit08 : PrimFloat.float := 0.8%float.



End Variants.

(** * Theorems *)

(** ** Numbers *)

Module JSFacts.
Import JS.

Lemma leb_le x y : leb x y = true <-> x <= y.
Proof. apply Qle_bool_iff. Qed.

Lemma leb_gt x y : leb x y = false <-> y < x.
Proof.
  unfold leb. split; intro H.
  - apply Qnot_le_lt. intro A. apply Qle_bool_iff in A. congruence.
  - destruct (Qle_bool x y) eqn:E; trivial.
    apply Qle_bool_iff in E. exfalso. exact (Qlt_not_le _ _ H E).
Qed.

Lemma ltb_lt x y : ltb x y = true <-> x < y.
Proof.
  unfold ltb. rewrite negb_true_iff. apply leb_gt.
Qed.

Lemma ltb_ge x y : ltb x y = false <-> y <= x.
Proof.
  unfold ltb. rewrite negb_false_iff. apply leb_le.
Qed.

Lemma gtb_gt x y : gtb x y = true <-> y < x.
Proof. apply ltb_lt. Qed.

Lemma gtb_le x y : gtb x y = false <-> x <= y.
Proof. apply ltb_ge. Qed.

Lemma floor_le x : floor x <= x.
Proof. apply Qfloor_le. Qed.

Lemma floor_nonneg x : 0 <= x -> 0 <= floor x.
Proof.
  intro H. unfold floor.
  change 0 with (inject_Z 0). rewrite <- Zle_Qle.
  change 0%Z with (Qfloor (inject_Z 0)). now apply Qfloor_resp_le.
Qed.

Lemma floor_mono x y : x <= y -> floor x <= floor y.
Proof.
  intro H. unfold floor. rewrite <- Zle_Qle. now apply Qfloor_resp_le.
Qed.

Lemma floor_inject k : floor (inject_Z k) == inject_Z k.
Proof. unfold floor. now rewrite Qfloor_Z. Qed.

(** Rounding an integer plus one half down gives the integer back. *)
Lemma Qfloor_half k : Qfloor (inject_Z k + (1 # 2)) = k.
Proof.
  pose proof (Qfloor_le (inject_Z k + (1 # 2))) as Hlo.
  pose proof (Qlt_floor (inject_Z k + (1 # 2))) as Hhi.
  set (f := Qfloor (inject_Z k + (1 # 2))) in *.
  unfold Qle, Qlt, Qplus, inject_Z in *; simpl in *. lia.
Qed.

Lemma pow10_pos d : 0 < pow10 d.
Proof.
  unfold pow10. change 0 with (inject_Z 0). rewrite <- Zlt_Qlt.
  apply Z.pow_pos_nonneg; lia.
Qed.

Lemma toFixed_nonneg x d : 0 <= x -> 0 <= toFixed x d.
Proof.
  intro Hx. unfold toFixed.
  assert (E : ltb x 0 = false) by now apply ltb_ge.
  rewrite E. pose proof (pow10_pos d) as Hp.
  apply Qle_shift_div_l; trivial. rewrite Qmult_0_l.
  apply floor_nonneg.
  apply Qle_trans with (x * pow10 d + 0).
  - rewrite Qplus_0_r. apply Qmult_le_0_compat; trivial. now apply Qlt_le_weak.
  - apply Qplus_le_r. discriminate.
Qed.

(** [toFixed] leaves a non-negative number with at most [d] fractional
    digits as it is. *)
Lemma toFixed_onGrid x d : 0 <= x -> onGrid d x -> toFixed x d == x.
Proof.
  intros Hx [k Hk]. unfold toFixed.
  assert (E : ltb x 0 = false) by now apply ltb_ge.
  rewrite E. pose proof (pow10_pos d) as Hp.
  unfold floor. rewrite Hk, Qfloor_half, <- Hk.
  field. intro A. rewrite A in Hp. discriminate.
Qed.

(** [toFixed] does not go below a grid point that the number is above. *)
Lemma toFixed_ge_grid m x d : 0 <= m -> m <= x -> onGrid d m -> m <= toFixed x d.
Proof.
  intros Hm Hmx [k Hk]. unfold toFixed.
  assert (E : ltb x 0 = false) by (apply ltb_ge; eapply Qle_trans; eauto).
  rewrite E. pose proof (pow10_pos d) as Hp.
  apply Qle_shift_div_l; trivial.
  rewrite Hk. rewrite <- (Qfloor_half k) at 1.
  apply floor_mono. apply Qplus_le_l. rewrite <- Hk.
  apply Qmult_le_compat_r; trivial. now apply Qlt_le_weak.
Qed.

End JSFacts.

(** ** Position Sizer *)

Module PositionSizingFacts.
Import JS JSFacts PositionSizing.

Lemma roundDownToStep_le q step : 0 < step -> roundDownToStep q step <= q.
Proof.
  intro Hs. unfold roundDownToStep.
  apply Qle_trans with (q / step * step).
  - apply Qmult_le_compat_r; [apply floor_le | now apply Qlt_le_weak].
  - apply Qle_lteq. right. field. intro A. rewrite A in Hs. discriminate.
Qed.

Lemma roundDownToStep_nonneg q step :
  0 < step -> 0 <= q -> 0 <= roundDownToStep q step.
Proof.
  intros Hs Hq. unfold roundDownToStep.
  apply Qmult_le_0_compat; [| now apply Qlt_le_weak].
  apply floor_nonneg. apply Qle_shift_div_l; trivial. now rewrite Qmult_0_l.
Qed.

Lemma roundDownToStep_multiple q step : multipleOf step (roundDownToStep q step).
Proof. exists (Qfloor (q / step)). reflexivity. Qed.

(** A multiple of the step is already on the step grid. *)
Lemma roundDownToStep_fixes q step :
  0 < step -> multipleOf step q -> roundDownToStep q step == q.
Proof.
  intros Hs [k Hk]. unfold roundDownToStep.
  assert (E : q / step == inject_Z k).
  { rewrite Hk. field. intro A. rewrite A in Hs. discriminate. }
  unfold floor. rewrite (Qfloor_comp _ _ E), Qfloor_Z. now symmetry.
Qed.

Lemma roundDownToStep_mono q1 q2 step :
  0 < step -> q1 <= q2 -> roundDownToStep q1 step <= roundDownToStep q2 step.
Proof.
  intros Hs H. unfold roundDownToStep.
  apply Qmult_le_compat_r; [| now apply Qlt_le_weak].
  apply floor_mono. unfold Qdiv. apply Qmult_le_compat_r; trivial.
  apply Qlt_le_weak. now apply Qinv_lt_0_compat.
Qed.

(** A multiple of a step with at most [d] fractional digits has at most [d]
    fractional digits. *)
Lemma multiple_onGrid d step q : onGrid d step -> multipleOf step q -> onGrid d q.
Proof.
  intros [m Hm] [k Hk]. exists (k * m)%Z.
  rewrite Hk, inject_Z_mult, <- Hm. ring.
Qed.

(** With a non-negative fee the divisor of [positionSize] is positive: no
    division of the function is by zero. *)
Lemma divisor_positive p :
  accepted p -> 0 <= feePercentage p ->
  0 < riskPerUnit p + entryPrice p * totalFeeRateFactor p.
Proof.
  intros (He & Hs & _ & Hside & _) Hf.
  assert (Hr : 0 < riskPerUnit p).
  { unfold riskPerUnit. destruct Hside as [[E H] | [E H]]; rewrite E; simpl;
      unfold Qminus; rewrite <- Qlt_minus_iff; assumption. }
  assert (Hfee : 0 <= feePercentage p / 100).
  { apply Qle_shift_div_l; [reflexivity | now rewrite Qmult_0_l]. }
  assert (Ht : 0 <= entryPrice p * totalFeeRateFactor p).
  { unfold totalFeeRateFactor, entryFee, exitFee.
    apply Qmult_le_0_compat; [now apply Qlt_le_weak |].
    apply Qle_shift_div_l; [assumption |]. rewrite Qmult_0_l.
    rewrite <- (Qplus_0_r 0). apply Qplus_le_compat;
      (apply Qmult_le_0_compat; [now apply Qlt_le_weak | assumption]). }
  rewrite <- (Qplus_0_r 0). apply Qplus_lt_le_compat; assumption.
Qed.

(** An accepted input passes all six checks. *)
Lemma accepted_returns p :
  accepted p ->
  calculatePositionSize p = Return (toFixed (cappedQuantity p) (decimals p)).
Proof.
  intros (He & Hs & Hr & Hside & _). unfold calculatePositionSize.
  apply leb_gt in He, Hs, Hr. rewrite He, Hs, Hr.
  destruct Hside as [[E H] | [E H]]; rewrite E; simpl;
    apply leb_gt in H; now rewrite H.
Qed.

Lemma clampedQuantity_ge_min p : minQty p <= clampedQuantity p.
Proof.
  unfold clampedQuantity. destruct (ltb (rawQuantity p) (minQty p)) eqn:E.
  - apply Qle_refl.
  - now apply ltb_ge.
Qed.

Lemma steppedQuantity_nonneg p : accepted p -> 0 <= steppedQuantity p.
Proof.
  intros (_ & _ & _ & _ & Hm & _).
  assert (Hc : 0 <= clampedQuantity p)
    by (eapply Qle_trans; [exact Hm | apply clampedQuantity_ge_min]).
  unfold steppedQuantity. destruct (gtb (qtyStep p) 0) eqn:E; trivial.
  apply gtb_gt in E. now apply roundDownToStep_nonneg.
Qed.

Lemma cappedQuantity_nonneg p : accepted p -> 0 <= cappedQuantity p.
Proof.
  intros Ha. pose proof (steppedQuantity_nonneg p Ha) as Hst.
  destruct Ha as (He & _ & _ & _ & _ & _ & Hmax).
  unfold cappedQuantity. destruct (capBinds p); trivial.
  assert (Hq : 0 <= maxPositionSize p / entryPrice p).
  { apply Qle_shift_div_l; trivial. now rewrite Qmult_0_l. }
  cbv zeta. destruct (gtb (qtyStep p) 0) eqn:E; trivial.
  apply gtb_gt in E. now apply roundDownToStep_nonneg.
Qed.

Lemma cappedQuantity_multiple p :
  0 < qtyStep p -> multipleOf (qtyStep p) (cappedQuantity p).
Proof.
  intro Hs. apply gtb_gt in Hs.
  unfold cappedQuantity, steppedQuantity. rewrite Hs. cbv zeta.
  destruct (capBinds p); apply roundDownToStep_multiple.
Qed.

(** While the cap does not bind, rounding down keeps the quantity at or
    above a minimum that lies on the step grid. *)
Lemma cappedQuantity_ge_min p :
  capBinds p = false ->
  (0 < qtyStep p -> multipleOf (qtyStep p) (minQty p)) ->
  minQty p <= cappedQuantity p.
Proof.
  intros Hcap Hgrid. unfold cappedQuantity. rewrite Hcap.
  unfold steppedQuantity. destruct (gtb (qtyStep p) 0) eqn:E.
  - apply gtb_gt in E.
    rewrite <- (roundDownToStep_fixes (minQty p) (qtyStep p) E (Hgrid E)) at 1.
    apply roundDownToStep_mono; trivial. apply clampedQuantity_ge_min.
  - apply clampedQuantity_ge_min.
Qed.

(** When the step is positive and has at most [decimals] fractional digits,
    the returned quantity stays within the cap. *)
Lemma capped_within_max p :
  accepted p -> 0 < maxPositionSize p -> 0 < qtyStep p ->
  onGrid (decimals p) (qtyStep p) ->
  toFixed (cappedQuantity p) (decimals p) * entryPrice p <= maxPositionSize p.
Proof.
  intros Ha Hmax Hs Hg.
  rewrite (toFixed_onGrid _ _ (cappedQuantity_nonneg p Ha)
             (multiple_onGrid _ _ _ Hg (cappedQuantity_multiple p Hs))).
  destruct Ha as (He & _).
  unfold cappedQuantity. destruct (capBinds p) eqn:Hc.
  - cbv zeta. apply gtb_gt in Hs. rewrite Hs. apply gtb_gt in Hs.
    apply Qle_trans with (maxPositionSize p / entryPrice p * entryPrice p).
    + apply Qmult_le_compat_r; [| now apply Qlt_le_weak].
      now apply roundDownToStep_le.
    + apply Qle_lteq. right. field. intro A. rewrite A in He. discriminate.
  - unfold capBinds in Hc. apply gtb_gt in Hmax. rewrite Hmax in Hc.
    simpl in Hc. now apply gtb_le in Hc.
Qed.

Ltac qcalc := vm_compute; try reflexivity; try discriminate; try (intro; discriminate).

(** C1. On the end-to-end example the intermediate values are the ones the
    specification lists (risk per unit 1000, the stated fee factor,
    100 / 1074.25 which is 0.093 on the step grid), but the function then
    divides by the entry price once more, falls below the minimum and
    returns the minimum 0.001, not 0.093; its logged actual risk is
    1.07425 against the target 100, where 0.093 would give 99.90525. *)
Theorem sizing_example_returns_minimum :
  riskPerUnit Scenarios.sizing_example == 1000 /\
  totalFeeRateFactor Scenarios.sizing_example
    == (50000 * 0.00075 + 49000 * 0.00075) / 50000 /\
  positionSize Scenarios.sizing_example == 100 / (1000 + 50000 * 0.001485) /\
  roundDownToStep (positionSize Scenarios.sizing_example) 0.001 == 0.093 /\
  rawQuantity Scenarios.sizing_example
    == 100 / (1000 + 50000 * 0.001485) / 50000 /\
  rawQuantity Scenarios.sizing_example < minQty Scenarios.sizing_example /\
  actualRisk Scenarios.sizing_example 0.093 == 99.90525 /\
  exists q, calculatePositionSize Scenarios.sizing_example = Return q /\
            q == 0.001 /\ ~ q == 0.093 /\
            actualRisk Scenarios.sizing_example q == 1.07425.
Proof.
  repeat split; try (vm_compute; reflexivity).
  eexists. split; [vm_compute; reflexivity |].
  repeat split; qcalc.
Qed.

(** C2 fails as stated: with a position cap of 10 the accepted example
    input is cut to 10 / 50000, rounded down to the step grid, and 0 is
    returned, below the minimum 0.001; in exact arithmetic and in doubles
    alike. *)
Lemma cap_overrides_minimum :
  accepted Scenarios.sizing_capped /\
  (exists q, calculatePositionSize Scenarios.sizing_capped = Return q /\
             q == 0 /\ q < minQty Scenarios.sizing_capped) /\
  PositionSizingDoubles.calculatePositionSize Variants.doubleCapped
  = PositionSizingDoubles.Return PrimFloat.zero /\
  PrimFloat.ltb PrimFloat.zero
                (PositionSizingDoubles.minQty Variants.doubleCapped) = true.
Proof.
  split; [| split; [| split]].
  - unfold accepted. repeat split; try (left; split); qcalc.
  - eexists. split; [vm_compute; reflexivity |]. split; qcalc.
  - vm_compute. reflexivity.
  - vm_compute. reflexivity.
Qed.

(** Rounding down after the clamp also goes below a minimum that is not
    on the step grid. *)
Example min_off_step_rounds_below :
  exists q, calculatePositionSize Scenarios.sizing_min_off_step = Return q /\
            q == 0.001 /\ q < minQty Scenarios.sizing_min_off_step.
Proof. eexists. split; [vm_compute; reflexivity |]. split; qcalc. Qed.

(** The final [toFixed] leaves the step grid when the step has more
    fractional digits than [decimals]: 0.0025 becomes 0.003. *)
Example coarse_decimals_leave_step_grid :
  exists q, calculatePositionSize Scenarios.sizing_coarse_decimals = Return q /\
            q == 0.003 /\ ~ multipleOf 0.0025 q.
Proof.
  eexists. split; [vm_compute; reflexivity |]. split; [qcalc |].
  intros [k Hk]. unfold Qeq in Hk. simpl in Hk. lia.
Qed.

(** In the doubles the code runs in, the step floor also undercuts a
    minimum that is on the step grid: 0.3 / 0.1 is 2.9999999999999996
    there and its floor 2, so the quantity lifted to the minimum 0.3 comes
    back as 0.2.  In exact arithmetic the same input gives 0.3. *)
Example double_step_floor_undercuts_minimum :
  PositionSizingDoubles.calculatePositionSize Variants.doubleMinOnStep
  = PositionSizingDoubles.Return Variants.double02 /\
  PrimFloat.ltb Variants.double02
                (PositionSizingDoubles.minQty Variants.doubleMinOnStep) = true /\
  PositionSizingDoubles.minQty Variants.doubleMinOnStep = Variants.double03 /\
  exists q, calculatePositionSize Variants.exactMinOnStep = Return q /\
            q == 0.3 /\ q == minQty Variants.exactMinOnStep.
Proof.
  split; [vm_compute; reflexivity |]. split; [vm_compute; reflexivity |].
  split; [vm_compute; reflexivity |].
  eexists. split; [vm_compute; reflexivity |]. split; qcalc.
Qed.

(** On the examples of C1 and C3 the doubles agree with the rationals:
    0.001, and 0.00066667 above the cap. *)
Example doubles_agree_on_examples :
  PositionSizingDoubles.calculatePositionSize Variants.doubleExample
  = PositionSizingDoubles.Return Variants.double0001 /\
  PositionSizingDoubles.calculatePositionSize Variants.doubleNoStep
  = PositionSizingDoubles.Return Variants.double000066667 /\
  (exists q, calculatePositionSize Scenarios.sizing_example = Return q /\
             q == 0.001) /\
  (exists q, calculatePositionSize Scenarios.sizing_no_step = Return q /\
             q == 0.00066667).
Proof.
  split; [vm_compute; reflexivity |]. split; [vm_compute; reflexivity |].
  split; eexists; (split; [vm_compute; reflexivity | qcalc]).
Qed.

(** C2, amended, in exact arithmetic.  For an accepted input (fee not
    negative) the function returns a quantity that is non-negative; that
    is an exact multiple of a positive step with at most [decimals]
    fractional digits; and that is at least the minimum when the cap does
    not bind and the minimum lies on the grid in use (a multiple of such a
    step, or, without a step, a number with at most [decimals] fractional
    digits).  All three clauses are claimed of exact arithmetic only: in
    doubles the step floor can fall a step short of a minimum on the grid
    ([double_step_floor_undercuts_minimum]). *)
Theorem quantity_nonneg_step_multiple_above_min p :
  accepted p -> 0 <= feePercentage p ->
  exists q, calculatePositionSize p = Return q /\
    0 <= q /\
    (0 < qtyStep p -> onGrid (decimals p) (qtyStep p) ->
     multipleOf (qtyStep p) q) /\
    (capBinds p = false ->
     (0 < qtyStep p ->
      onGrid (decimals p) (qtyStep p) /\ multipleOf (qtyStep p) (minQty p)) ->
     (qtyStep p == 0 -> onGrid (decimals p) (minQty p)) ->
     minQty p <= q).
Proof.
  intros Ha _. exists (toFixed (cappedQuantity p) (decimals p)).
  pose proof (cappedQuantity_nonneg p Ha) as Hc.
  split; [now apply accepted_returns |].
  split; [now apply toFixed_nonneg |]. split.
  - intros Hs Hg. destruct (cappedQuantity_multiple p Hs) as [k Hk].
    exists k. rewrite <- Hk. apply toFixed_onGrid; trivial.
    apply (multiple_onGrid _ (qtyStep p)); trivial. now exists k.
  - intros Hcap Hstep Hnostep.
    destruct Ha as (_ & _ & _ & _ & Hmin & Hq & _).
    apply Qle_lteq in Hq. destruct Hq as [Hs | Hz].
    + destruct (Hstep Hs) as [Hg Hm].
      rewrite toFixed_onGrid; trivial.
      * apply cappedQuantity_ge_min; trivial.
      * apply (multiple_onGrid _ (qtyStep p)); trivial.
        now apply cappedQuantity_multiple.
    + apply toFixed_ge_grid; trivial.
      * apply cappedQuantity_ge_min; trivial.
        intro Hs. rewrite <- Hz in Hs. discriminate.
      * apply Hnostep. now symmetry.
Qed.

Lemma quantity_nonneg_step_multiple_above_min_witness :
  accepted Scenarios.sizing_example /\
  0 <= feePercentage Scenarios.sizing_example /\
  exists q, calculatePositionSize Scenarios.sizing_example = Return q /\
    0 <= q /\ multipleOf (qtyStep Scenarios.sizing_example) q /\
    minQty Scenarios.sizing_example <= q.
Proof.
  assert (Ha : accepted Scenarios.sizing_example).
  { unfold accepted. repeat split; try (left; split); qcalc. }
  assert (Hf : 0 <= feePercentage Scenarios.sizing_example) by qcalc.
  assert (Hg : onGrid (decimals Scenarios.sizing_example)
                      (qtyStep Scenarios.sizing_example))
    by (exists 1%Z; vm_compute; reflexivity).
  split; [exact Ha |]. split; [exact Hf |].
  destruct (quantity_nonneg_step_multiple_above_min _ Ha Hf)
    as (q & E & H0 & Hm & Hmin).
  exists q. split; [exact E |]. split; [exact H0 |]. split.
  - apply Hm; [vm_compute; reflexivity | exact Hg].
  - apply Hmin.
    + vm_compute; reflexivity.
    + intros _. split; [exact Hg |]. exists 1%Z. vm_compute; reflexivity.
    + intro A. vm_compute in A. discriminate A.
Defined.

(** C3.  Without a step size the cap is applied exactly and the final
    [toFixed] then rounds to the nearest 8-digit number, here upwards:
    20 / 30000 becomes 0.00066667, whose notional 20.0001 is above the
    cap 20. *)
Theorem final_rounding_exceeds_cap :
  accepted Scenarios.sizing_no_step /\
  0 < maxPositionSize Scenarios.sizing_no_step /\
  exists q, calculatePositionSize Scenarios.sizing_no_step = Return q /\
            q == 0.00066667 /\
            maxPositionSize Scenarios.sizing_no_step
              < q * entryPrice Scenarios.sizing_no_step.
Proof.
  split; [unfold accepted; repeat split; try (left; split); qcalc |].
  split; [qcalc |].
  eexists. split; [vm_compute; reflexivity |]. split; qcalc.
Qed.

End PositionSizingFacts.

(** ** Alert handler: routing and risk gate *)

Module ProcessAlertFacts.
Import JS JSFacts Model ProcessAlert.

(** Past the request checks the handler is the router. *)
Lemma handler_routes exec w req out a :
  method req = "POST"%string -> envConfigured req = true ->
  webhookValid req = true -> payload req = Some a -> apiKeyFound req = true ->
  handler exec w req out
  = if isCloseSignal a then closeSignal exec w a out
    else openSignal exec w (webhook_user_id req) a out.
Proof.
  intros Hm He Hw Hp Hk. unfold handler.
  rewrite Hm, He, Hw, Hp, Hk. reflexivity.
Qed.

Lemma isCloseSignal_iff a :
  isCloseSignal a = true <-> a_state a = JString "close".
Proof.
  unfold isCloseSignal, tradeState. split.
  - destruct (a_state a) as [| | b | q | s |]; simpl;
      try discriminate.
    + destruct b; discriminate.
    + destruct (Qeq_bool q 0); discriminate.
    + destruct (String.eqb s EmptyString) eqn:E; simpl; try discriminate.
      intro H. apply String.eqb_eq in H. now subst.
  - intros ->. reflexivity.
Qed.

(** C10.  An alert that reaches the router takes the close path exactly
    when its [state] is the string "close"; with any other value (among
    them "Close", "closed", the empty string, a missing field) the handler
    runs the open path, which on the example places an opening Buy order
    for an alert whose state is "Close". *)
Theorem only_exact_close_takes_close_path exec w req out a :
  method req = "POST"%string -> envConfigured req = true ->
  webhookValid req = true -> payload req = Some a -> apiKeyFound req = true ->
  (a_state a = JString "close" ->
   handler exec w req out = closeSignal exec w a out) /\
  (a_state a <> JString "close" ->
   handler exec w req out = openSignal exec w (webhook_user_id req) a out) /\
  (In (a_state a) [JString "Close"; JString "closed"; JString EmptyString;
                   JMissing] ->
   handler exec w req out = openSignal exec w (webhook_user_id req) a out) /\
  submitted (openSignal (Scenarios.fillsAt 50000) Scenarios.liveEmpty 7
               (Scenarios.alertWithState (JString "Close")) Scenarios.calm)
  = [mkOrderParams "BTCUSDT" "Buy" "Market" (toFixed 0.01 3) (Some 50000)
                   None None false].
Proof.
  intros Hm He Hw Hp Hk.
  pose proof (handler_routes exec w req out a Hm He Hw Hp Hk) as R.
  assert (Hopen : a_state a <> JString "close" ->
                  handler exec w req out
                  = openSignal exec w (webhook_user_id req) a out).
  { intro Hn. rewrite R. destruct (isCloseSignal a) eqn:E; trivial.
    apply isCloseSignal_iff in E. contradiction. }
  repeat split.
  - intro Hc. rewrite R. apply isCloseSignal_iff in Hc. now rewrite Hc.
  - exact Hopen.
  - intro Hin. apply Hopen. intro Hc. rewrite Hc in Hin. simpl in Hin.
    repeat (destruct Hin as [Hin | Hin]; [discriminate Hin |]). exact Hin.
Qed.

Lemma only_exact_close_takes_close_path_witness :
  a_state (Scenarios.alertWithState (JString "Close")) <> JString "close" /\
  handler (Scenarios.fillsAt 50000) Scenarios.liveEmpty
          (Scenarios.post (Scenarios.alertWithState (JString "Close")))
          Scenarios.calm
  = openSignal (Scenarios.fillsAt 50000) Scenarios.liveEmpty 7
               (Scenarios.alertWithState (JString "Close")) Scenarios.calm.
Proof.
  assert (Hn : a_state (Scenarios.alertWithState (JString "Close"))
               <> JString "close") by (simpl; discriminate).
  split; [exact Hn |].
  refine (proj1 (proj2
    (only_exact_close_takes_close_path (Scenarios.fillsAt 50000)
       Scenarios.liveEmpty
       (Scenarios.post (Scenarios.alertWithState (JString "Close")))
       Scenarios.calm
       (Scenarios.alertWithState (JString "Close"))
       eq_refl eq_refl eq_refl eq_refl eq_refl)) Hn).
Defined.

(** *** Daily loss gate *)

Lemma orNum_0 o : orNum o 0 == opt0 o.
Proof.
  destruct o as [q |]; simpl; [| reflexivity].
  destruct (Qeq_bool q 0) eqn:E; [| reflexivity].
  apply Qeq_bool_iff in E. now symmetry.
Qed.

Lemma fold_dailyPnL rows : forall acc,
  fold_left (fun total pnl => total + orNum pnl 0) rows acc
  == acc + sumRealized rows.
Proof.
  induction rows as [| r rest IH]; intro acc; simpl.
  - ring.
  - rewrite IH, orNum_0. destruct r; simpl; ring.
Qed.

(** The handler's running total is the plain sum with [null] as 0. *)
Lemma dailyPnL_sum rows : dailyPnL rows == sumRealized rows.
Proof. unfold dailyPnL. rewrite fold_dailyPnL. ring. Qed.

Lemma riskGate_decides b rows limit :
  daily_loss_limit b = Some limit -> 0 < limit ->
  riskGate b (Some rows)
  = if ltb (dailyPnL rows) 0 && geb (abs (dailyPnL rows)) limit
    then Deny (abs (dailyPnL rows)) limit else Allow.
Proof.
  intros Hl Hpos. unfold riskGate. rewrite Hl.
  assert (T : truthy (Some limit) = true).
  { simpl. destruct (Qeq_bool limit 0) eqn:E; trivial.
    apply Qeq_bool_iff in E. rewrite E in Hpos. discriminate. }
  rewrite T. simpl orb. cbv iota.
  apply gtb_gt in Hpos. now rewrite Hpos.
Qed.

Lemma gate_test_iff rows limit :
  ltb (dailyPnL rows) 0 && geb (abs (dailyPnL rows)) limit = true
  <-> sumRealized rows < 0 /\ limit <= Qabs (sumRealized rows).
Proof.
  rewrite andb_true_iff. unfold geb, abs.
  rewrite ltb_lt, leb_le, dailyPnL_sum. reflexivity.
Qed.

(** Once the gate allows, no later step answers with the daily-loss denial. *)
Lemma allowed_never_denied exec w userId a out :
  riskGate (bot w) (todayTrades w userId out) = Allow ->
  forall loss l,
    response (openSignal exec w userId a out) <> DailyLossLimitExceeded403 loss l.
Proof.
  intros Hg loss l. unfold openSignal. rewrite Hg.
  destruct (instrument out) as [i |]; [| discriminate].
  unfold recordOpen.
  destruct (test_mode (bot w)).
  - destruct (simulatedPnl _ out). discriminate.
  - destruct (exec _); discriminate.
Qed.

(** *** The check over the code's arithmetic *)









(** At the limit the arithmetic decides: -0.7 and -0.1 add up to
    -0.7999999999999999 in doubles, short of a limit of 0.8, and the check
    passes; in exact arithmetic the same rows reach the limit. *)
Example double_sum_stays_short_of_limit :
  RiskCheck.check RiskCheck.doubles (Some Variants.limit08) None
    (Some (RiskCheck.todayTrades RiskCheck.doubles Variants.smallLosses 1 7
             Scenarios.noon))
  = RiskCheck.Passed /\
  exists loss,
    RiskCheck.check RiskCheck.exact (Some (0.8 : RiskCheck.num RiskCheck.exact)) None
      (Some (RiskCheck.todayTrades RiskCheck.exact Variants.smallLossesExact 1 7
               Scenarios.noon))
    = RiskCheck.DailyLossLimitExceeded (A := RiskCheck.exact) loss 0.8.
Proof.
  split; [vm_compute; reflexivity |]. eexists. vm_compute. reflexivity.
Qed.

(** *** Close signal *)

Lemma closeSide_opposite t : closeSide t <> side t.
Proof.
  unfold closeSide. destruct (String.eqb (side t) "Buy") eqn:E.
  - apply String.eqb_eq in E. rewrite E. discriminate.
  - apply String.eqb_neq in E. congruence.
Qed.

Lemma in_updateTrade i f ts t' :
  In t' (updateTrade i f ts) ->
  (exists t0, In t0 ts /\ id t0 = i /\ t' = f t0) \/ (In t' ts /\ id t' <> i).
Proof.
  unfold updateTrade. rewrite in_map_iff. intros (t0 & E & Hin).
  destruct (Nat.eqb (id t0) i) eqn:Hid.
  - apply Nat.eqb_eq in Hid. left. exists t0. auto.
  - apply Nat.eqb_neq in Hid. right. subst t'. auto.
Qed.

(** C7 fails as stated: on a bot in test mode the close of a trade without
    stop-loss and take-profit is simulated, and no order reaches the
    exchange. *)
Lemma test_mode_close_submits_no_order :
  findOpenTrade 1 "BTCUSDT" (trades Scenarios.testOpen) = Some Scenarios.openBuy /\
  stop_loss Scenarios.openBuy = None /\ take_profit Scenarios.openBuy = None /\
  let o := handler (Scenarios.fillsAt 50500) Scenarios.testOpen
             (Scenarios.post (Scenarios.alertWithState (JString "close")))
             Scenarios.calm in
  submitted o = [] /\
  exists pnl, response o = TradeClosed200 3 (Some pnl) "signal".
Proof.
  repeat split. eexists. vm_compute. reflexivity.
Qed.

(** C7, amended.  A close signal that finds an open trade with neither
    stop-loss nor take-profit (absent or 0) on a bot that is not in test
    mode hands exactly one order to the exchange: a Market order for the
    trade's quantity on the opposite side.  In test mode, or when the trade
    has a stop-loss or a take-profit, it hands over none. *)
Theorem close_submits_one_opposite_market_order exec w a out t :
  tradesReadable out = true ->
  findOpenTrade (bot_id (bot w)) (symbolOf a (bot w)) (trades w) = Some t ->
  (truthy (stop_loss t) = false -> truthy (take_profit t) = false ->
   test_mode (bot w) = false ->
   exists order,
     submitted (closeSignal exec w a out) = [order] /\
     op_orderType order = "Market"%string /\
     op_quantity order = quantity t /\
     op_symbol order = symbolOf a (bot w) /\
     op_side order <> side t /\
     (side t = "Buy"%string -> op_side order = "Sell"%string) /\
     (side t = "Sell"%string -> op_side order = "Buy"%string)) /\
  (truthy (stop_loss t) = false -> truthy (take_profit t) = false ->
   test_mode (bot w) = true ->
   submitted (closeSignal exec w a out) = []) /\
  (truthy (stop_loss t) = true \/ truthy (take_profit t) = true ->
   submitted (closeSignal exec w a out) = []).
Proof.
  intros Hr Hfind. unfold closeSignal. rewrite Hr, Hfind.
  split; [| split].
  - intros Hs Ht Hm. rewrite Hs, Ht, Hm. simpl andb. cbv iota.
    exists (closeOrderParams (symbolOf a (bot w)) t (bot w)).
    split.
    + destruct (exec _); reflexivity.
    + repeat split; simpl.
      * apply closeSide_opposite.
      * intro E. unfold closeSide. now rewrite E.
      * intro E. unfold closeSide. now rewrite E.
  - intros Hs Ht Hm. rewrite Hs, Ht, Hm. reflexivity.
  - intros [H | H]; rewrite H; simpl andb; cbv iota;
      [| rewrite andb_false_r]; reflexivity.
Qed.

Lemma close_submits_one_opposite_market_order_witness :
  findOpenTrade 1 "BTCUSDT" (trades Scenarios.liveOpen) = Some Scenarios.openBuy /\
  exists order,
    submitted (closeSignal (Scenarios.fillsAt 50500) Scenarios.liveOpen
                 (Scenarios.alertWithState (JString "close")) Scenarios.calm)
    = [order] /\
    op_orderType order = "Market"%string /\
    op_quantity order = 0.1 /\
    op_side order = "Sell"%string.
Proof.
  split; [reflexivity |].
  destruct (proj1
    (close_submits_one_opposite_market_order (Scenarios.fillsAt 50500)
       Scenarios.liveOpen (Scenarios.alertWithState (JString "close"))
       Scenarios.calm Scenarios.openBuy eq_refl eq_refl)
    eq_refl eq_refl eq_refl) as (order & Hsub & Hty & Hq & _ & _ & Hbuy & _).
  exists order. repeat split; trivial. now apply Hbuy.
Defined.

(** C8.  When the close signal carries no realized PnL and the trade has
    neither stop-loss nor take-profit, the PnL that is answered and
    written to the trade is the price difference times the quantity (exit
    minus entry for Buy, entry minus exit otherwise) minus a fee of exit
    price times quantity times 0.001, the exit price being that of the
    close result and the close filling the trade's quantity.  For a Buy at
    50000 of 0.1 closed at 50500 it is 44.95. *)
Theorem close_estimates_pnl exec w a out t r :
  tradesReadable out = true ->
  findOpenTrade (bot_id (bot w)) (symbolOf a (bot w)) (trades w) = Some t ->
  truthy (stop_loss t) = false -> truthy (take_profit t) = false ->
  truthy (a_realized_pnl a) = false ->
  (if test_mode (bot w)
   then r = simulatedClose a t (closeOrderParams (symbolOf a (bot w)) t (bot w)) out
   else exec (closeOrderParams (symbolOf a (bot w)) t (bot w)) = inr r) ->
  qty r == quantity t ->
  exists pnl,
    response (closeSignal exec w a out) = TradeClosed200 (id t) (Some pnl) "signal" /\
    (tradeWriteOk out = true ->
     forall t', In t' (trades (world (closeSignal exec w a out))) ->
                id t' = id t ->
                realized_pnl t' = Some pnl /\ state t' = "closed"%string) /\
    pnl == (if String.eqb (side t) "Buy"
            then (or_price r - price t) * quantity t
            else (price t - or_price r) * quantity t)
           - or_price r * quantity t * 0.001 /\
    (side t = "Buy"%string -> price t = 50000 -> quantity t = 0.1 ->
     or_price r = 50500 -> pnl == 44.95).
Proof.
  intros Hr Hfind Hs Ht Ha Hres Hq.
  assert (Hform : estimatePnl t r
                  == (if String.eqb (side t) "Buy"
                      then (or_price r - price t) * quantity t
                      else (price t - or_price r) * quantity t)
                     - or_price r * quantity t * 0.001).
  { unfold estimatePnl. now rewrite Hq. }
  exists (estimatePnl t r).
  assert (Hout : closeSignal exec w a out
                 = finishClose w out t (Some r) (Some (estimatePnl t r)) "signal"
                     (if test_mode (bot w) then []
                      else [closeOrderParams (symbolOf a (bot w)) t (bot w)])).
  { unfold closeSignal. rewrite Hr, Hfind, Hs, Ht. simpl andb. cbv iota.
    unfold orNull. rewrite Ha.
    destruct (test_mode (bot w)).
    - now subst r.
    - now rewrite Hres. }
  rewrite Hout. split; [reflexivity |]. split; [| split].
  - intros Hw t' Hin Hid. simpl in Hin. rewrite Hw in Hin.
    apply in_updateTrade in Hin. destruct Hin as [(t0 & _ & _ & E) | [_ Hne]].
    + subst t'. split; reflexivity.
    + contradiction.
  - exact Hform.
  - intros Hside Hp Hqty Hexit. rewrite Hform, Hside, Hp, Hqty, Hexit.
    vm_compute. reflexivity.
Qed.

Lemma close_estimates_pnl_witness :
  exists pnl,
    response (closeSignal (Scenarios.fillsAt 50500) Scenarios.liveOpen
                (Scenarios.alertWithState (JString "close")) Scenarios.calm)
    = TradeClosed200 3 (Some pnl) "signal" /\
    pnl == 44.95.
Proof.
  destruct (close_estimates_pnl (Scenarios.fillsAt 50500) Scenarios.liveOpen
              (Scenarios.alertWithState (JString "close")) Scenarios.calm
              Scenarios.openBuy
              (mkOrderResult "ex-9" "BTCUSDT" "Sell" "Market" 0.1 50500 "Filled")
              eq_refl eq_refl eq_refl eq_refl eq_refl eq_refl)
    as (pnl & Hresp & _ & _ & Hex).
  - vm_compute. reflexivity.
  - exists pnl. split; [exact Hresp |]. now apply Hex.
Defined.

End ProcessAlertFacts.

(** ** Reconciliation handler *)

Module UpdateTradePnlFacts.
Import JS Model UpdateTradePnl.

(** After an update by id with an id-preserving change, the row found by
    that id is the changed first row of that id. *)
Lemma findTrade_updateTrade i f ts :
  (forall t, id (f t) = id t) ->
  findTrade i (updateTrade i f ts) = option_map f (findTrade i ts).
Proof.
  intro Hid. unfold findTrade, updateTrade.
  induction ts as [| t ts IH]; simpl; trivial.
  destruct (Nat.eqb (id t) i) eqn:E.
  - rewrite Hid, E. reflexivity.
  - rewrite E. exact IH.
Qed.

Lemma findTrade_id i ts t : findTrade i ts = Some t -> id t = i.
Proof.
  unfold findTrade. intro H. apply find_some in H.
  now apply Nat.eqb_eq.
Qed.

(** The update answer is given only on the update path: a POST for a trade
    of the bot whose [realized_pnl] is null, the bot not in test mode, a
    matching record in the exchange's list, and the trade write succeeding. *)
Lemma updated_only_on_update_path w req out i p e x :
  response (handler w req out) = Updated200 i p e x ->
  exists t records m,
    tradeId req = Some i /\ findTrade i (trades w) = Some t /\
    realized_pnl t = None /\ test_mode (bot w) = false /\
    reply out = PnlList records /\ matchingPnl t records = Some m /\
    closedPnl m = p /\ avgEntryPrice m = e /\ avgExitPrice m = x /\
    world (handler w req out) = updatedWorld w i m out.
Proof.
  unfold handler.
  destruct (String.eqb (method req) "OPTIONS"); [discriminate |].
  destruct (negb (String.eqb (method req) "POST")); [discriminate |].
  destruct (negb (envConfigured req)); [discriminate |].
  destruct (tradeId req) as [j |]; [| discriminate].
  destruct (findTrade j (trades w)) as [t |] eqn:Hf; [| discriminate].
  destruct (negb (Nat.eqb (trade_bot_id t) (bot_id (bot w)))); [discriminate |].
  unfold alreadyHasPnl.
  destruct (realized_pnl t) as [q |] eqn:Hp.
  - destruct (test_mode (bot w)) eqn:Hm; simpl; [| discriminate].
    destruct (negb (apiKeyFound out)); discriminate.
  - destruct (negb (apiKeyFound out)); [discriminate |].
    destruct (test_mode (bot w)) eqn:Hm; [discriminate |].
    destruct (reply out) as [| | records] eqn:Hr; try discriminate.
    destruct (matchingPnl t records) as [m |] eqn:Hmatch; [| discriminate].
    destruct (negb (tradeWriteOk out)); [discriminate |].
    simpl. intro H. injection H as -> <- <- <-.
    exists t, records, m. repeat split; trivial.
Qed.

(** The skip guard answers a non-test bot's trade that has a PnL. *)
Lemma skip_guard w req out i t pnl :
  method req = "POST"%string -> envConfigured req = true ->
  tradeId req = Some i -> findTrade i (trades w) = Some t ->
  trade_bot_id t = bot_id (bot w) -> realized_pnl t = Some pnl ->
  test_mode (bot w) = false ->
  handler w req out = mkOutcome w false (AlreadyHasPnl200 i pnl).
Proof.
  intros Hm He Hi Hf Hb Hp Ht. unfold handler, alreadyHasPnl.
  rewrite Hm, He, Hi, Hf, Hb, Nat.eqb_refl, Hp, Ht. reflexivity.
Qed.

(** C6.  For a POST naming a trade whose [realized_pnl] is not null: on a
    bot that is not in test mode the handler answers with the success
    outcome "already has PnL data", queries nothing and leaves trades and
    bot as they are; on a bot in test mode the guard is not taken and the
    handler goes on to the credentials lookup and the simulated-data
    answer.  After an answered update on a non-test bot a second run is
    answered by the guard and changes nothing. *)
Theorem reconcile_skips_trade_with_pnl w req out i t pnl :
  method req = "POST"%string -> envConfigured req = true ->
  tradeId req = Some i -> findTrade i (trades w) = Some t ->
  trade_bot_id t = bot_id (bot w) -> realized_pnl t = Some pnl ->
  (test_mode (bot w) = false ->
   handler w req out = mkOutcome w false (AlreadyHasPnl200 i pnl)) /\
  (test_mode (bot w) = true ->
   handler w req out
   = mkOutcome w false (if apiKeyFound out then SimulatedPnl200 i (Some pnl)
                        else ApiCredentialsNotFound400)) /\
  (forall w0 out0 out2 p e x,
     response (handler w0 req out0) = Updated200 i p e x ->
     handler (world (handler w0 req out0)) req out2
     = mkOutcome (world (handler w0 req out0)) false (AlreadyHasPnl200 i p)).
Proof.
  intros Hm He Hi Hf Hb Hp. split; [| split].
  - now apply skip_guard with t.
  - intro Ht. unfold handler, alreadyHasPnl.
    rewrite Hm, He, Hi, Hf, Hb, Nat.eqb_refl, Hp, Ht. simpl.
    destruct (apiKeyFound out); reflexivity.
  - intros w0 out0 out2 p e x Hu.
    pose proof Hu as Hu'. unfold handler in Hu'.
    rewrite Hm, He, Hi in Hu'. simpl in Hu'.
    destruct (findTrade i (trades w0)) as [t0 |] eqn:Hf0; [| discriminate].
    destruct (Nat.eqb (trade_bot_id t0) (bot_id (bot w0))) eqn:Hb0;
      [| discriminate].
    clear Hu'.
    destruct (updated_only_on_update_path _ _ _ _ _ _ _ Hu)
      as (t1 & records & m & _ & Hf1 & _ & Ht1 & _ & _ & Hcp & _ & _ & Hw).
    rewrite Hf0 in Hf1. injection Hf1 as <-.
    rewrite Hw. apply Nat.eqb_eq in Hb0.
    apply skip_guard with (pnlFields m t0); trivial.
    + unfold updatedWorld. simpl.
      rewrite findTrade_updateTrade by reflexivity. now rewrite Hf0.
    + unfold updatedWorld. simpl. rewrite Hb0.
      destruct (botWriteOk out0); reflexivity.
    + simpl. now rewrite Hcp.
    + unfold updatedWorld. simpl. destruct (botWriteOk out0); exact Ht1.
Qed.

Lemma reconcile_skips_trade_with_pnl_witness :
  findTrade 1 (trades Scenarios.settled)
  = Some (Scenarios.closedTrade 1 "ord-1" (-70)) /\
  handler Scenarios.settled (Scenarios.reconcileOf 1) Scenarios.exchangeSays40
  = mkOutcome Scenarios.settled false (AlreadyHasPnl200 1 (-70)).
Proof.
  split; [reflexivity |].
  exact (proj1
    (reconcile_skips_trade_with_pnl Scenarios.settled (Scenarios.reconcileOf 1)
       Scenarios.exchangeSays40 1 (Scenarios.closedTrade 1 "ord-1" (-70)) (-70)
       eq_refl eq_refl eq_refl eq_refl eq_refl eq_refl) eq_refl).
Defined.

End UpdateTradePnlFacts.

(** ** Pipeline: close followed by reconciliation, and trade states *)

Module PipelineFacts.
Import JS Model.

(** A close that triggers the PnL update went through [finishClose] for a
    trade of that id, on a bot that is not in test mode. *)
Lemma close_triggering_update exec w a out i :
  ProcessAlert.pnlUpdate (ProcessAlert.closeSignal exec w a out) = Some i ->
  exists t closeResult realizedPnl closeReason orders,
    ProcessAlert.closeSignal exec w a out
    = ProcessAlert.finishClose w out t closeResult realizedPnl closeReason orders
    /\ id t = i /\ test_mode (bot w) = false.
Proof.
  unfold ProcessAlert.closeSignal.
  destruct (if ProcessAlert.tradesReadable out
            then ProcessAlert.findOpenTrade _ _ _ else None) as [t |];
    [| discriminate].
  assert (F : forall cr pnl reason orders,
    ProcessAlert.pnlUpdate
      (ProcessAlert.finishClose w out t cr pnl reason orders) = Some i ->
    id t = i /\ test_mode (bot w) = false).
  { intros cr pnl reason orders. simpl.
    destruct (test_mode (bot w)); [discriminate |].
    intro H. injection H as <-. auto. }
  destruct (negb (truthy (stop_loss t)) && negb (truthy (take_profit t))).
  - destruct (test_mode (bot w)) eqn:Hm.
    + simpl. rewrite Hm. discriminate.
    + destruct (exec _) as [msg | r]; [discriminate |].
      intro H. destruct (F _ _ _ _ H). eauto 10.
  - intro H. destruct (F _ _ _ _ H). eauto 10.
Qed.

(** When the close wrote the trade and reconciliation then answers with an
    update, the close credited nothing and the bot's [profit_loss] ends at
    its value before the close plus the exchange's PnL. *)
Lemma close_then_reconcile_counts_once exec w a out rout i p e x :
  ProcessAlert.tradeWriteOk out = true ->
  ProcessAlert.pnlUpdate (ProcessAlert.closeSignal exec w a out) = Some i ->
  UpdateTradePnl.response
    (UpdateTradePnl.handler
       (ProcessAlert.world (ProcessAlert.closeSignal exec w a out))
       (UpdateTradePnl.mkRequest "POST" true (Some i)) rout)
  = UpdateTradePnl.Updated200 i p e x ->
  bot (ProcessAlert.world (ProcessAlert.closeSignal exec w a out)) = bot w /\
  (UpdateTradePnl.botWriteOk rout = true ->
   profit_loss
     (bot (UpdateTradePnl.world
             (UpdateTradePnl.handler
                (ProcessAlert.world (ProcessAlert.closeSignal exec w a out))
                (UpdateTradePnl.mkRequest "POST" true (Some i)) rout)))
   = Some (orNum (profit_loss (bot w)) 0 + p)).
Proof.
  intros Hw Htrig Hupd.
  destruct (close_triggering_update _ _ _ _ _ Htrig)
    as (t & cr & pnl & reason & orders & Hc & Hid & Hm).
  rewrite Hc in *.
  destruct (UpdateTradePnlFacts.updated_only_on_update_path _ _ _ _ _ _ _ Hupd)
    as (t2 & records & m & _ & Hf & Hnull & _ & _ & _ & Hp & _ & _ & Hworld).
  assert (Hpnl : pnl = None).
  { simpl in Hf. rewrite Hw, Hid in Hf.
    rewrite UpdateTradePnlFacts.findTrade_updateTrade in Hf by reflexivity.
    destruct (findTrade i (trades w)); [| discriminate].
    injection Hf as <-. exact Hnull. }
  subst pnl. split; [reflexivity |].
  intro Hb. rewrite Hworld. unfold UpdateTradePnl.updatedWorld.
  simpl. rewrite Hb. simpl. now rewrite Hp.
Qed.

(** C4 fails as stated: when the close credits its estimate 44.95 to the
    bot but its write to the trade fails, the trade still shows no PnL,
    reconciliation finds the exchange's record (40) and adds all of it:
    the bot ends at 84.95, not at 44.95 + (40 - 44.95). *)
Lemma reconciliation_adds_whole_pnl_after_credit :
  let o1 := ProcessAlert.handler (Scenarios.fillsAt 50500) Scenarios.liveOpen
              (Scenarios.post (Scenarios.alertWithState (ProcessAlert.JString "close")))
              Scenarios.tradeWriteFails in
  let o2 := UpdateTradePnl.handler (ProcessAlert.world o1)
              (Scenarios.reconcileOf 3) Scenarios.exchangeSays40 in
  profit_loss (bot Scenarios.liveOpen) = Some 0 /\
  ProcessAlert.pnlUpdate o1 = Some 3%nat /\
  (exists estimate, profit_loss (bot (ProcessAlert.world o1)) = Some estimate /\
                    estimate == 44.95) /\
  UpdateTradePnl.response o2 = UpdateTradePnl.Updated200 3 40 50010 50420 /\
  (exists total, profit_loss (bot (UpdateTradePnl.world o2)) = Some total /\
                 total == 84.95 /\ ~ total == 44.95 + (40 - 44.95)) /\
  Pipeline.processAlert (Scenarios.fillsAt 50500) Scenarios.liveOpen
    (Scenarios.post (Scenarios.alertWithState (ProcessAlert.JString "close")))
    Scenarios.tradeWriteFails (Some Scenarios.exchangeSays40)
  = UpdateTradePnl.world o2.
Proof.
  cbv zeta. split; [reflexivity |]. split; [reflexivity |]. split.
  { eexists. split; [vm_compute; reflexivity | vm_compute; reflexivity]. }
  split; [reflexivity |]. split.
  { eexists. split; [vm_compute; reflexivity |].
    split; [vm_compute; reflexivity | vm_compute; discriminate]. }
  reflexivity.
Qed.

(** C4, amended.  On a non-test bot, for a trade of the bot whose
    [realized_pnl] is null, when the exchange's list holds a record with
    the trade's order id (and the trade write succeeds), reconciliation
    answers with an update; the rows of that id then carry the exchange's
    PnL and average entry and exit prices, and the bot's [profit_loss] is
    its value read with the trade (null as 0) plus the whole exchange PnL.
    An update is answered only for such a trade, and after a close that
    wrote the trade the bot ends at its value before the close plus the
    exchange's PnL. *)
Theorem reconcile_overwrites_and_adds_whole_pnl w req out i t records m :
  UpdateTradePnl.method req = "POST"%string ->
  UpdateTradePnl.envConfigured req = true ->
  UpdateTradePnl.tradeId req = Some i ->
  findTrade i (trades w) = Some t -> trade_bot_id t = bot_id (bot w) ->
  realized_pnl t = None -> test_mode (bot w) = false ->
  UpdateTradePnl.apiKeyFound out = true ->
  UpdateTradePnl.reply out = UpdateTradePnl.PnlList records ->
  UpdateTradePnl.matchingPnl t records = Some m ->
  UpdateTradePnl.tradeWriteOk out = true ->
  UpdateTradePnl.cp_orderId m = order_id t /\
  UpdateTradePnl.handler w req out
  = UpdateTradePnl.mkOutcome (UpdateTradePnl.updatedWorld w i m out) true
      (UpdateTradePnl.Updated200 i (UpdateTradePnl.closedPnl m)
         (UpdateTradePnl.avgEntryPrice m) (UpdateTradePnl.avgExitPrice m)) /\
  findTrade i (trades (UpdateTradePnl.updatedWorld w i m out))
  = Some (UpdateTradePnl.pnlFields m t) /\
  (forall t', In t' (trades (UpdateTradePnl.updatedWorld w i m out)) ->
              id t' = i ->
              realized_pnl t' = Some (UpdateTradePnl.closedPnl m) /\
              avg_entry_price t' = Some (UpdateTradePnl.avgEntryPrice m) /\
              avg_exit_price t' = Some (UpdateTradePnl.avgExitPrice m)) /\
  (UpdateTradePnl.botWriteOk out = true ->
   profit_loss (bot (UpdateTradePnl.updatedWorld w i m out))
   = Some (orNum (profit_loss (bot w)) 0 + UpdateTradePnl.closedPnl m)) /\
  (forall w0 req0 out0 j p e x,
     UpdateTradePnl.response (UpdateTradePnl.handler w0 req0 out0)
     = UpdateTradePnl.Updated200 j p e x ->
     exists t0, findTrade j (trades w0) = Some t0 /\
                realized_pnl t0 = None /\ test_mode (bot w0) = false) /\
  (forall exec w0 a out0 rout j p e x,
     ProcessAlert.tradeWriteOk out0 = true ->
     ProcessAlert.pnlUpdate (ProcessAlert.closeSignal exec w0 a out0) = Some j ->
     UpdateTradePnl.response
       (UpdateTradePnl.handler
          (ProcessAlert.world (ProcessAlert.closeSignal exec w0 a out0))
          (UpdateTradePnl.mkRequest "POST" true (Some j)) rout)
     = UpdateTradePnl.Updated200 j p e x ->
     UpdateTradePnl.botWriteOk rout = true ->
     profit_loss
       (bot (UpdateTradePnl.world
               (UpdateTradePnl.handler
                  (ProcessAlert.world (ProcessAlert.closeSignal exec w0 a out0))
                  (UpdateTradePnl.mkRequest "POST" true (Some j)) rout)))
     = Some (orNum (profit_loss (bot w0)) 0 + p)).
Proof.
  intros Hm He Hi Hf Hb Hp Ht Hk Hr Hmatch Hw.
  split.
  { unfold UpdateTradePnl.matchingPnl in Hmatch.
    apply find_some in Hmatch. now apply String.eqb_eq. }
  split.
  { unfold UpdateTradePnl.handler, UpdateTradePnl.alreadyHasPnl.
    rewrite Hm, He, Hi, Hf, Hb, Nat.eqb_refl, Hp, Hk, Ht, Hr, Hmatch, Hw.
    reflexivity. }
  split.
  { simpl. rewrite UpdateTradePnlFacts.findTrade_updateTrade by reflexivity.
    now rewrite Hf. }
  split.
  { intros t' Hin Hid. simpl in Hin.
    apply ProcessAlertFacts.in_updateTrade in Hin.
    destruct Hin as [(t0 & _ & _ & E) | [_ Hne]]; [| contradiction].
    subst t'. repeat split. }
  split.
  { intro Hbw. simpl. now rewrite Hbw. }
  split.
  { intros w0 req0 out0 j p e x Hu.
    destruct (UpdateTradePnlFacts.updated_only_on_update_path _ _ _ _ _ _ _ Hu)
      as (t0 & _ & _ & _ & Hf0 & Hn0 & Ht0 & _).
    eauto. }
  intros exec w0 a out0 rout j p e x Hw0 Htrig Hu Hbw.
  now apply (close_then_reconcile_counts_once exec w0 a out0 rout j p e x).
Qed.

Lemma reconcile_overwrites_and_adds_whole_pnl_witness :
  UpdateTradePnl.response
    (UpdateTradePnl.handler Scenarios.liveOpen (Scenarios.reconcileOf 3)
       Scenarios.exchangeSays40)
  = UpdateTradePnl.Updated200 3 40 50010 50420 /\
  profit_loss (bot (UpdateTradePnl.updatedWorld Scenarios.liveOpen 3
                      (UpdateTradePnl.mkClosedPnl "ord-3" 40 50010 50420)
                      Scenarios.exchangeSays40))
  = Some (orNum (Some 0) 0 + 40).
Proof.
  destruct (reconcile_overwrites_and_adds_whole_pnl Scenarios.liveOpen
              (Scenarios.reconcileOf 3) Scenarios.exchangeSays40 3
              Scenarios.openBuy
              [UpdateTradePnl.mkClosedPnl "ord-0" 12 48000 48100;
               UpdateTradePnl.mkClosedPnl "ord-3" 40 50010 50420]
              (UpdateTradePnl.mkClosedPnl "ord-3" 40 50010 50420)
              eq_refl eq_refl eq_refl eq_refl eq_refl eq_refl eq_refl eq_refl
              eq_refl eq_refl eq_refl)
    as (_ & Hh & _ & _ & Hb & _).
  split.
  - rewrite Hh. reflexivity.
  - apply Hb. reflexivity.
Defined.

(** *** Trade states *)

Lemma stateMonotone_refl ts : Pipeline.stateMonotone ts ts.
Proof. intros i t H. exists t. auto. Qed.

Lemma stateMonotone_trans ts1 ts2 ts3 :
  Pipeline.stateMonotone ts1 ts2 -> Pipeline.stateMonotone ts2 ts3 ->
  Pipeline.stateMonotone ts1 ts3.
Proof.
  intros H12 H23 i t H.
  destruct (H12 i t H) as (t2 & H2 & Hid2 & Hs2).
  destruct (H23 i t2 H2) as (t3 & H3 & Hid3 & Hs3).
  exists t3. split; [exact H3 |]. split; [congruence |].
  destruct Hs3 as [E | E]; [| now right].
  destruct Hs2 as [E2 | E2]; [left | right]; congruence.
Qed.

Lemma createdOpen_trans ts1 ts2 ts3 :
  Pipeline.createdOpen ts1 ts2 -> Pipeline.stateMonotone ts2 ts3 ->
  Pipeline.createdOpen ts2 ts3 -> Pipeline.createdOpen ts1 ts3.
Proof.
  intros C12 M23 C23 i t3 H3 Hnone.
  destruct (nth_error ts2 i) as [t2 |] eqn:H2.
  - destruct (M23 i t2 H2) as (t3' & H3' & _ & Hs).
    rewrite H3 in H3'. injection H3' as <-.
    destruct (C12 i t2 H2 Hnone) as [E | E]; destruct Hs as [E' | E'];
      (left; congruence) || (right; congruence).
  - exact (C23 i t3 H3 H2).
Qed.

Lemma tableStep_refl ts : Pipeline.tableStep ts ts.
Proof.
  split; [apply stateMonotone_refl |]. intros i t' H1 H2. congruence.
Qed.

Lemma tableStep_update i f ts :
  (forall t, id (f t) = id t /\
             (state (f t) = state t \/ state (f t) = "closed"%string)) ->
  Pipeline.tableStep ts (updateTrade i f ts).
Proof.
  intro Hf. unfold updateTrade. split.
  - intros n t H. rewrite nth_error_map, H. simpl.
    destruct (Nat.eqb (id t) i).
    + exists (f t). split; [reflexivity |]. apply Hf.
    + exists t. auto.
  - intros n t' H Hnone. rewrite nth_error_map, Hnone in H. discriminate.
Qed.

Lemma tableStep_insert ts t :
  state t = "open"%string -> Pipeline.tableStep ts (ts ++ [t]).
Proof.
  intro Ho. split.
  - intros n t0 H. exists t0. split; [| auto].
    rewrite nth_error_app1; trivial.
    apply nth_error_Some. congruence.
  - intros n t' H Hnone. apply nth_error_None in Hnone.
    rewrite nth_error_app2 in H by exact Hnone.
    destruct (n - length ts)%nat as [| k]; simpl in H.
    + injection H as <-. exact Ho.
    + destruct k; discriminate.
Qed.

Lemma tableStep_finishClose w out t cr pnl reason orders :
  Pipeline.tableStep (trades w)
    (trades (ProcessAlert.world
               (ProcessAlert.finishClose w out t cr pnl reason orders))).
Proof.
  simpl. destruct (ProcessAlert.tradeWriteOk out).
  - apply tableStep_update. intro t0. simpl. auto.
  - apply tableStep_refl.
Qed.

Lemma tableStep_closeSignal exec w a out :
  Pipeline.tableStep (trades w)
    (trades (ProcessAlert.world (ProcessAlert.closeSignal exec w a out))).
Proof.
  unfold ProcessAlert.closeSignal.
  destruct (if ProcessAlert.tradesReadable out
            then ProcessAlert.findOpenTrade _ _ _ else None) as [t |];
    [| apply tableStep_refl].
  destruct (negb (truthy (stop_loss t)) && negb (truthy (take_profit t)));
    [| apply tableStep_finishClose].
  destruct (test_mode (bot w)); [apply tableStep_finishClose |].
  destruct (exec _); [apply tableStep_refl | apply tableStep_finishClose].
Qed.

Lemma tableStep_recordOpen w userId out o r orders :
  Pipeline.tableStep (trades w)
    (trades (ProcessAlert.world
               (ProcessAlert.recordOpen w userId out o r orders))).
Proof.
  unfold ProcessAlert.recordOpen.
  destruct (if test_mode (bot w) then ProcessAlert.simulatedPnl o out
            else (None, Some 0)) as [pnl fees].
  simpl. destruct (ProcessAlert.tradeWriteOk out).
  - now apply tableStep_insert.
  - apply tableStep_refl.
Qed.

Lemma tableStep_openSignal exec w userId a out :
  Pipeline.tableStep (trades w)
    (trades (ProcessAlert.world (ProcessAlert.openSignal exec w userId a out))).
Proof.
  unfold ProcessAlert.openSignal.
  destruct (ProcessAlert.riskGate _ _); [| apply tableStep_refl].
  destruct (ProcessAlert.instrument out); [| apply tableStep_refl].
  destruct (test_mode (bot w)); [apply tableStep_recordOpen |].
  destruct (exec _); [apply tableStep_refl | apply tableStep_recordOpen].
Qed.

Lemma tableStep_alert exec w req out :
  Pipeline.tableStep (trades w)
    (trades (ProcessAlert.world (ProcessAlert.handler exec w req out))).
Proof.
  unfold ProcessAlert.handler.
  repeat match goal with
         | |- context [if ?c then _ else _] =>
             destruct c; try apply tableStep_refl
         | |- context [match ProcessAlert.payload req with _ => _ end] =>
             destruct (ProcessAlert.payload req); try apply tableStep_refl
         end;
    first [apply tableStep_closeSignal | apply tableStep_openSignal].
Qed.

(** Reconciliation creates no row and changes no state. *)
Lemma tableStep_reconcile w req out :
  Pipeline.stateMonotone (trades w)
    (trades (UpdateTradePnl.world (UpdateTradePnl.handler w req out))) /\
  (forall i, nth_error (trades w) i = None ->
     nth_error (trades (UpdateTradePnl.world (UpdateTradePnl.handler w req out))) i
     = None).
Proof.
  assert (R : forall ts : list Trade,
             Pipeline.stateMonotone ts ts /\
             (forall i, nth_error ts i = None -> nth_error ts i = None))
    by (intro ts; split; [apply stateMonotone_refl | auto]).
  unfold UpdateTradePnl.handler.
  repeat match goal with
         | |- context [if ?c then _ else _] => destruct c; try apply R
         | |- context [match ?c with _ => _ end] => destruct c; try apply R
         end.
  simpl. split.
  - apply tableStep_update. intro t0. simpl. auto.
  - intros i H. unfold updateTrade. now rewrite nth_error_map, H.
Qed.

Lemma tableStep_step exec w w' : Pipeline.step exec w w' -> Pipeline.tableStep (trades w) (trades w').
Proof.
  intros [w0 req out rec | w0 req out].
  - unfold Pipeline.processAlert.
    pose proof (tableStep_alert exec w0 req out) as [M C].
    destruct (ProcessAlert.pnlUpdate _) as [i |]; [| now split].
    destruct rec as [rout |]; [| now split].
    destruct (tableStep_reconcile
                (ProcessAlert.world (ProcessAlert.handler exec w0 req out))
                (UpdateTradePnl.mkRequest "POST" true (Some i)) rout)
      as [M2 N2].
    split; [now apply stateMonotone_trans with (2 := M2) |].
    intros n t' H Hnone.
    destruct (nth_error
                (trades (ProcessAlert.world (ProcessAlert.handler exec w0 req out)))
                n) as [t1 |] eqn:H1.
    + destruct (M2 n t1 H1) as (t2 & H2 & _ & Hs).
      rewrite H in H2. injection H2 as <-.
      pose proof (C n t1 H1 Hnone) as Ho.
      destruct Hs as [E | E]; [congruence |].
      (* reconciliation keeps the state *)
      exfalso. clear - H H1 Ho E.
      unfold UpdateTradePnl.handler in H. simpl in H.
      destruct (findTrade i _) as [tr |]; simpl in H; [| congruence].
      destruct (negb _); simpl in H; [congruence |].
      destruct (UpdateTradePnl.alreadyHasPnl _ _); simpl in H; [congruence |].
      destruct (negb _); simpl in H; [congruence |].
      destruct (test_mode _); simpl in H; [congruence |].
      destruct (UpdateTradePnl.reply rout); simpl in H; try congruence.
      destruct (UpdateTradePnl.matchingPnl _ _); simpl in H; [| congruence].
      destruct (negb _); simpl in H; [congruence |].
      unfold updateTrade in H. rewrite nth_error_map, H1 in H. simpl in H.
      destruct (Nat.eqb (id t1) i); injection H as <-; simpl in E; congruence.
    + now rewrite (N2 n H1) in H.
  - destruct (tableStep_reconcile w0 req out) as [M N].
    split; [exact M |]. intros n t' H Hnone.
    unfold Pipeline.reconcile in H. now rewrite (N n Hnone) in H.
Qed.

(** The trade that the close lookup returns is a row of the table whose
    state is "open". *)
Lemma findOpenTrade_open botId sym ts t :
  ProcessAlert.findOpenTrade botId sym ts = Some t ->
  In t ts /\ state t = "open"%string.
Proof.
  unfold ProcessAlert.findOpenTrade.
  assert (G : forall l best,
    (forall u, In u l -> In u ts) ->
    (forall b, best = Some b -> In b ts /\ state b = "open"%string) ->
    fold_left (fun best u => if ProcessAlert.isOpenTradeOf botId sym u
                             then ProcessAlert.later best u else best) l best
    = Some t ->
    In t ts /\ state t = "open"%string).
  { induction l as [| u l IH]; intros best Hsub Hbest H; simpl in H.
    - now apply Hbest.
    - apply IH in H; trivial.
      + intros v Hv. apply Hsub. now right.
      + intros b Hb.
        destruct (ProcessAlert.isOpenTradeOf botId sym u) eqn:E;
          [| now apply Hbest].
        assert (Hu : In u ts /\ state u = "open"%string).
        { split; [apply Hsub; now left |].
          unfold ProcessAlert.isOpenTradeOf in E.
          apply andb_true_iff in E. destruct E as [_ E].
          now apply String.eqb_eq. }
        unfold ProcessAlert.later in Hb. destruct best as [b0 |].
        * destruct (Z.ltb (created_at b0) (created_at u));
            injection Hb as <-; [exact Hu | now apply Hbest].
        * injection Hb as <-. exact Hu. }
  apply G; [auto | discriminate].
Qed.

(** A close that answers with success found an open row of that id; when
    its write succeeds, the rows of that id are closed afterwards. *)
Lemma close_moves_open_to_closed exec w a out i pnl reason :
  ProcessAlert.response (ProcessAlert.closeSignal exec w a out)
  = ProcessAlert.TradeClosed200 i pnl reason ->
  exists t, In t (trades w) /\ id t = i /\ state t = "open"%string /\
    (ProcessAlert.tradeWriteOk out = true ->
     forall t', In t' (trades (ProcessAlert.world
                                 (ProcessAlert.closeSignal exec w a out))) ->
                id t' = i -> state t' = "closed"%string).
Proof.
  unfold ProcessAlert.closeSignal.
  destruct (ProcessAlert.tradesReadable out); [| discriminate].
  destruct (ProcessAlert.findOpenTrade _ _ _) as [t |] eqn:Hf; [| discriminate].
  apply findOpenTrade_open in Hf. destruct Hf as [Hin Hopen].
  assert (F : forall cr p r orders,
    ProcessAlert.response (ProcessAlert.finishClose w out t cr p r orders)
    = ProcessAlert.TradeClosed200 i pnl reason ->
    exists t0, In t0 (trades w) /\ id t0 = i /\ state t0 = "open"%string /\
      (ProcessAlert.tradeWriteOk out = true ->
       forall t', In t' (trades (ProcessAlert.world
                                   (ProcessAlert.finishClose w out t cr p r orders))) ->
                  id t' = i -> state t' = "closed"%string)).
  { intros cr p r orders H. simpl in H. injection H as Hid _ _.
    exists t. repeat split; trivial.
    intros Hw t' Hin' Hid'. simpl in Hin'. rewrite Hw, Hid in Hin'.
    apply ProcessAlertFacts.in_updateTrade in Hin'.
    destruct Hin' as [(t0 & _ & _ & E) | [_ Hne]]; [| contradiction].
    now subst t'. }
  destruct (negb (truthy (stop_loss t)) && negb (truthy (take_profit t)));
    [| apply F].
  destruct (test_mode (bot w)); [apply F |].
  destruct (exec _); [discriminate | apply F].
Qed.

(** C9.  Over any run of alerts and reconciliations, every trade row stays
    in place with its id and its state is either what it was or "closed":
    a closed trade stays closed, and a state never becomes "open" again.
    A row that a step creates is created with state "open", and a close
    that succeeds found an open row and leaves the rows of its id closed. *)
Theorem trade_state_only_moves_to_closed exec w w' :
  Pipeline.steps exec w w' ->
  Pipeline.stateMonotone (trades w) (trades w') /\
  Pipeline.createdOpen (trades w) (trades w') /\
  (forall i t, nth_error (trades w) i = Some t -> state t = "closed"%string ->
     exists t', nth_error (trades w') i = Some t' /\ id t' = id t /\
                state t' = "closed"%string) /\
  (forall w1 w2, Pipeline.step exec w1 w2 ->
     forall i t', nth_error (trades w2) i = Some t' ->
                  nth_error (trades w1) i = None -> state t' = "open"%string) /\
  (forall w0 a out i pnl reason,
     ProcessAlert.response (ProcessAlert.closeSignal exec w0 a out)
     = ProcessAlert.TradeClosed200 i pnl reason ->
     exists t, In t (trades w0) /\ id t = i /\ state t = "open"%string /\
       (ProcessAlert.tradeWriteOk out = true ->
        forall t', In t' (trades (ProcessAlert.world
                                    (ProcessAlert.closeSignal exec w0 a out))) ->
                   id t' = i -> state t' = "closed"%string)).
Proof.
  intro Hs.
  assert (Hmc : Pipeline.stateMonotone (trades w) (trades w') /\
                Pipeline.createdOpen (trades w) (trades w')).
  { induction Hs as [w | w1 w2 w3 _ [M C] Hst].
    - split; [apply stateMonotone_refl |]. intros i t' H1 H2. congruence.
    - destruct (tableStep_step exec w2 w3 Hst) as [M2 N2]. split.
      + now apply stateMonotone_trans with (trades w2).
      + apply createdOpen_trans with (trades w2); trivial.
        intros i t' H1 H2. left. now apply (N2 i). }
  destruct Hmc as [M C]. split; [exact M |]. split; [exact C |]. split.
  - intros i t H Hc. destruct (M i t H) as (t' & H' & Hid & Hst).
    exists t'. split; [exact H' |]. split; [exact Hid |].
    destruct Hst; congruence.
  - split.
    + intros w1 w2 Hst. apply (tableStep_step exec w1 w2 Hst).
    + intros w0 a out i pnl reason. apply close_moves_open_to_closed.
Qed.

Lemma trade_state_only_moves_to_closed_witness :
  let exec := Scenarios.fillsAt 50500 in
  let close := Scenarios.post (Scenarios.alertWithState (ProcessAlert.JString "close")) in
  let open := Scenarios.post (Scenarios.alertWithState ProcessAlert.JMissing) in
  let w1 := Pipeline.processAlert exec Scenarios.liveOpen close Scenarios.calm
              (Some Scenarios.exchangeSays40) in
  let w2 := Pipeline.processAlert exec w1 open Scenarios.calm None in
  Pipeline.steps exec Scenarios.liveOpen w2 /\
  Pipeline.stateMonotone (trades Scenarios.liveOpen) (trades w2) /\
  map state (trades w2) = ["closed"%string; "open"%string].
Proof.
  intros exec close open w1 w2.
  assert (Hs : Pipeline.steps exec Scenarios.liveOpen w2).
  { apply Pipeline.steps_next with w1.
    - apply Pipeline.steps_next with Scenarios.liveOpen.
      + apply Pipeline.steps_refl.
      + apply Pipeline.step_alert.
    - apply Pipeline.step_alert. }
  split; [exact Hs |]. split.
  - exact (proj1 (trade_state_only_moves_to_closed exec Scenarios.liveOpen w2 Hs)).
  - vm_compute. reflexivity.
Defined.

End PipelineFacts.

(** * Further properties *)

(** ** Position Sizer: validation, rounding, monotonicity *)

Module PositionSizingMore.
Import JS JSFacts PositionSizing PositionSizingFacts.

Lemma pow10_nonzero d : ~ pow10 d == 0.
Proof. intro A. pose proof (pow10_pos d) as H. rewrite A in H. discriminate. Qed.

(** Whatever the number, [toFixed] gives a number with at most [d]
    fractional digits. *)
Lemma toFixed_grid x d : onGrid d (toFixed x d).
Proof.
  unfold toFixed, onGrid, floor. pose proof (pow10_nonzero d) as Hp.
  destruct (ltb x 0).
  - exists (- Qfloor (- x * pow10 d + (1 # 2)))%Z.
    rewrite inject_Z_opp. field. exact Hp.
  - exists (Qfloor (x * pow10 d + (1 # 2))).
    field. exact Hp.
Qed.



(** X2.  With a positive step that has at most [decimals] fractional digits
    and a positive cap, the returned quantity times the entry price is at
    most the cap. *)
Theorem sizer_within_cap_on_step_grid p q :
  accepted p -> 0 < maxPositionSize p -> 0 < qtyStep p ->
  onGrid (decimals p) (qtyStep p) ->
  calculatePositionSize p = Return q ->
  q * entryPrice p <= maxPositionSize p.
Proof.
  intros Ha Hm Hs Hg Hq. rewrite (accepted_returns p Ha) in Hq.
  injection Hq as <-. now apply capped_within_max.
Qed.

Lemma sizer_within_cap_on_step_grid_witness :
  exists q, calculatePositionSize Scenarios.sizing_capped = Return q /\
            q * 50000 <= 10.
Proof.
  eexists. split; [vm_compute; reflexivity |].
  refine (sizer_within_cap_on_step_grid Scenarios.sizing_capped _ _ _ _ _ _).
  - unfold accepted. repeat split; try (left; split); qcalc.
  - qcalc.
  - qcalc.
  - exists 1%Z. vm_compute. reflexivity.
  - vm_compute. reflexivity.
Defined.

(** With a negative fee the divisor of the position size can vanish:
    entry 100, stop 60 and a fee of -25 give 40 + 100 * -0.4.  The code,
    in doubles, then returns [Infinity], which has no decimal digits at
    all. *)
Example zero_divisor_returns_infinity :
  PositionSizingDoubles.calculatePositionSize Variants.doubleZeroDivisor
  = PositionSizingDoubles.Return PrimFloat.infinity /\
  riskPerUnit Variants.exactZeroDivisor
  + entryPrice Variants.exactZeroDivisor
    * totalFeeRateFactor Variants.exactZeroDivisor == 0.
Proof. split; [vm_compute; reflexivity | qcalc]. Qed.

(** X3.  In exact arithmetic: on an accepted input whose fee is not
    negative the divisor of the position size is positive (as is the entry
    price, the other divisor), and with [decimals] at most 100, the range
    of [toFixed], the function returns a quantity with at most [decimals]
    fractional digits. *)
Theorem sizer_result_has_decimals_digits p :
  accepted p -> 0 <= feePercentage p -> (decimals p <= 100)%nat ->
  0 < entryPrice p /\
  0 < riskPerUnit p + entryPrice p * totalFeeRateFactor p /\
  exists q, calculatePositionSize p = Return q /\ onGrid (decimals p) q.
Proof.
  intros Ha Hf _. split; [apply Ha |].
  split; [now apply divisor_positive |].
  exists (toFixed (cappedQuantity p) (decimals p)).
  split; [now apply accepted_returns | apply toFixed_grid].
Qed.

Lemma sizer_result_has_decimals_digits_witness :
  exists q, calculatePositionSize Scenarios.sizing_no_step = Return q /\
            onGrid 8 q.
Proof.
  refine (proj2 (proj2 (sizer_result_has_decimals_digits
                          Scenarios.sizing_no_step _ _ _))).
  - unfold accepted. repeat split; try (left; split); qcalc.
  - qcalc.
  - vm_compute. lia.
Defined.

Lemma cappedQuantity_le_stepped p :
  accepted p -> cappedQuantity p <= steppedQuantity p.
Proof.
  intros (He & _). unfold cappedQuantity.
  destruct (capBinds p) eqn:Hc; [| apply Qle_refl].
  unfold capBinds in Hc. apply andb_true_iff in Hc. destruct Hc as [_ Hc].
  apply gtb_gt in Hc.
  assert (Hq : maxPositionSize p / entryPrice p <= steppedQuantity p).
  { apply Qle_shift_div_r; trivial. now apply Qlt_le_weak. }
  cbv zeta. destruct (gtb (qtyStep p) 0) eqn:E; trivial.
  apply gtb_gt in E. eapply Qle_trans; [| exact Hq].
  now apply roundDownToStep_le.
Qed.

Lemma steppedQuantity_le_clamped p : steppedQuantity p <= clampedQuantity p.
Proof.
  unfold steppedQuantity. destruct (gtb (qtyStep p) 0) eqn:E.
  - apply gtb_gt in E. now apply roundDownToStep_le.
  - apply Qle_refl.
Qed.

(** X4.  With a positive step that has at most [decimals] fractional
    digits, rounding never goes up: the returned quantity is at most the
    raw quantity lifted to the minimum, and at most the raw quantity itself
    when that is not below the minimum. *)
Theorem sizer_never_rounds_up p q :
  accepted p -> 0 < qtyStep p -> onGrid (decimals p) (qtyStep p) ->
  calculatePositionSize p = Return q ->
  q <= clampedQuantity p /\ (minQty p <= rawQuantity p -> q <= rawQuantity p).
Proof.
  intros Ha Hs Hg Hq. rewrite (accepted_returns p Ha) in Hq.
  injection Hq as <-.
  assert (H : toFixed (cappedQuantity p) (decimals p) <= clampedQuantity p).
  { rewrite toFixed_onGrid.
    - eapply Qle_trans;
        [now apply cappedQuantity_le_stepped | apply steppedQuantity_le_clamped].
    - now apply cappedQuantity_nonneg.
    - apply (multiple_onGrid _ (qtyStep p)); trivial.
      now apply cappedQuantity_multiple. }
  split; [exact H |].
  intro Hmin. unfold clampedQuantity in H.
  apply ltb_ge in Hmin. now rewrite Hmin in H.
Qed.

Lemma sizer_never_rounds_up_witness :
  exists q, calculatePositionSize Scenarios.sizing_example = Return q /\
            q <= clampedQuantity Scenarios.sizing_example.
Proof.
  eexists. split; [vm_compute; reflexivity |].
  refine (proj1 (sizer_never_rounds_up Scenarios.sizing_example _ _ _ _ _)).
  - unfold accepted. repeat split; try (left; split); qcalc.
  - qcalc.
  - exists 1%Z. vm_compute. reflexivity.
  - vm_compute. reflexivity.
Defined.

Lemma fee_terms p :
  accepted p ->
  entryPrice p * totalFeeRateFactor p
  == entryPrice p * entryFee p + stopLoss p * exitFee p.
Proof.
  intros (He & _). unfold totalFeeRateFactor. field.
  intro A. rewrite A in He. discriminate.
Qed.

(** X5.  The intermediate [positionSize] is the quantity whose logged
    actual risk (price risk plus entry and exit fees) is exactly the risk
    amount; the quantity the function goes on with, after its division by
    the entry price, has an actual risk of the risk amount divided by the
    entry price. *)
Theorem position_size_meets_risk_target p :
  accepted p -> 0 <= feePercentage p ->
  actualRisk p (positionSize p) == riskAmount p /\
  actualRisk p (rawQuantity p) == riskAmount p / entryPrice p.
Proof.
  intros Ha Hf. pose proof (divisor_positive p Ha Hf) as Hd.
  pose proof (fee_terms p Ha) as Hfee.
  destruct Ha as (He & _).
  set (D := riskPerUnit p + entryPrice p * totalFeeRateFactor p) in *.
  assert (HD : ~ D == 0) by (intro A; rewrite A in Hd; discriminate).
  assert (HE : ~ entryPrice p == 0) by (intro A; rewrite A in He; discriminate).
  assert (R : forall x, actualRisk p x == x * D).
  { intro x. unfold actualRisk, D. rewrite Hfee. ring. }
  split; rewrite R; unfold rawQuantity, positionSize; fold D; field; auto.
Qed.

Lemma position_size_meets_risk_target_witness :
  actualRisk Scenarios.sizing_example (positionSize Scenarios.sizing_example)
  == 100 /\
  actualRisk Scenarios.sizing_example (rawQuantity Scenarios.sizing_example)
  == 100 / 50000.
Proof.
  refine (position_size_meets_risk_target Scenarios.sizing_example _ _).
  - unfold accepted. repeat split; try (left; split); qcalc.
  - qcalc.
Defined.







End PositionSizingMore.

(** ** Alert handler: what it changes, what it submits *)

Module ProcessAlertMore.
Import JS JSFacts Model ProcessAlert.

(** X7.  Only the two success answers change anything: whenever the answer
    is neither "trade closed" nor "order placed", the store is as before
    and no PnL update is triggered. *)
Theorem store_changes_only_on_success exec w req out :
  (forall i p r, response (handler exec w req out) <> TradeClosed200 i p r) ->
  (forall o s t p f,
     response (handler exec w req out) <> OrderPlaced200 o s t p f) ->
  world (handler exec w req out) = w /\ pnlUpdate (handler exec w req out) = None.
Proof.
  unfold handler.
  destruct (String.eqb (method req) "OPTIONS"); [auto |].
  destruct (negb (String.eqb (method req) "POST")); [auto |].
  destruct (negb (envConfigured req)); [auto |].
  destruct (negb (webhookValid req)); [auto |].
  destruct (payload req) as [a |]; [| auto].
  destruct (negb (apiKeyFound req)).
  { destruct (fallbackKeyFound req); auto. }
  destruct (isCloseSignal a).
  - unfold closeSignal.
    destruct (if tradesReadable out then findOpenTrade _ _ _ else None) as [t |];
      [| auto].
    assert (F : forall cr p r orders,
      (forall i p0 r0,
         response (finishClose w out t cr p r orders) <> TradeClosed200 i p0 r0) ->
      False).
    { intros cr p r orders H. exact (H _ _ _ eq_refl). }
    destruct (negb (truthy (stop_loss t)) && negb (truthy (take_profit t))).
    + destruct (test_mode (bot w)).
      * intros H _. destruct (F _ _ _ _ H).
      * destruct (exec _); [auto |]. intros H _. destruct (F _ _ _ _ H).
    + intros H _. destruct (F _ _ _ _ H).
  - unfold openSignal.
    destruct (riskGate _ _); [| auto].
    destruct (instrument out); [| auto].
    assert (F : forall o r orders,
      (forall oi s t p f,
         response (recordOpen w (webhook_user_id req) out o r orders)
         <> OrderPlaced200 oi s t p f) -> False).
    { intros o r orders H. unfold recordOpen in H.
      destruct (if test_mode (bot w) then simulatedPnl o out else (None, Some 0)).
      exact (H _ _ _ _ _ eq_refl). }
    destruct (test_mode (bot w)).
    + intros _ H. destruct (F _ _ _ H).
    + destruct (exec _); [auto |]. intros _ H. destruct (F _ _ _ H).
Qed.

Lemma store_changes_only_on_success_witness :
  response (handler Variants.rejects Scenarios.liveOpen
              (Scenarios.post (Scenarios.alertWithState (JString "close")))
              Scenarios.calm)
  = CloseOrderFailed500 "rejected" /\
  world (handler Variants.rejects Scenarios.liveOpen
           (Scenarios.post (Scenarios.alertWithState (JString "close")))
           Scenarios.calm)
  = Scenarios.liveOpen.
Proof.
  split; [reflexivity |].
  refine (proj1 (store_changes_only_on_success Variants.rejects Scenarios.liveOpen
           (Scenarios.post (Scenarios.alertWithState (JString "close")))
           Scenarios.calm _ _)); intros; discriminate.
Defined.

Lemma submitted_finishClose w out t cr p r orders :
  submitted (finishClose w out t cr p r orders) = orders.
Proof. reflexivity. Qed.

Lemma submitted_recordOpen w u out o r orders :
  submitted (recordOpen w u out o r orders) = orders.
Proof.
  unfold recordOpen.
  now destruct (if test_mode (bot w) then simulatedPnl o out else (None, Some 0)).
Qed.

(** X8.  One invocation hands at most one order to the exchange, and it
    hands one over only for a POST with the environment configured, a
    valid webhook, a JSON payload and the bot's (or default) API key
    found, on a bot that is not in test mode. *)
Theorem at_most_one_order_and_only_when_valid exec w req out :
  (length (submitted (handler exec w req out)) <= 1)%nat /\
  (submitted (handler exec w req out) <> [] ->
   method req = "POST"%string /\ envConfigured req = true /\
   webhookValid req = true /\ payload req <> None /\
   apiKeyFound req = true /\ test_mode (bot w) = false).
Proof.
  unfold handler.
  destruct (String.eqb (method req) "OPTIONS") eqn:Ho;
    [simpl; split; [lia | congruence] |].
  destruct (String.eqb (method req) "POST") eqn:Hp; simpl negb; cbv iota;
    [| simpl; split; [lia | congruence]].
  apply String.eqb_eq in Hp.
  destruct (envConfigured req); simpl negb; cbv iota;
    [| simpl; split; [lia | congruence]].
  destruct (webhookValid req); simpl negb; cbv iota;
    [| simpl; split; [lia | congruence]].
  destruct (payload req) as [a |]; [| simpl; split; [lia | congruence]].
  destruct (apiKeyFound req); simpl negb; cbv iota;
    [| destruct (fallbackKeyFound req); simpl; split; lia || congruence].
  assert (K : forall o : Outcome,
    (length (submitted o) <= 1)%nat /\
    (submitted o <> [] -> test_mode (bot w) = false) ->
    (length (submitted o) <= 1)%nat /\
    (submitted o <> [] ->
     method req = "POST"%string /\ true = true /\ true = true /\
     Some a <> None /\ true = true /\ test_mode (bot w) = false)).
  { intros o [H1 H2]. split; [exact H1 |]. intro H.
    repeat split; trivial; [discriminate | now apply H2]. }
  apply K. clear K.
  destruct (isCloseSignal a).
  - unfold closeSignal.
    destruct (if tradesReadable out then findOpenTrade _ _ _ else None) as [t |];
      [| simpl; split; [lia | congruence]].
    destruct (negb (truthy (stop_loss t)) && negb (truthy (take_profit t)));
      [| rewrite submitted_finishClose; simpl; split; [lia | congruence]].
    destruct (test_mode (bot w)) eqn:Hm;
      [rewrite submitted_finishClose; simpl; split; [lia | congruence] |].
    destruct (exec _); [| rewrite submitted_finishClose]; simpl; split; auto.
  - unfold openSignal.
    destruct (riskGate _ _); [| simpl; split; [lia | congruence]].
    destruct (instrument out); [| simpl; split; [lia | congruence]].
    destruct (test_mode (bot w)) eqn:Hm;
      [rewrite submitted_recordOpen; simpl; split; [lia | congruence] |].
    destruct (exec _); [| rewrite submitted_recordOpen]; simpl; split; auto.
Qed.

(** *** The open-trade lookup *)

Lemma isOpenTradeOf_iff botId sym t :
  isOpenTradeOf botId sym t = true <-> Variants.openFor botId sym t.
Proof.
  unfold isOpenTradeOf, Variants.openFor.
  rewrite !andb_true_iff, Nat.eqb_eq, !String.eqb_eq. tauto.
Qed.

Lemma findOpenTrade_snoc botId sym ts u :
  findOpenTrade botId sym (ts ++ [u])
  = if isOpenTradeOf botId sym u
    then later (findOpenTrade botId sym ts) u
    else findOpenTrade botId sym ts.
Proof. unfold findOpenTrade. now rewrite fold_left_app. Qed.

(** What the lookup returns passes the lookup's filter. *)
Lemma findOpenTrade_matches botId sym ts t :
  findOpenTrade botId sym ts = Some t ->
  In t ts /\ Variants.openFor botId sym t.
Proof.
  revert t. induction ts as [| u ts IH] using rev_ind; intros t H;
    [discriminate H |].
  rewrite findOpenTrade_snoc in H.
  destruct (isOpenTradeOf botId sym u) eqn:E.
  - apply isOpenTradeOf_iff in E. unfold later in H.
    destruct (findOpenTrade botId sym ts) as [b |].
    + destruct (Z.ltb (created_at b) (created_at u)); injection H as <-.
      * split; [apply in_or_app; right; now left | exact E].
      * destruct (IH b eq_refl). split; [apply in_or_app; now left | trivial].
    + injection H as <-. split; [apply in_or_app; right; now left | exact E].
  - destruct (IH t H). split; [apply in_or_app; now left | trivial].
Qed.

(** X9.  The close lookup returns a row of the table that is an open trade
    of the bot and symbol and whose [created_at] no other such row
    exceeds; it returns nothing exactly when the table has no open trade
    of the bot and symbol. *)
Theorem findOpenTrade_latest botId sym ts :
  (forall t, findOpenTrade botId sym ts = Some t ->
     In t ts /\ Variants.openFor botId sym t /\
     forall u, In u ts -> Variants.openFor botId sym u ->
               (created_at u <= created_at t)%Z) /\
  (findOpenTrade botId sym ts = None <->
   forall u, In u ts -> ~ Variants.openFor botId sym u).
Proof.
  induction ts as [| u ts [IHs IHn]] using rev_ind.
  - split.
    + intros t H. discriminate H.
    + split; [intros _ u [] | reflexivity].
  - rewrite findOpenTrade_snoc.
    destruct (isOpenTradeOf botId sym u) eqn:E.
    + apply isOpenTradeOf_iff in E. split.
      * intros t H. unfold later in H.
        destruct (findOpenTrade botId sym ts) as [b |] eqn:Hb.
        -- destruct (IHs b eq_refl) as (Hin & Hopen & Hmax).
           destruct (Z.ltb (created_at b) (created_at u)) eqn:Hlt;
             injection H as <-.
           ++ apply Z.ltb_lt in Hlt. split; [apply in_or_app; right; now left |].
              split; [exact E |]. intros v Hv Hov.
              apply in_app_or in Hv. destruct Hv as [Hv | [<- | []]].
              ** specialize (Hmax v Hv Hov). lia.
              ** lia.
           ++ apply Z.ltb_ge in Hlt. split; [apply in_or_app; now left |].
              split; [exact Hopen |]. intros v Hv Hov.
              apply in_app_or in Hv. destruct Hv as [Hv | [<- | []]].
              ** now apply Hmax.
              ** exact Hlt.
        -- injection H as <-. split; [apply in_or_app; right; now left |].
           split; [exact E |]. intros v Hv Hov.
           apply in_app_or in Hv. destruct Hv as [Hv | [<- | []]].
           ++ exfalso. exact (proj1 IHn eq_refl v Hv Hov).
           ++ lia.
      * split.
        -- intro H. unfold later in H.
           destruct (findOpenTrade botId sym ts) as [b |];
             [destruct (Z.ltb _ _) |]; discriminate.
        -- intro H. exfalso. apply (H u); [apply in_or_app; right; now left |].
           exact E.
    + assert (Hu : ~ Variants.openFor botId sym u).
      { intro A. apply isOpenTradeOf_iff in A. congruence. }
      split.
      * intros t H. destruct (IHs t H) as (Hin & Hopen & Hmax).
        split; [apply in_or_app; now left |]. split; [exact Hopen |].
        intros v Hv Hov. apply in_app_or in Hv.
        destruct Hv as [Hv | [<- | []]]; [now apply Hmax | contradiction].
      * rewrite IHn. split.
        -- intros H v Hv. apply in_app_or in Hv.
           destruct Hv as [Hv | [<- | []]]; [now apply H | exact Hu].
        -- intros H v Hv. apply H. apply in_or_app. now left.
Qed.

(** *** Risk gate *)

(** X10.  The daily-loss check fails open: when today's trades cannot be
    read, or the bot has no daily loss limit or one that is not positive,
    an open signal is never answered with the daily-loss denial. *)
Theorem daily_loss_gate_fails_open exec w userId a out :
  tradesReadable out = false \/ daily_loss_limit (bot w) = None \/
  (exists l, daily_loss_limit (bot w) = Some l /\ l <= 0) ->
  forall loss l,
    response (openSignal exec w userId a out) <> DailyLossLimitExceeded403 loss l.
Proof.
  intro H. apply ProcessAlertFacts.allowed_never_denied.
  unfold riskGate.
  destruct (truthy (daily_loss_limit (bot w)) || truthy (max_position_size (bot w)));
    trivial.
  destruct H as [H | [H | (l & H & Hl)]].
  - unfold todayTrades. rewrite H.
    destruct (daily_loss_limit (bot w)); trivial. now destruct (gtb q 0).
  - now rewrite H.
  - rewrite H. apply gtb_le in Hl. now rewrite Hl.
Qed.

Lemma daily_loss_gate_fails_open_witness :
  exists o s p f,
    response (openSignal (Scenarios.fillsAt 50000) Scenarios.losingDay 7
                (Scenarios.alertWithState JMissing)
                (mkOutside Scenarios.noon (1 # 2) false true true
                           (Some Scenarios.btcRule) (Some 50000)))
    = OrderPlaced200 o s false p f /\
    forall loss l,
      response (openSignal (Scenarios.fillsAt 50000) Scenarios.losingDay 7
                  (Scenarios.alertWithState JMissing)
                  (mkOutside Scenarios.noon (1 # 2) false true true
                             (Some Scenarios.btcRule) (Some 50000)))
      <> DailyLossLimitExceeded403 loss l.
Proof.
  do 4 eexists. split; [vm_compute; reflexivity |].
  apply daily_loss_gate_fails_open. left. reflexivity.
Defined.

(** *** Order quantity *)

(** X11.  When the bot has a positive position cap and the alert a
    positive price, and the instrument's step is positive with at most
    [decimals] fractional digits, the order quantity times the alert price
    is at most the cap. *)
Theorem order_quantity_within_max_position a b i out m p :
  max_position_size b = Some m -> 0 < m ->
  a_price a = Some p -> 0 < p ->
  0 < ins_step i -> onGrid (ins_decimals i) (ins_step i) ->
  adjustedQty a b i out * p <= m.
Proof.
  intros Hm Hmpos Hp Hppos Hs Hg. unfold adjustedQty. rewrite Hm, Hp.
  assert (Hest : orNum (Some p) 0 = p).
  { simpl. destruct (Qeq_bool p 0) eqn:E; trivial.
    apply Qeq_bool_iff in E. rewrite E in Hppos. discriminate. }
  rewrite Hest. cbv zeta.
  apply gtb_gt in Hmpos, Hppos. rewrite Hmpos, Hppos. simpl andb.
  apply gtb_gt in Hmpos, Hppos.
  match goal with
  | |- context [gtb (?q * p) m] => destruct (gtb (q * p) m) eqn:E
  end.
  - change (floor (m / p / ins_step i) * ins_step i)
      with (PositionSizing.roundDownToStep (m / p) (ins_step i)).
    assert (Hq : 0 <= m / p).
    { apply Qle_shift_div_l; trivial. rewrite Qmult_0_l. now apply Qlt_le_weak. }
    rewrite toFixed_onGrid.
    + apply Qle_trans with (m / p * p).
      * apply Qmult_le_compat_r; [| now apply Qlt_le_weak].
        now apply PositionSizingFacts.roundDownToStep_le.
      * apply Qle_lteq. right. field. intro A. rewrite A in Hppos. discriminate.
    + now apply PositionSizingFacts.roundDownToStep_nonneg.
    + apply (PositionSizingFacts.multiple_onGrid _ (ins_step i)); trivial.
      apply PositionSizingFacts.roundDownToStep_multiple.
  - now apply gtb_le in E.
Qed.

Lemma order_quantity_within_max_position_witness :
  adjustedQty Variants.bigAlert Variants.cappedBot Scenarios.btcRule Scenarios.calm
  * 50000 <= 1000 /\
  adjustedQty Variants.bigAlert Variants.cappedBot Scenarios.btcRule Scenarios.calm
  == 0.02.
Proof.
  split; [| vm_compute; reflexivity].
  refine (order_quantity_within_max_position Variants.bigAlert Variants.cappedBot
            Scenarios.btcRule Scenarios.calm 1000 50000
            eq_refl eq_refl eq_refl eq_refl eq_refl _).
  exists 1%Z. vm_compute. reflexivity.
Defined.

(** X12.  In exact arithmetic, for an instrument with a positive step and
    at most 100 decimals and a bot whose fees are not negative (no divisor
    of the quantity computation is then zero): every order the open path
    hands to the exchange has a quantity with at most the instrument's
    [decimals] fractional digits; and when the bot has no cap or the alert
    no price, that quantity is at least the instrument's minimum, provided
    the minimum is not negative and has at most [decimals] fractional
    digits. *)
Theorem open_order_quantity_has_decimals_digits exec w userId a out i order :
  instrument out = Some i ->
  0 < ins_step i -> (ins_decimals i <= 100)%nat ->
  0 <= opt0 (market_fee_percentage (bot w)) ->
  0 <= opt0 (limit_fee_percentage (bot w)) ->
  In order (submitted (openSignal exec w userId a out)) ->
  onGrid (ins_decimals i) (op_quantity order) /\
  (max_position_size (bot w) = None \/ a_price a = None ->
   0 <= ins_minQty i -> onGrid (ins_decimals i) (ins_minQty i) ->
   ins_minQty i <= op_quantity order).
Proof.
  intros Hi _ _ _ _ Hin. unfold openSignal in Hin. rewrite Hi in Hin.
  assert (G : onGrid (ins_decimals i) (adjustedQty a (bot w) i out) /\
              (max_position_size (bot w) = None \/ a_price a = None ->
               0 <= ins_minQty i -> onGrid (ins_decimals i) (ins_minQty i) ->
               ins_minQty i <= adjustedQty a (bot w) i out)).
  { split.
    - unfold adjustedQty. cbv zeta.
      destruct (max_position_size (bot w));
        [destruct (_ && _) |]; apply PositionSizingMore.toFixed_grid.
    - intros Hc Hmin Hg.
      assert (Q2 : ins_minQty i
                   <= toFixed (if ltb (sizedQty a (bot w) i out) (ins_minQty i)
                               then ins_minQty i else sizedQty a (bot w) i out)
                              (ins_decimals i)).
      { apply toFixed_ge_grid; trivial.
        destruct (ltb (sizedQty a (bot w) i out) (ins_minQty i)) eqn:E.
        - apply Qle_refl.
        - now apply ltb_ge in E. }
      unfold adjustedQty. cbv zeta.
      destruct Hc as [Hc | Hc]; rewrite Hc; [exact Q2 |].
      destruct (max_position_size (bot w)); [| exact Q2].
      simpl orNum. assert (E : gtb 0 0 = false) by reflexivity.
      rewrite E, andb_false_r. exact Q2. }
  destruct (riskGate _ _); [| destruct Hin].
  destruct (test_mode (bot w)).
  - rewrite submitted_recordOpen in Hin. destruct Hin.
  - destruct (exec _) eqn:E.
    + destruct Hin as [<- | []]. exact G.
    + rewrite submitted_recordOpen in Hin. destruct Hin as [<- | []]. exact G.
Qed.

Lemma open_order_quantity_has_decimals_digits_witness :
  exists order,
    submitted (openSignal (Scenarios.fillsAt 50000) Scenarios.liveEmpty 7
                 (Scenarios.alertWithState JMissing) Scenarios.calm) = [order] /\
    onGrid 3 (op_quantity order) /\ 0.001 <= op_quantity order.
Proof.
  eexists. split; [vm_compute; reflexivity |].
  destruct (open_order_quantity_has_decimals_digits (Scenarios.fillsAt 50000)
              Scenarios.liveEmpty 7 (Scenarios.alertWithState JMissing)
              Scenarios.calm Scenarios.btcRule
              (openOrderParams (Scenarios.alertWithState JMissing)
                 Scenarios.liveBot "BTCUSDT"
                 (adjustedQty (Scenarios.alertWithState JMissing)
                    Scenarios.liveBot Scenarios.btcRule Scenarios.calm)))
    as [Hg Hmin].
  - reflexivity.
  - vm_compute. reflexivity.
  - vm_compute. lia.
  - vm_compute. discriminate.
  - vm_compute. discriminate.
  - vm_compute. left. reflexivity.
  - split; [exact Hg |]. apply Hmin.
    + left. reflexivity.
    + vm_compute. discriminate.
    + exists 1%Z. vm_compute. reflexivity.
Defined.

(** *** What a close credits and what an open records *)

Lemma orNum_value q : orNum (Some q) 0 == q.
Proof.
  simpl. destruct (Qeq_bool q 0) eqn:E; [| reflexivity].
  apply Qeq_bool_iff in E. now symmetry.
Qed.

(** X13.  A close credits the bot with exactly the PnL it answers with:
    when the write to the bot succeeds, the bot's profit/loss (null as 0)
    afterwards is its value before plus the answered PnL (null as 0), and
    its trade count is untouched; when the write fails the bot is as
    before. *)
Theorem close_credits_answered_pnl exec w a out i pnl reason :
  response (closeSignal exec w a out) = TradeClosed200 i pnl reason ->
  (botWriteOk out = true ->
   orNum (profit_loss (bot (world (closeSignal exec w a out)))) 0
   == orNum (profit_loss (bot w)) 0 + orNum pnl 0) /\
  (botWriteOk out = false -> bot (world (closeSignal exec w a out)) = bot w) /\
  trade_count (bot (world (closeSignal exec w a out))) = trade_count (bot w).
Proof.
  unfold closeSignal.
  destruct (if tradesReadable out then findOpenTrade _ _ _ else None) as [t |];
    [| discriminate].
  assert (F : forall cr p r orders,
    response (finishClose w out t cr p r orders) = TradeClosed200 i pnl reason ->
    (botWriteOk out = true ->
     orNum (profit_loss (bot (world (finishClose w out t cr p r orders)))) 0
     == orNum (profit_loss (bot w)) 0 + orNum pnl 0) /\
    (botWriteOk out = false ->
     bot (world (finishClose w out t cr p r orders)) = bot w) /\
    trade_count (bot (world (finishClose w out t cr p r orders)))
    = trade_count (bot w)).
  { intros cr p r orders H. simpl in H. injection H as _ -> _. simpl.
    destruct pnl as [v |]; simpl.
    - destruct (Qeq_bool v 0) eqn:Ev; simpl.
      + repeat split; trivial. intros _. ring.
      + destruct (botWriteOk out); simpl; repeat split; trivial;
          try discriminate.
        intros _. apply (orNum_value (orNum (profit_loss (bot w)) 0 + v)).
    - repeat split; trivial. intros _. ring. }
  destruct (negb (truthy (stop_loss t)) && negb (truthy (take_profit t)));
    [| apply F].
  destruct (test_mode (bot w)); [apply F |].
  destruct (exec _); [discriminate | apply F].
Qed.

Lemma close_credits_answered_pnl_witness :
  exists pnl,
    response (closeSignal (Scenarios.fillsAt 50500) Scenarios.liveOpen
                (Scenarios.alertWithState (JString "close")) Scenarios.calm)
    = TradeClosed200 3 (Some pnl) "signal" /\
    orNum (profit_loss (bot (world
             (closeSignal (Scenarios.fillsAt 50500) Scenarios.liveOpen
                (Scenarios.alertWithState (JString "close")) Scenarios.calm)))) 0
    == orNum (Some 0) 0 + orNum (Some pnl) 0.
Proof.
  eexists. split; [vm_compute; reflexivity |].
  refine (proj1 (close_credits_answered_pnl (Scenarios.fillsAt 50500)
            Scenarios.liveOpen (Scenarios.alertWithState (JString "close"))
            Scenarios.calm 3 _ "signal" _) eq_refl).
  vm_compute. reflexivity.
Defined.

(** X14.  An order placed on a bot that is not in test mode is answered
    without PnL and with fees 0; when the write to the trades succeeds the
    table gains exactly one row at its end, open, without realized PnL,
    for this bot and user and with the order id of the answer; when the
    write to the bot succeeds the trade count goes up by one (to 1 from
    null or 0) and the profit/loss keeps its value (null as 0). *)
Theorem live_open_records_open_trade exec w userId a out o s p f :
  response (openSignal exec w userId a out) = OrderPlaced200 o s false p f ->
  p = None /\ f = Some 0 /\
  (tradeWriteOk out = true ->
   exists t, trades (world (openSignal exec w userId a out)) = trades w ++ [t] /\
             state t = "open"%string /\ realized_pnl t = None /\
             order_id t = o /\ trade_bot_id t = bot_id (bot w) /\
             user_id t = userId /\ created_at t = now out) /\
  (tradeWriteOk out = false ->
   trades (world (openSignal exec w userId a out)) = trades w) /\
  (botWriteOk out = true ->
   (trade_count (bot w) = None ->
    trade_count (bot (world (openSignal exec w userId a out))) = Some 1%Z) /\
   (forall n, trade_count (bot w) = Some n ->
      trade_count (bot (world (openSignal exec w userId a out)))
      = Some (n + 1)%Z) /\
   orNum (profit_loss (bot (world (openSignal exec w userId a out)))) 0
   == orNum (profit_loss (bot w)) 0) /\
  (botWriteOk out = false ->
   bot (world (openSignal exec w userId a out)) = bot w).
Proof.
  unfold openSignal.
  destruct (riskGate _ _); [| discriminate].
  destruct (instrument out) as [i |]; [| discriminate].
  destruct (test_mode (bot w)) eqn:Hm.
  - unfold recordOpen. rewrite Hm. destruct (simulatedPnl _ out). discriminate.
  - destruct (exec _) as [msg | r]; [discriminate |].
    unfold recordOpen. rewrite Hm. simpl. intro H.
    injection H as <- _ <- <-.
    split; [reflexivity |]. split; [reflexivity |]. split; [| split; [| split]].
    + intros Hw. rewrite Hw. eexists. split; [reflexivity |].
      repeat split.
    + intros Hw. now rewrite Hw.
    + intros Hb. rewrite Hb. simpl. unfold nextTradeCount.
      split; [intros ->; reflexivity |].
      split; [intros n ->; now destruct (Z.eqb_spec n 0) as [-> |] |].
      destruct (profit_loss (bot w)) as [v |]; simpl.
      * destruct (Qeq_bool v 0) eqn:Ev.
        -- reflexivity.
        -- assert (E : Qeq_bool (v + 0) 0 = false).
           { destruct (Qeq_bool (v + 0) 0) eqn:E2; trivial.
             apply Qeq_bool_iff in E2. rewrite Qplus_0_r in E2.
             apply Qeq_bool_iff in E2. congruence. }
           rewrite E. ring.
      * reflexivity.
    + intros Hb. rewrite Hb. reflexivity.
Qed.

Lemma live_open_records_open_trade_witness :
  exists o s t,
    response (openSignal (Scenarios.fillsAt 50000) Scenarios.liveEmpty 7
                (Scenarios.alertWithState JMissing) Scenarios.calm)
    = OrderPlaced200 o s false None (Some 0) /\
    trades (world (openSignal (Scenarios.fillsAt 50000) Scenarios.liveEmpty 7
                     (Scenarios.alertWithState JMissing) Scenarios.calm))
    = [] ++ [t] /\ state t = "open"%string /\ order_id t = o /\
    trade_count (bot (world (openSignal (Scenarios.fillsAt 50000)
                               Scenarios.liveEmpty 7
                               (Scenarios.alertWithState JMissing)
                               Scenarios.calm)))
    = Some (2 + 1)%Z.
Proof.
  destruct (live_open_records_open_trade (Scenarios.fillsAt 50000)
              Scenarios.liveEmpty 7 (Scenarios.alertWithState JMissing)
              Scenarios.calm "ex-9" "Filled" None (Some 0))
    as (_ & _ & Hw & _ & Hb & _).
  - vm_compute. reflexivity.
  - destruct (Hw eq_refl) as (t & Ht & Hs & _ & Ho & _).
    destruct (Hb eq_refl) as (_ & Hn & _).
    exists "ex-9"%string, "Filled"%string, t.
    split; [vm_compute; reflexivity |].
    split; [exact Ht |]. split; [exact Hs |]. split; [exact Ho |].
    apply Hn. reflexivity.
Defined.

Lemma finishClose_records w out t cr p reason orders :
  tradeWriteOk out = true -> In t (trades w) ->
  (exists t', In t' (trades (world (finishClose w out t cr p reason orders))) /\
              id t' = id t) /\
  (forall t', In t' (trades (world (finishClose w out t cr p reason orders))) ->
     id t' = id t ->
     realized_pnl t' = p /\ state t' = "closed"%string /\
     close_reason t' = Some reason /\ exit_price t' = option_map or_price cr).
Proof.
  intros Hw Hin. unfold finishClose. cbv zeta. rewrite Hw. simpl. split.
  - exists (closeFields reason p cr t). split; [| reflexivity].
    unfold updateTrade. apply in_map_iff. exists t.
    now rewrite Nat.eqb_refl.
  - intros t' Hin' Hid.
    destruct (ProcessAlertFacts.in_updateTrade _ _ _ _ Hin')
      as [(t0 & _ & _ & ->) | [_ Hne]]; [| contradiction].
    simpl. repeat split.
Qed.

(** X15.  For a trade without stop-loss and take-profit.  On a bot that is
    not in test mode, a realized PnL carried by the close alert (not 0) is
    what the close answers, whatever the fill of the close order, and what
    it records: when the write to the trades succeeds, the row of the
    trade is there afterwards and every row with its id carries that PnL,
    the state closed, the reason "signal" and the fill price as exit
    price.  On a bot in test mode the alert's value is ignored: the
    simulated estimate is answered and recorded. *)
Theorem alert_pnl_overrides_estimate_when_live exec w a out t v :
  tradesReadable out = true ->
  findOpenTrade (bot_id (bot w)) (symbolOf a (bot w)) (trades w) = Some t ->
  truthy (stop_loss t) = false -> truthy (take_profit t) = false ->
  a_realized_pnl a = Some v -> ~ v == 0 ->
  (forall r, test_mode (bot w) = false ->
     exec (closeOrderParams (symbolOf a (bot w)) t (bot w)) = inr r ->
     response (closeSignal exec w a out) = TradeClosed200 (id t) (Some v) "signal" /\
     (tradeWriteOk out = true ->
      (exists t', In t' (trades (world (closeSignal exec w a out))) /\
                  id t' = id t) /\
      (forall t', In t' (trades (world (closeSignal exec w a out))) ->
         id t' = id t ->
         realized_pnl t' = Some v /\ state t' = "closed"%string /\
         close_reason t' = Some "signal"%string /\
         exit_price t' = Some (or_price r))) /\
     (tradeWriteOk out = false ->
      trades (world (closeSignal exec w a out)) = trades w)) /\
  (test_mode (bot w) = true ->
   let estimate :=
     estimatePnl t
       (simulatedClose a t (closeOrderParams (symbolOf a (bot w)) t (bot w)) out) in
   response (closeSignal exec w a out)
   = TradeClosed200 (id t) (Some estimate) "signal" /\
   (tradeWriteOk out = true ->
    forall t', In t' (trades (world (closeSignal exec w a out))) ->
      id t' = id t ->
      realized_pnl t' = Some estimate /\ state t' = "closed"%string)).
Proof.
  intros Hr Hf Hs Ht Ha Hv.
  destruct (findOpenTrade_matches _ _ _ _ Hf) as [Hin _].
  unfold closeSignal.
  rewrite Hr, Hf, Hs, Ht, Ha. simpl andb. cbv iota.
  assert (T : truthy (orNull (Some v)) = true /\ orNull (Some v) = Some v).
  { unfold orNull. simpl. destruct (Qeq_bool v 0) eqn:E.
    - apply Qeq_bool_iff in E. contradiction.
    - simpl. rewrite E. auto. }
  destruct T as [T1 T2]. split.
  - intros r Hm He. cbv zeta. rewrite Hm, He, T1, T2.
    split; [reflexivity |]. split.
    + intro Hw. exact (finishClose_records w out t (Some r) (Some v) "signal"
                         _ Hw Hin).
    + intro Hw. unfold finishClose. cbv zeta. now rewrite Hw.
  - intros Hm. cbv zeta. rewrite Hm. split; [reflexivity |].
    intros Hw t' Hin' Hid.
    destruct (proj2 (finishClose_records w out t _ _ "signal" _ Hw Hin)
                    t' Hin' Hid) as (H1 & H2 & _).
    split; assumption.
Qed.

Lemma alert_pnl_overrides_estimate_when_live_witness :
  response (closeSignal (Scenarios.fillsAt 50500) Scenarios.liveOpen
              Variants.closeWithPnl Scenarios.calm)
  = TradeClosed200 3 (Some 12.5) "signal" /\
  map realized_pnl
      (trades (world (closeSignal (Scenarios.fillsAt 50500) Scenarios.liveOpen
                        Variants.closeWithPnl Scenarios.calm)))
  = [Some 12.5].
Proof.
  split; [| reflexivity].
  refine (proj1 (proj1 (alert_pnl_overrides_estimate_when_live
            (Scenarios.fillsAt 50500)
            Scenarios.liveOpen Variants.closeWithPnl Scenarios.calm
            Scenarios.openBuy 12.5 eq_refl eq_refl eq_refl eq_refl eq_refl _)
            (mkOrderResult "ex-9" "BTCUSDT" "Sell" "Market" 0.1 50500 "Filled")
            eq_refl eq_refl)).
  intro A. discriminate A.
Defined.

End ProcessAlertMore.

(** ** Test mode: the simulated PnL *)

Module SimulationFacts.
Import JS Model ProcessAlert.

(** X16.  The PnL simulated for a test order on a non-negative notional
    stays within 2% of the notional either way, less the simulated fee of
    0.1% of it: between -2.1% and +1.9% of price times quantity. *)
Theorem simulated_pnl_within_two_percent o out pr :
  op_price o = Some pr -> 0 <= pr * op_quantity o ->
  0 <= random out -> random out < 1 ->
  exists pnl fees,
    simulatedPnl o out = (Some pnl, Some fees) /\
    fees == pr * op_quantity o * 0.001 /\
    - (0.021) * (pr * op_quantity o) <= pnl /\
    pnl <= 0.019 * (pr * op_quantity o).
Proof.
  intros Hp Hb H0 H1. unfold simulatedPnl. rewrite Hp.
  set (base := pr * op_quantity o) in *.
  set (rnd := random out) in *.
  assert (Hlo : 0 <= base * rnd) by now apply Qmult_le_0_compat.
  assert (Hhi : base * rnd <= base).
  { setoid_replace base with (base * 1) at 2 by ring.
    rewrite (Qmult_comm base rnd), (Qmult_comm base 1).
    apply Qmult_le_compat_r; trivial. now apply Qlt_le_weak. }
  destruct (String.eqb (op_side o) "Buy");
    eexists; eexists; (split; [reflexivity |]); (split; [reflexivity |]);
    split.
  - setoid_replace (base * ((rnd * 4 - 2) / 100) - base * 0.001)
      with ((4 # 100) * (base * rnd) - (21 # 1000) * base) by field.
    lra.
  - setoid_replace (base * ((rnd * 4 - 2) / 100) - base * 0.001)
      with ((4 # 100) * (base * rnd) - (21 # 1000) * base) by field.
    lra.
  - setoid_replace (base * (- (rnd * 4 - 2) / 100) - base * 0.001)
      with ((19 # 1000) * base - (4 # 100) * (base * rnd)) by field.
    lra.
  - setoid_replace (base * (- (rnd * 4 - 2) / 100) - base * 0.001)
      with ((19 # 1000) * base - (4 # 100) * (base * rnd)) by field.
    lra.
Qed.

Lemma simulated_pnl_within_two_percent_witness :
  exists pnl fees,
    simulatedPnl (mkOrderParams "BTCUSDT" "Buy" "Market" 0.01 (Some 50000)
                                None None true) Scenarios.calm
    = (Some pnl, Some fees) /\
    - (0.021) * (50000 * 0.01) <= pnl /\ pnl <= 0.019 * (50000 * 0.01).
Proof.
  destruct (simulated_pnl_within_two_percent
              (mkOrderParams "BTCUSDT" "Buy" "Market" 0.01 (Some 50000)
                             None None true) Scenarios.calm 50000 eq_refl)
    as (pnl & fees & E & _ & Hlo & Hhi).
  - vm_compute. discriminate.
  - vm_compute. discriminate.
  - vm_compute. reflexivity.
  - exists pnl, fees. auto.
Defined.

End SimulationFacts.

(** ** Reconciliation handler: what it touches *)

Module UpdateTradePnlMore.
Import JS Model UpdateTradePnl.

(** X17.  Reconciliation changes the store only when it answers with an
    update: with any other answer trades and bot are as before. *)
Theorem reconcile_changes_store_only_on_update w req out :
  (forall i p e x, response (handler w req out) <> Updated200 i p e x) ->
  world (handler w req out) = w.
Proof.
  unfold handler.
  repeat match goal with
         | |- context [if ?c then _ else _] => destruct c; try reflexivity
         | |- context [match ?c with _ => _ end] => destruct c; try reflexivity
         end.
  simpl. intro H. exfalso. exact (H _ _ _ _ eq_refl).
Qed.

Lemma reconcile_changes_store_only_on_update_witness :
  response (handler Scenarios.liveOpen (Scenarios.reconcileOf 3)
              (mkOutside true (PnlList [mkClosedPnl "ord-0" 12 48000 48100])
                         true true))
  = NoMatchingClosedPnl200 3 /\
  world (handler Scenarios.liveOpen (Scenarios.reconcileOf 3)
           (mkOutside true (PnlList [mkClosedPnl "ord-0" 12 48000 48100])
                      true true))
  = Scenarios.liveOpen.
Proof.
  split; [reflexivity |].
  apply reconcile_changes_store_only_on_update. intros; discriminate.
Defined.

(** X18.  Of the columns of this model ([details] and [updated_at], which
    the update also writes, are not among them), an answered update
    writes the realized PnL and the two average prices of the rows with
    the trade's id, to the figures of the answer, and nothing else of the
    trades: every row stays in place, a row of another id is untouched,
    and a row of the trade's id keeps its id, user, bot, symbol, side,
    order type, quantity, price, order id, status, fees, state, stop-loss,
    take-profit, close reason, exit price and creation time.  Of the bot
    it changes at most [profit_loss]. *)
Theorem reconcile_update_keeps_other_columns w req out i p e x :
  response (handler w req out) = Updated200 i p e x ->
  length (trades (world (handler w req out))) = length (trades w) /\
  (forall n t, nth_error (trades w) n = Some t ->
     exists t', nth_error (trades (world (handler w req out))) n = Some t' /\
       (id t <> i -> t' = t) /\
       (id t = i ->
        realized_pnl t' = Some p /\ avg_entry_price t' = Some e /\
        avg_exit_price t' = Some x) /\
       id t' = id t /\ user_id t' = user_id t /\
       trade_bot_id t' = trade_bot_id t /\ symbol t' = symbol t /\
       side t' = side t /\ order_type t' = order_type t /\
       quantity t' = quantity t /\ price t' = price t /\
       order_id t' = order_id t /\ status t' = status t /\
       fees t' = fees t /\ state t' = state t /\
       stop_loss t' = stop_loss t /\ take_profit t' = take_profit t /\
       close_reason t' = close_reason t /\ exit_price t' = exit_price t /\
       created_at t' = created_at t) /\
  (let b := bot w in
   let b' := bot (world (handler w req out)) in
   bot_id b' = bot_id b /\ bot_symbol b' = bot_symbol b /\
   default_side b' = default_side b /\
   default_order_type b' = default_order_type b /\
   default_quantity b' = default_quantity b /\
   default_stop_loss b' = default_stop_loss b /\
   default_take_profit b' = default_take_profit b /\
   risk_per_trade b' = risk_per_trade b /\
   market_fee_percentage b' = market_fee_percentage b /\
   limit_fee_percentage b' = limit_fee_percentage b /\
   daily_loss_limit b' = daily_loss_limit b /\
   max_position_size b' = max_position_size b /\
   position_sizing_enabled b' = position_sizing_enabled b /\
   test_mode b' = test_mode b /\ trade_count b' = trade_count b).
Proof.
  intro Hu.
  destruct (UpdateTradePnlFacts.updated_only_on_update_path _ _ _ _ _ _ _ Hu)
    as (t0 & records & m & _ & _ & _ & _ & _ & _ & Hp & He & Hx & Hw).
  rewrite Hw. unfold updatedWorld. simpl. split; [| split].
  - unfold updateTrade. apply length_map.
  - intros n t Hn. unfold updateTrade. rewrite nth_error_map, Hn. simpl.
    destruct (Nat.eqb (id t) i) eqn:E.
    + apply Nat.eqb_eq in E. exists (pnlFields m t).
      split; [reflexivity |]. split; [congruence |]. simpl.
      split; [intros _; now rewrite <- Hp, <- He, <- Hx |]. repeat split.
    + apply Nat.eqb_neq in E. exists t. split; [reflexivity |].
      split; [reflexivity |]. split; [contradiction |]. repeat split.
  - destruct (botWriteOk out); repeat split.
Qed.

Lemma reconcile_update_keeps_other_columns_witness :
  length (trades (world (handler Scenarios.liveOpen (Scenarios.reconcileOf 3)
                           Scenarios.exchangeSays40))) = 1%nat /\
  map state (trades (world (handler Scenarios.liveOpen (Scenarios.reconcileOf 3)
                              Scenarios.exchangeSays40))) = ["open"%string].
Proof.
  split; [| reflexivity].
  exact (proj1 (reconcile_update_keeps_other_columns Scenarios.liveOpen
                  (Scenarios.reconcileOf 3) Scenarios.exchangeSays40
                  3 40 50010 50420 eq_refl)).
Defined.

(** X19.  The closed-PnL endpoint is called only for a POST that names a
    trade of the bot whose realized PnL is null, on a bot that is not in
    test mode, with the API key found. *)
Theorem exchange_queried_only_for_live_unsettled_trade w req out :
  queried (handler w req out) = true ->
  method req = "POST"%string /\ apiKeyFound out = true /\
  test_mode (bot w) = false /\
  exists i t, tradeId req = Some i /\ findTrade i (trades w) = Some t /\
              realized_pnl t = None /\ trade_bot_id t = bot_id (bot w).
Proof.
  unfold handler.
  destruct (String.eqb (method req) "OPTIONS"); [discriminate |].
  destruct (String.eqb (method req) "POST") eqn:Hp; [| discriminate].
  apply String.eqb_eq in Hp. simpl negb. cbv iota.
  destruct (negb (envConfigured req)); [discriminate |].
  destruct (tradeId req) as [i |]; [| discriminate].
  destruct (findTrade i (trades w)) as [t |] eqn:Hf; [| discriminate].
  destruct (Nat.eqb (trade_bot_id t) (bot_id (bot w))) eqn:Hb; [| discriminate].
  apply Nat.eqb_eq in Hb. simpl negb. cbv iota. unfold alreadyHasPnl.
  destruct (realized_pnl t) as [q |] eqn:Hr.
  - destruct (test_mode (bot w)); simpl; [| discriminate].
    destruct (negb (apiKeyFound out)); discriminate.
  - destruct (apiKeyFound out); [| discriminate]. simpl negb. cbv iota.
    destruct (test_mode (bot w)); [discriminate |].
    intros _. repeat split; trivial. exists i, t. auto.
Qed.

Lemma exchange_queried_only_for_live_unsettled_trade_witness :
  queried (handler Scenarios.liveOpen (Scenarios.reconcileOf 3)
             Scenarios.exchangeSays40) = true /\
  test_mode (bot Scenarios.liveOpen) = false.
Proof.
  split; [reflexivity |].
  exact (proj1 (proj2 (proj2
    (exchange_queried_only_for_live_unsettled_trade Scenarios.liveOpen
       (Scenarios.reconcileOf 3) Scenarios.exchangeSays40 eq_refl)))).
Defined.

(** X20.  The matching record is the first one of the exchange's list
    that carries the trade's order id, and when no record carries it the
    handler answers "not found" (a 200 with success false) and leaves the
    store as it is. *)
Theorem first_matching_record_or_not_found w req out i t records :
  method req = "POST"%string -> envConfigured req = true ->
  tradeId req = Some i -> findTrade i (trades w) = Some t ->
  trade_bot_id t = bot_id (bot w) -> realized_pnl t = None ->
  test_mode (bot w) = false -> apiKeyFound out = true ->
  reply out = PnlList records ->
  ((forall r, In r records -> cp_orderId r <> order_id t) ->
   handler w req out = mkOutcome w true (NoMatchingClosedPnl200 i)) /\
  (forall before m after,
     records = before ++ m :: after ->
     (forall r, In r before -> cp_orderId r <> order_id t) ->
     cp_orderId m = order_id t ->
     matchingPnl t records = Some m).
Proof.
  intros Hm He Hi Hf Hb Hp Ht Hk Hr. split.
  - intro Hnone.
    assert (M : matchingPnl t records = None).
    { unfold matchingPnl. destruct (find _ records) as [r |] eqn:E; trivial.
      apply find_some in E. destruct E as [Hin Heq].
      apply String.eqb_eq in Heq. exfalso. exact (Hnone r Hin Heq). }
    unfold handler, alreadyHasPnl.
    rewrite Hm, He, Hi, Hf, Hb, Nat.eqb_refl, Hp, Hk, Ht, Hr, M. reflexivity.
  - intros before m after -> Hbefore Hmatch. clear Hr. unfold matchingPnl.
    induction before as [| r before IH]; simpl.
    + rewrite Hmatch, String.eqb_refl. reflexivity.
    + assert (E : String.eqb (cp_orderId r) (order_id t) = false).
      { apply String.eqb_neq. apply Hbefore. now left. }
      rewrite E. apply IH. intros r' Hr'. apply Hbefore. now right.
Qed.

Lemma first_matching_record_or_not_found_witness :
  handler Scenarios.liveOpen (Scenarios.reconcileOf 3)
    (mkOutside true (PnlList [mkClosedPnl "ord-0" 12 48000 48100]) true true)
  = mkOutcome Scenarios.liveOpen true (NoMatchingClosedPnl200 3).
Proof.
  refine (proj1 (first_matching_record_or_not_found Scenarios.liveOpen
            (Scenarios.reconcileOf 3)
            (mkOutside true (PnlList [mkClosedPnl "ord-0" 12 48000 48100]) true true)
            3 Scenarios.openBuy [mkClosedPnl "ord-0" 12 48000 48100]
            eq_refl eq_refl eq_refl eq_refl eq_refl eq_refl eq_refl eq_refl eq_refl) _).
  intros r [<- | []]. simpl. discriminate.
Defined.

End UpdateTradePnlMore.

(** ** Pipeline: the close's estimate and the reconciliation it triggers *)

Module PipelineMore.
Import JS Model.

Lemma findTrade_NoDup ts t :
  NoDup (map id ts) -> In t ts -> findTrade (id t) ts = Some t.
Proof.
  unfold findTrade. induction ts as [| u ts IH]; intros Hnd Hin; [destruct Hin |].
  simpl in Hnd. inversion Hnd as [| x l Hnot Hnd' E]. subst.
  simpl. destruct Hin as [-> | Hin].
  - now rewrite Nat.eqb_refl.
  - destruct (Nat.eqb (id u) (id t)) eqn:E.
    + apply Nat.eqb_eq in E. exfalso. apply Hnot. rewrite E.
      now apply in_map.
    + now apply IH.
Qed.

(** X21.  With ids unique in the table: once a close on a bot that is not
    in test mode has written a PnL (its estimate or the alert's value) to
    the trade, the reconciliation it triggers is answered by the skip
    guard and changes nothing, whatever the exchange would report. *)
Theorem close_pnl_blocks_triggered_reconciliation exec w a out rout i p reason :
  NoDup (map id (trades w)) ->
  ProcessAlert.tradeWriteOk out = true ->
  test_mode (bot w) = false ->
  ProcessAlert.response (ProcessAlert.closeSignal exec w a out)
  = ProcessAlert.TradeClosed200 i (Some p) reason ->
  ProcessAlert.pnlUpdate (ProcessAlert.closeSignal exec w a out) = Some i /\
  UpdateTradePnl.handler
    (ProcessAlert.world (ProcessAlert.closeSignal exec w a out))
    (UpdateTradePnl.mkRequest "POST" true (Some i)) rout
  = UpdateTradePnl.mkOutcome
      (ProcessAlert.world (ProcessAlert.closeSignal exec w a out)) false
      (UpdateTradePnl.AlreadyHasPnl200 i p).
Proof.
  intros Hnd Hw Hm. unfold ProcessAlert.closeSignal.
  destruct (ProcessAlert.tradesReadable out); [| discriminate].
  destruct (ProcessAlert.findOpenTrade _ _ _) as [t |] eqn:Hf; [| discriminate].
  destruct (ProcessAlertMore.findOpenTrade_matches _ _ _ _ Hf)
    as (Hin & Hbot & _ & _).
  assert (F : forall cr pnl r orders,
    ProcessAlert.response (ProcessAlert.finishClose w out t cr pnl r orders)
    = ProcessAlert.TradeClosed200 i (Some p) reason ->
    ProcessAlert.pnlUpdate (ProcessAlert.finishClose w out t cr pnl r orders)
    = Some i /\
    UpdateTradePnl.handler
      (ProcessAlert.world (ProcessAlert.finishClose w out t cr pnl r orders))
      (UpdateTradePnl.mkRequest "POST" true (Some i)) rout
    = UpdateTradePnl.mkOutcome
        (ProcessAlert.world (ProcessAlert.finishClose w out t cr pnl r orders))
        false (UpdateTradePnl.AlreadyHasPnl200 i p)).
  { intros cr pnl r orders H. simpl in H. injection H as <- -> _.
    split; [simpl; now rewrite Hm |].
    apply UpdateTradePnlFacts.skip_guard
      with (t := ProcessAlert.closeFields r (Some p) cr t); trivial.
    - simpl. rewrite Hw.
      rewrite UpdateTradePnlFacts.findTrade_updateTrade by reflexivity.
      now rewrite (findTrade_NoDup _ _ Hnd Hin).
    - simpl. rewrite Hbot. destruct (_ && _); reflexivity.
    - simpl. destruct (_ && _); exact Hm. }
  destruct (negb (truthy (stop_loss t)) && negb (truthy (take_profit t)));
    [| apply F].
  rewrite Hm. destruct (exec _); [discriminate | apply F].
Qed.

Lemma close_pnl_blocks_triggered_reconciliation_witness :
  exists p,
    ProcessAlert.response
      (ProcessAlert.closeSignal (Scenarios.fillsAt 50500) Scenarios.liveOpen
         (Scenarios.alertWithState (ProcessAlert.JString "close")) Scenarios.calm)
    = ProcessAlert.TradeClosed200 3 (Some p) "signal" /\
    UpdateTradePnl.response
      (UpdateTradePnl.handler
         (ProcessAlert.world
            (ProcessAlert.closeSignal (Scenarios.fillsAt 50500) Scenarios.liveOpen
               (Scenarios.alertWithState (ProcessAlert.JString "close"))
               Scenarios.calm))
         (UpdateTradePnl.mkRequest "POST" true (Some 3%nat)) Scenarios.exchangeSays40)
    = UpdateTradePnl.AlreadyHasPnl200 3 p.
Proof.
  eexists. split; [vm_compute; reflexivity |].
  rewrite (proj2 (close_pnl_blocks_triggered_reconciliation
             (Scenarios.fillsAt 50500) Scenarios.liveOpen
             (Scenarios.alertWithState (ProcessAlert.JString "close"))
             Scenarios.calm Scenarios.exchangeSays40 3 _ "signal"
             ltac:(repeat constructor; simpl; tauto) eq_refl eq_refl
             ltac:(vm_compute; reflexivity))).
  reflexivity.
Defined.

End PipelineMore.

(** ** The handler before position sizing *)

Module ProcessAlertBasicFacts.
Import JS JSFacts Model ProcessAlertBasic.

(** The risk check of this handler is the daily-loss gate of the later
    one followed by the position check. *)
Lemma riskChecks_gate_then_position b a rows :
  riskChecks b a rows
  = match ProcessAlert.riskGate b rows with
    | ProcessAlert.Deny d l => DailyLossDenied d l
    | ProcessAlert.Allow =>
        if truthy (daily_loss_limit b) || truthy (max_position_size b)
        then positionCheck b a else Pass
    end.
Proof.
  unfold riskChecks, ProcessAlert.riskGate.
  destruct (truthy (daily_loss_limit b) || truthy (max_position_size b));
    trivial.
  destruct (daily_loss_limit b) as [limit |]; trivial.
  destruct (gtb limit 0); trivial.
  destruct rows as [rows |]; trivial.
  now destruct (ltb (ProcessAlert.dailyPnL rows) 0
                && geb (abs (ProcessAlert.dailyPnL rows)) limit).
Qed.

Lemma positionCheck_never_daily b a d l : positionCheck b a <> DailyLossDenied d l.
Proof.
  unfold positionCheck. destruct (max_position_size b); [| discriminate].
  destruct (_ && _); [| discriminate]. cbv zeta.
  destruct (gtb _ _); discriminate.
Qed.

(** X22.  Both versions of the handler deny for the daily loss on the same
    inputs and with the same figures. *)
Theorem daily_loss_denial_agrees b a rows d l :
  riskChecks b a rows = DailyLossDenied d l
  <-> ProcessAlert.riskGate b rows = ProcessAlert.Deny d l.
Proof.
  rewrite riskChecks_gate_then_position.
  destruct (ProcessAlert.riskGate b rows) as [| d' l'].
  - split; [| discriminate].
    destruct (_ || _); [| discriminate].
    intro H. exfalso. exact (positionCheck_never_daily _ _ _ _ H).
  - split; intro H; injection H as <- <-; reflexivity.
Qed.

Lemma response_recordOpen w u out o r orders s l :
  response (recordOpen w u out o r orders) <> PositionSizeExceeded403 s l.
Proof.
  unfold recordOpen.
  destruct (if test_mode (bot w) then ProcessAlert.simulatedPnl o out
            else (None, Some 0)).
  discriminate.
Qed.

(** The position check of this handler is the check of [RiskCheck] in
    exact arithmetic.  At the cap the arithmetic decides: 0.07 * 100 is
    7.000000000000001 in doubles, above a cap of 7, and is denied; the
    exact product is 7 and passes. *)
Example double_product_rounds_above_cap :
  (forall b a,
     positionCheck b a
     = RiskCheck.checkOf
         (RiskCheck.positionCheck RiskCheck.exact (max_position_size b)
            (nullish2 (ProcessAlert.a_quantity a) (default_quantity b))
            (ProcessAlert.opt0 (ProcessAlert.a_price a)))) /\
  RiskCheck.positionCheck RiskCheck.doubles (Some Variants.double7)
    Variants.double007 Variants.double100
  = RiskCheck.PositionSizeExceeded (A := RiskCheck.doubles)
      Variants.doubleAbove7 Variants.double7 /\
  RiskCheck.positionCheck RiskCheck.exact (Some (7 : RiskCheck.num RiskCheck.exact))
    (0.07 : RiskCheck.num RiskCheck.exact) (100 : RiskCheck.num RiskCheck.exact)
  = RiskCheck.SizePassed.
Proof.
  split; [| split; vm_compute; reflexivity].
  intros b a. unfold positionCheck, RiskCheck.positionCheck.
  destruct (max_position_size b) as [m |]; [| reflexivity].
  cbn [RiskCheck.gtb RiskCheck.exact RiskCheck.zero RiskCheck.mul RiskCheck.num].
  destruct (gtb m 0 && gtb (ProcessAlert.opt0 (ProcessAlert.a_price a)) 0);
    [| reflexivity].
  cbv zeta.
  now destruct (gtb (nullish2 (ProcessAlert.a_quantity a) (default_quantity b)
                     * ProcessAlert.opt0 (ProcessAlert.a_price a)) m).
Qed.

(** X23.  In exact arithmetic: in the handler before position sizing,
    with a positive cap on the bot, a positive price in the alert and the
    daily-loss check not denying, an open signal whose quantity (the
    alert's, else the bot's default, else 0) times price is above the cap
    is answered with the position-size denial carrying that notional and
    the cap, the store untouched and no order submitted; at or below the
    cap it is never answered so. *)
Theorem position_gate_rejects_oversized_alert exec w userId a out m p :
  max_position_size (bot w) = Some m -> 0 < m ->
  ProcessAlert.a_price a = Some p -> 0 < p ->
  ProcessAlert.riskGate (bot w) (ProcessAlert.todayTrades w userId out)
  = ProcessAlert.Allow ->
  (m < nullish2 (ProcessAlert.a_quantity a) (default_quantity (bot w)) * p ->
   openSignal exec w userId a out
   = mkOutcome w []
       (PositionSizeExceeded403
          (nullish2 (ProcessAlert.a_quantity a) (default_quantity (bot w)) * p) m)) /\
  (nullish2 (ProcessAlert.a_quantity a) (default_quantity (bot w)) * p <= m ->
   forall s l,
     response (openSignal exec w userId a out) <> PositionSizeExceeded403 s l).
Proof.
  intros Hm Hmpos Hp Hppos Hgate.
  assert (T : truthy (daily_loss_limit (bot w)) || truthy (max_position_size (bot w))
              = true).
  { rewrite Hm. simpl. destruct (Qeq_bool m 0) eqn:E.
    - apply Qeq_bool_iff in E. rewrite E in Hmpos. discriminate.
    - apply orb_true_r. }
  assert (C : riskChecks (bot w) a (ProcessAlert.todayTrades w userId out)
              = if gtb (nullish2 (ProcessAlert.a_quantity a)
                                 (default_quantity (bot w)) * p) m
                then PositionDenied
                       (nullish2 (ProcessAlert.a_quantity a)
                                 (default_quantity (bot w)) * p) m
                else Pass).
  { rewrite riskChecks_gate_then_position, Hgate, T.
    unfold positionCheck. rewrite Hm, Hp. simpl ProcessAlert.opt0.
    apply gtb_gt in Hmpos, Hppos. now rewrite Hmpos, Hppos. }
  unfold openSignal. rewrite C. split.
  - intro H. apply gtb_gt in H. now rewrite H.
  - intros H s l. apply gtb_le in H. rewrite H.
    destruct (ProcessAlert.instrument out); [| discriminate].
    destruct (test_mode (bot w)); [apply response_recordOpen |].
    destruct (exec _); [discriminate | apply response_recordOpen].
Qed.

Lemma position_gate_rejects_oversized_alert_witness :
  openSignal (Scenarios.fillsAt 50000) Variants.cappedEmpty 7 Variants.bigAlert
             Scenarios.calm
  = mkOutcome Variants.cappedEmpty [] (PositionSizeExceeded403 (0.05 * 50000) 1000).
Proof.
  refine (proj1 (position_gate_rejects_oversized_alert (Scenarios.fillsAt 50000)
            Variants.cappedEmpty 7 Variants.bigAlert Scenarios.calm 1000 50000
            eq_refl eq_refl eq_refl eq_refl eq_refl) _).
  vm_compute. reflexivity.
Defined.

(** X24.  In exact arithmetic, for an instrument with a positive step
    (the divisor of the rounding) and at most 100 decimals: the quantity
    this handler orders is never below the instrument's minimum, when the
    minimum is not negative and has at most [decimals] fractional
    digits. *)
Theorem basic_quantity_at_least_minimum a b i :
  0 < ProcessAlert.ins_step i -> (ProcessAlert.ins_decimals i <= 100)%nat ->
  0 <= ProcessAlert.ins_minQty i ->
  onGrid (ProcessAlert.ins_decimals i) (ProcessAlert.ins_minQty i) ->
  ProcessAlert.ins_minQty i <= adjustedQty a b i.
Proof.
  intros _ _ Hmin Hg. unfold adjustedQty. cbv zeta.
  apply toFixed_ge_grid; trivial.
  match goal with
  | |- _ <= (if ltb ?q _ then _ else _) => destruct (ltb q (ProcessAlert.ins_minQty i)) eqn:E
  end.
  - apply Qle_refl.
  - now apply ltb_ge in E.
Qed.

Lemma basic_quantity_at_least_minimum_witness :
  0.001 <= adjustedQty (Scenarios.alertWithState ProcessAlert.JMissing)
                       Scenarios.liveBot Scenarios.btcRule.
Proof.
  refine (basic_quantity_at_least_minimum _ _ Scenarios.btcRule _ _ _ _).
  - vm_compute. reflexivity.
  - vm_compute. lia.
  - vm_compute. discriminate.
  - exists 1%Z. vm_compute. reflexivity.
Defined.

(** X25.  With position sizing disabled and no cap on the bot (or no price
    in the alert), the later handler orders the same quantity as this
    one. *)
Theorem quantity_agrees_without_sizing a b i out :
  position_sizing_enabled b = false ->
  max_position_size b = None \/ ProcessAlert.a_price a = None ->
  ProcessAlert.adjustedQty a b i out = adjustedQty a b i.
Proof.
  intros Hs Hc. unfold ProcessAlert.adjustedQty, ProcessAlert.sizedQty, adjustedQty.
  rewrite Hs. simpl andb. cbv iota zeta. unfold ProcessAlert.defaultQty. cbv zeta.
  destruct Hc as [Hc | Hc]; rewrite Hc; trivial.
  destruct (max_position_size b); trivial.
  simpl orNum. assert (E : gtb 0 0 = false) by reflexivity.
  rewrite E, andb_false_r. reflexivity.
Qed.

Lemma quantity_agrees_without_sizing_witness :
  ProcessAlert.adjustedQty (Scenarios.alertWithState ProcessAlert.JMissing)
    Scenarios.liveBot Scenarios.btcRule Scenarios.calm
  = adjustedQty (Scenarios.alertWithState ProcessAlert.JMissing)
      Scenarios.liveBot Scenarios.btcRule.
Proof.
  apply quantity_agrees_without_sizing; [reflexivity | left; reflexivity].
Defined.

End ProcessAlertBasicFacts.
